(** * Retrieval, context assembly and conversation state of the report Q&A bot

    A shallow embedding of the Python sources

    - [src/s7_qa_system_light.py]  (class [QASystem]),
    - [tmp.py]                     (the Streamlit chat front end),
    - [src/s4_chunking_strategy.py] (the per-institution chunking driver),

    together with a model of the reciprocal-rank fuser of
    [src/s6_search_engine.py].

    Python strings are kept as their UTF-8 byte sequences, so that the
    Korean literals of the source appear verbatim.  Dictionary values are
    the scalars [None], booleans, integers and strings.  Output written
    with [print] is not part of the model. *)

From Stdlib Require Import Ascii QArith Qcanon.
From stdpp Require Import sorting.
From stdpp Require Import base numbers strings list gmap pretty.

Local Open Scope Z_scope.

(* ===================================================================== *)
(** * Part I: definitions                                                 *)
(* ===================================================================== *)

(** ** Python values, exceptions and results *)

(** The scalar values a JSON-loaded chunk dictionary holds. *)
Inductive pyval : Type :=
  | PNone
  | PBool (b : bool)
  | PInt (z : Z)
  | PStr (s : string).

#[global] Instance pyval_eq_dec : EqDecision pyval.
Proof. solve_decision. Defined.

(** Truth value testing: [None], [False], [0] and [''] are false. *)
Definition truthy (v : pyval) : bool :=
  match v with
  | PNone => false
  | PBool b => b
  | PInt z => negb (z =? 0)
  | PStr s => negb (bool_decide (s = ""))
  end.

(** [str(v)], which is what an f-string placeholder [{v}] inserts. *)
Definition py_str (v : pyval) : string :=
  match v with
  | PNone => "None"
  | PBool true => "True"
  | PBool false => "False"
  | PInt z => pretty z
  | PStr s => s
  end.

(** [type(v).__name__] *)
Definition py_type_name (v : pyval) : string :=
  match v with
  | PNone => "NoneType"
  | PBool _ => "bool"
  | PInt _ => "int"
  | PStr _ => "str"
  end.

Inductive pyexn : Type :=
  | TypeError (msg : string)
  | IndexError (msg : string)
  | AttributeError (msg : string)
  | OtherError (msg : string).

(** A call either returns a value or raises. *)
Inductive pyres (A : Type) : Type :=
  | Ok (a : A)
  | Raise (e : pyexn).
Arguments Ok {A} a.
Arguments Raise {A} e.

#[global] Instance pyres_ret : MRet pyres := fun A a => Ok a.
#[global] Instance pyres_bind : MBind pyres := fun A B f m =>
  match m with
  | Ok a => f a
  | Raise e => Raise e
  end.
#[global] Instance pyres_fmap : FMap pyres := fun A B f m =>
  match m with
  | Ok a => Ok (f a)
  | Raise e => Raise e
  end.

(** [str(e)] for an exception. *)
Definition exn_message (e : pyexn) : string :=
  match e with
  | TypeError msg | IndexError msg | AttributeError msg | OtherError msg => msg
  end.

(** ** String helpers *)

Definition nl : string := String "010"%char "".
Definition dquote : string := String "034"%char "".

(** [sep.join(parts)] *)
Fixpoint join (sep : string) (parts : list string) : string :=
  match parts with
  | [] => ""
  | [p] => p
  | p :: rest => p +:+ sep +:+ join sep rest
  end.

(** [s * n] *)
Fixpoint str_mul (s : string) (n : nat) : string :=
  match n with
  | O => ""
  | S n' => s +:+ str_mul s n'
  end.

(** [c in s] for a one-character string [c]. *)
Fixpoint contains_char (c : ascii) (s : string) : bool :=
  match s with
  | EmptyString => false
  | String a s' => if decide (a = c) then true else contains_char c s'
  end.

(** [s.split(c)] for a one-character separator [c]. *)
Fixpoint split_char (c : ascii) (s : string) : list string :=
  match s with
  | EmptyString => [""]
  | String a s' =>
      if decide (a = c) then "" :: split_char c s'
      else match split_char c s' with
           | [] => [String a ""]
           | w :: ws => String a w :: ws
           end
  end.

(** [l[-1]] *)
Definition py_last (l : list string) : pyres string :=
  match last l with
  | Some x => Ok x
  | None => Raise (IndexError "list index out of range")
  end.

(** [l[:stop]], with Python's reading of a negative [stop]. *)
Definition slice_to {A : Type} (l : list A) (stop : Z) : list A :=
  if 0 <=? stop then take (Z.to_nat stop) l
  else take (Z.to_nat (Z.of_nat (length l) + stop)) l.

(** [enumerate(l, start)] *)
Fixpoint enumerate {A : Type} (l : list A) (start : Z) : list (Z * A) :=
  match l with
  | [] => []
  | x :: l' => (start, x) :: enumerate l' (start + 1)
  end.

(** [t in s] for strings, as a proposition. *)
Definition substring (t s : string) : Prop :=
  exists pre post : string, s = pre +:+ t +:+ post.

(** ** [QASystem.build_context]  (src/s7_qa_system_light.py) *)

(** One search result: a dictionary read through its keys ["metadata"]
    (itself a dictionary of scalars) and ["content"]. *)
Record SearchResult : Type := mkResult {
  sr_metadata : option (gmap string pyval);
  sr_content : option pyval
}.

Definition backslash : ascii := "092"%char.
Definition slash : ascii := "/"%char.

Definition institution_map : gmap string string :=
  {[ "hd" := "HD 현대 리포트";
     "kb" := "KB 부동산 리포트";
     "khi" := "KHI 주택금융 리포트" ]}.

Definition doc_type_map : gmap string string :=
  {[ "text" := "본문";
     "table" := "표";
     "image" := "그래프/이미지" ]}.

(** [d.get(key, dflt)] on a string-keyed dictionary with an arbitrary key. *)
Definition map_get (d : gmap string string) (key : pyval) (dflt : string) : string :=
  match key with
  | PStr k => default dflt (d !! k)
  | _ => dflt
  end.

Definition no_info_context : string := "관련 정보를 찾을 수 없습니다.".

Definition context_header : string :=
  "다음은 2024 KB 부동산 리포트에서 검색된 관련 정보입니다:" +:+ nl.

Definition separator : string := str_mul "─" 80 +:+ nl.

(** The [if]/[elif] that computes [extra_info]. *)
Definition extra_info_of (metadata : gmap string pyval) : pyres string :=
  if truthy (default PNone (metadata !! "table_id")) then
    Ok (nl +:+ "표 ID: " +:+ py_str (default PNone (metadata !! "table_id")))
  else if truthy (default PNone (metadata !! "image_path")) then
    match default PNone (metadata !! "image_path") with
    | PStr image_path =>
        image_filename ←
          (if contains_char backslash image_path
           then py_last (split_char backslash image_path)
           else py_last (split_char slash image_path));
        Ok (nl +:+ "이미지: " +:+ image_filename)
    | v =>
        Raise (TypeError
                 ("argument of type '" +:+ py_type_name v +:+ "' is not iterable"))
    end
  else Ok "".

(** The f-string [formatted]. *)
Definition formatted_block (i : Z) (source_name doc_type : string)
    (page : pyval) (extra_info : string) (content : pyval) : string :=
  "[컨텍스트 " +:+ pretty i +:+ "]" +:+ nl +:+
  "출처 기관: " +:+ source_name +:+ nl +:+
  "타입: " +:+ doc_type +:+ nl +:+
  "페이지: " +:+ py_str page +:+ "페이지" +:+ extra_info +:+ nl +:+
  nl +:+
  "내용:" +:+ nl +:+
  py_str content +:+ nl +:+
  nl +:+
  "출처: [" +:+ pretty i +:+ "] " +:+ source_name +:+ " " +:+ doc_type +:+
  " (" +:+ py_str page +:+ "페이지)" +:+ nl.

(** The body of the [for i, result in enumerate(top_results, 1)] loop, up
    to the value of [formatted]. *)
Definition render_block (i : Z) (result : SearchResult) : pyres string :=
  let metadata := default ∅ (sr_metadata result) in
  let content := default (PStr "") (sr_content result) in
  let institution := default (PStr "unknown") (metadata !! "institution") in
  let source_name :=
    map_get institution_map institution (py_str institution +:+ " 리포트") in
  let doc_type :=
    map_get doc_type_map (default PNone (metadata !! "doc_type")) "본문" in
  let page := default (PStr "unknown") (metadata !! "page") in
  extra_info ← extra_info_of metadata;
  Ok (formatted_block i source_name doc_type page extra_info content).

(** The loop itself: two [append]s to [context_parts] per result. *)
Fixpoint render_loop (items : list (Z * SearchResult))
    (context_parts : list string) : pyres (list string) :=
  match items with
  | [] => Ok context_parts
  | (i, result) :: rest =>
      formatted ← render_block i result;
      render_loop rest (context_parts ++ [formatted; separator])
  end.

Definition build_context (search_results : list SearchResult)
    (max_chunks : Z) : pyres string :=
  match search_results with
  | [] => Ok no_info_context
  | _ =>
      let top_results := slice_to search_results max_chunks in
      context_parts ← render_loop (enumerate top_results 1) [context_header];
      Ok (join nl context_parts)
  end.

(** ** [str.strip()] on UTF-8 text *)

(** The code points Python counts as white space, by the length of their
    UTF-8 encoding: U+0009..U+000D, U+001C..U+0020; U+0085, U+00A0;
    U+1680, U+2000..U+200A, U+2028, U+2029, U+202F, U+205F, U+3000. *)
Definition is_ws1 (a : ascii) : bool :=
  let n := N_of_ascii a in
  ((9 <=? n) && (n <=? 13) || (28 <=? n) && (n <=? 32))%N.

Definition is_ws2 (a b : ascii) : bool :=
  let '(m, n) := (N_of_ascii a, N_of_ascii b) in
  ((m =? 194) && ((n =? 133) || (n =? 160)))%N.

Definition is_ws3 (a b c : ascii) : bool :=
  let '(l, m, n) := (N_of_ascii a, N_of_ascii b, N_of_ascii c) in
  ((l =? 225) && (m =? 154) && (n =? 128)
   || (l =? 226) && (m =? 128)
      && ((128 <=? n) && (n <=? 138) || (n =? 168) || (n =? 169) || (n =? 175))
   || (l =? 226) && (m =? 129) && (n =? 159)
   || (l =? 227) && (m =? 128) && (n =? 128))%N.

Fixpoint lstrip (s : string) : string :=
  match s with
  | String a s1 =>
      if is_ws1 a then lstrip s1
      else match s1 with
           | String b s2 =>
               if is_ws2 a b then lstrip s2
               else match s2 with
                    | String c s3 => if is_ws3 a b c then lstrip s3 else s
                    | EmptyString => s
                    end
           | EmptyString => s
           end
  | EmptyString => s
  end.

(** The same on the reversed byte sequence, for the right end. *)
Fixpoint lstrip_rev (s : string) : string :=
  match s with
  | String c s1 =>
      if is_ws1 c then lstrip_rev s1
      else match s1 with
           | String b s2 =>
               if is_ws2 b c then lstrip_rev s2
               else match s2 with
                    | String a s3 => if is_ws3 a b c then lstrip_rev s3 else s
                    | EmptyString => s
                    end
           | EmptyString => s
           end
  | EmptyString => s
  end.

Definition rstrip (s : string) : string := String.rev (lstrip_rev (String.rev s)).

Definition strip (s : string) : string := rstrip (lstrip s).

(** ** The chat-completion service *)

Record ChatRequest : Type := mkRequest {
  req_model : string;
  req_messages : list (string * string);   (* role, content *)
  req_temperature : Q;
  req_max_tokens : Z
}.

Record Usage : Type := mkUsage {
  prompt_tokens : Z;
  completion_tokens : Z;
  total_tokens : Z
}.

(** What the code reads of a response: [choices[j].message.content] for
    each choice, and [usage]. *)
Record ChatResponse : Type := mkResponse {
  choices : list (option string);
  usage : option Usage
}.

(** Computations over a mutable state [S] that may raise; what was written
    to the state before an exception stays written. *)
Definition stx (S A : Type) : Type := S -> pyres A * S.

#[global] Instance stx_ret {S} : MRet (stx S) := fun A a s => (Ok a, s).
#[global] Instance stx_bind {S} : MBind (stx S) := fun A B f m s =>
  match m s with
  | (Ok a, s') => f a s'
  | (Raise e, s') => (Raise e, s')
  end.

Definition lift_res {S A : Type} (r : pyres A) : stx S A := fun s => (r, s).

(** [try: body  except Exception as e: handler e] *)
Definition try_except {S A : Type} (body : stx S A)
    (handler : pyexn -> stx S A) : stx S A :=
  fun s =>
    match body s with
    | (Ok a, s') => (Ok a, s')
    | (Raise e, s') => handler e s'
    end.

(** Computations that call the service carry the log of the requests sent
    so far. *)
Definition CallLog : Type := list ChatRequest.

(** [l[0]] *)
Definition py_first {A : Type} (l : list A) : pyres A :=
  match l with
  | x :: _ => Ok x
  | [] => Raise (IndexError "list index out of range")
  end.

(** Attribute access or method call on a value that may be [None]. *)
Definition not_none {A : Type} (o : option A) : pyres A :=
  match o with
  | Some x => Ok x
  | None => Raise (AttributeError "'NoneType' object has no attribute")
  end.

(** ** [QASystem]  (src/s7_qa_system_light.py) *)

Definition system_prompt : string :=
"당신은 KB금융지주 경영연구소의 부동산 전문 애널리스트입니다.
2024 KB 부동산 보고서를 기반으로 건설사 실무진에게 정확하고 실무적인 정보를 제공합니다.

답변 가이드라인:
1. 제공된 리포트 내용만을 기반으로 답변하세요.
2. 수치 데이터는 정확하게 인용하세요.
3. 각 문장이나 정보의 끝에 반드시 출처 번호를 [1], [2] 형태로 표시하세요.
4. 모르는 내용은 추측하지 말고 " +:+ dquote +:+ "리포트에 해당 정보가 없습니다" +:+ dquote +:+ "라고 답하세요.
5. 건설사 실무진이 이해하기 쉽게 구조화된 형태로 답변하세요.

출처 표기 규칙:
- 각 문장 뒤에 [1], [2] 형태로 출처 번호 표기
- 답변 끝에 반드시 출처 목록 작성

답변 형식 예시:
2024년 서울 아파트 매매가격은 2.0% 상승했습니다. [1]
강남구는 전 고점을 돌파했습니다. [2]

출처:
[1] kb_report_2024.pdf 표Ⅰ-2. 지역별 주택 매매가격 변동률 (12페이지)
[2] kb_report_2024.pdf 본문 (25페이지)
".

Definition rewrite_prompt (query : string) : string :=
  "당신은 부동산 리포트 검색 전문가입니다." +:+ nl +:+
  "사용자 질문을 검색에 최적화된 형태로 다시 작성해주세요." +:+ nl +:+
  nl +:+
  "요구사항:" +:+ nl +:+
  "- 구어체를 문어체로 변환" +:+ nl +:+
  "- 키워드를 명확하게" +:+ nl +:+
  "- 관련 동의어 추가" +:+ nl +:+
  "- 간결하게 (1-2문장)" +:+ nl +:+
  nl +:+
  "원래 질문: " +:+ query +:+ nl +:+
  nl +:+
  "최적화된 질문:".

Definition rewrite_request (query : string) : ChatRequest :=
  {| req_model := "gpt-4o-mini";
     req_messages :=
       [("system", "당신은 검색 쿼리 최적화 전문가입니다.");
        ("user", rewrite_prompt query)];
     req_temperature := 3 # 10;
     req_max_tokens := 100 |}.

Definition user_prompt (query context : string) : string :=
  context +:+ nl +:+
  nl +:+
  "사용자 질문: " +:+ query +:+ nl +:+
  nl +:+
  "위 컨텍스트를 기반으로 사용자 질문에 답변해주세요." +:+ nl +:+
  "출처 번호 [1], [2] 등을 명시하세요.".

Definition failure_message : string := "답변 생성에 실패했습니다.".

Section QASystem.
(** [self.client.chat.completions.create]: what the [n]-th call of a run
    answers to its request. *)
Variable create : nat -> ChatRequest -> pyres ChatResponse.
(** [self.model] *)
Variable model : string.

Definition chat_create (req : ChatRequest) : stx CallLog ChatResponse :=
  fun log => (create (length log) req, log ++ [req]).

Definition rewrite_query (query : string) : stx CallLog string :=
  try_except
    (response ← chat_create (rewrite_request query);
     content ← lift_res (py_first (choices response));
     rewritten ← lift_res (strip <$> not_none content);
     mret rewritten)
    (fun _ => mret query).

Definition answer_request (query context : string) (temperature : Q)
    (max_tokens : Z) : ChatRequest :=
  {| req_model := model;
     req_messages :=
       [("system", system_prompt); ("user", user_prompt query context)];
     req_temperature := temperature;
     req_max_tokens := max_tokens |}.

Definition generate_answer (query context : string) (temperature : Q)
    (max_tokens : Z) : stx CallLog (option string) :=
  try_except
    (response ← chat_create (answer_request query context temperature max_tokens);
     answer ← lift_res (py_first (choices response));
     _ ← lift_res (not_none (usage response));
     mret answer)
    (fun _ => mret None).

Definition answer_question (query : string)
    (search_results : list SearchResult) (rewrite : bool) : stx CallLog string :=
  query ← (if rewrite then rewrite_query query else mret query);
  context ← lift_res (build_context search_results 5);
  answer ← generate_answer query context (3 # 10) 2000;
  match answer with
  | None => mret failure_message
  | Some text =>
      if bool_decide (text = "") then mret failure_message else mret text
  end.
End QASystem.

(** ** The chat front end  (tmp.py) *)

(** [s[:n]] on a string counts code points: a byte [10xxxxxx] continues the
    code point before it. *)
Definition is_continuation (a : ascii) : bool :=
  let n := N_of_ascii a in ((128 <=? n) && (n <? 192))%N.

Fixpoint utf8_take (n : nat) (s : string) : string :=
  match s with
  | EmptyString => ""
  | String a s' =>
      if is_continuation a then String a (utf8_take n s')
      else match n with
           | O => ""
           | S n' => String a (utf8_take n' s')
           end
  end.

(** [v[:n]] for a scalar value: of these only a string can be sliced. *)
Definition py_prefix (n : nat) (v : pyval) : pyres string :=
  match v with
  | PStr s => Ok (utf8_take n s)
  | _ =>
      Raise (TypeError
               ("'" +:+ py_type_name v +:+ "' object is not subscriptable"))
  end.

Record Reference : Type := mkReference {
  ref_page : pyval;
  ref_text : string;
  ref_source : string;
  ref_institution : pyval
}.

(** One entry of [st.session_state.messages]; a user entry has no
    ["references"] key. *)
Record Message : Type := mkMessage {
  role : string;
  content : string;
  references : option (list Reference)
}.

Definition ui_institution_map : gmap string string :=
  {[ "hd" := "HD 현대"; "kb" := "KB금융"; "khi" := "KHI 주택금융" ]}.

Definition ui_doc_type_map : gmap string string :=
  {[ "text" := "본문"; "table" := "표"; "image" := "그래프" ]}.

(** [institution_map.get(institution, institution)] *)
Definition map_get_val (d : gmap string string) (key : pyval) : pyval :=
  match key with
  | PStr k => from_option PStr key (d !! k)
  | _ => key
  end.

(** The body of the reference loop of [generate_response]. *)
Definition make_reference (result : SearchResult) : pyres Reference :=
  let metadata := default ∅ (sr_metadata result) in
  let content := default (PStr "") (sr_content result) in
  let institution := default (PStr "unknown") (metadata !! "institution") in
  let source_name := map_get_val ui_institution_map institution in
  let doc_type :=
    map_get ui_doc_type_map (default PNone (metadata !! "doc_type")) "본문" in
  text ← py_prefix 300 content;
  Ok {| ref_page := default (PStr "N/A") (metadata !! "page");
        ref_text := text;
        ref_source := py_str source_name +:+ " - " +:+ doc_type;
        ref_institution := source_name |}.

Fixpoint reference_loop (results : list SearchResult)
    (references : list Reference) : pyres (list Reference) :=
  match results with
  | [] => Ok references
  | result :: rest =>
      r ← make_reference result;
      reference_loop rest (references ++ [r])
  end.

Definition qa_missing_message : string :=
  "⚠️ QA 시스템이 초기화되지 않았습니다. .env 파일에 OPENAI_API_KEY를 설정해주세요.".

Definition db_missing_message : string :=
  "⚠️ 벡터 DB가 로드되지 않았습니다. 먼저 문서를 업로드하고 벡터 DB를 생성해주세요.".

Definition error_message (e : pyexn) : string :=
  "오류가 발생했습니다: " +:+ exn_message e.

Section FrontEnd.
(** Whatever the two collaborator objects keep between calls (the search
    index, the service behind the QA object, its own history). *)
Variable World : Type.

(** [st.session_state.search_engine], through the one method called. *)
Record SearchEngineObj : Type := mkSearchEngine {
  se_hybrid_search : string -> Z -> stx World (list SearchResult)
}.

(** [st.session_state.qa_system], through the methods called:
    [build_context(search_results, max_chunks=top_k)],
    [generate_answer(query, context, temperature=..., use_history=...)]
    and [clear_history()]. *)
Record QAObj : Type := mkQA {
  qa_build_context : list SearchResult -> Z -> stx World string;
  qa_generate_answer : string -> string -> Q -> bool -> stx World (option string);
  qa_clear_history : stx World unit
}.

Record Session : Type := mkSession {
  messages : list Message;
  user_questions : list string;
  qa_system : option QAObj;
  search_engine : option SearchEngineObj
}.

Record AppState : Type := mkApp {
  session : Session;
  world : World
}.

Definition get_session : stx AppState Session :=
  fun s => (Ok (session s), s).

Definition put_session (ss : Session) : stx AppState unit :=
  fun s => (Ok tt, {| session := ss; world := world s |}).

(** A method call on a collaborator. *)
Definition call {A : Type} (m : stx World A) : stx AppState A :=
  fun s =>
    let '(r, w) := m (world s) in
    (r, {| session := session s; world := w |}).

(** [st.session_state.messages.append(m)] *)
Definition append_message (m : Message) : stx AppState unit :=
  ss ← get_session;
  put_session {| messages := messages ss ++ [m];
                 user_questions := user_questions ss;
                 qa_system := qa_system ss;
                 search_engine := search_engine ss |}.

(** [st.session_state.user_questions.append(q)] *)
Definition append_question (q : string) : stx AppState unit :=
  ss ← get_session;
  put_session {| messages := messages ss;
                 user_questions := user_questions ss ++ [q];
                 qa_system := qa_system ss;
                 search_engine := search_engine ss |}.

(** [st.session_state.messages = []] *)
Definition reset_messages : stx AppState unit :=
  ss ← get_session;
  put_session {| messages := [];
                 user_questions := user_questions ss;
                 qa_system := qa_system ss;
                 search_engine := search_engine ss |}.

Definition generate_response (query : string) (temperature : Q)
    (top_k : Z) (use_conversation : bool)
    : stx AppState (string * list Reference) :=
  ss ← get_session;
  match qa_system ss with
  | None => mret (qa_missing_message, [])
  | Some qa =>
      match search_engine ss with
      | None => mret (db_missing_message, [])
      | Some engine =>
          try_except
            (search_results ← call (se_hybrid_search engine query top_k);
             context ← call (qa_build_context qa search_results top_k);
             answer ← call (qa_generate_answer qa query context temperature
                              use_conversation);
             match answer with
             | None => mret (failure_message, [])
             | Some text =>
                 if bool_decide (text = "") then mret (failure_message, [])
                 else
                   refs ← lift_res
                     (reference_loop (slice_to search_results top_k) []);
                   mret (text, refs)
             end)
            (fun e => mret (error_message e, []))
      end
  end.

(** The [if user_input:] block of the script; [user_input] is [None] when
    nothing was entered. *)
Definition on_user_input (user_input : option string) (temperature : Q)
    (top_k : Z) (use_conversation : bool) : stx AppState unit :=
  match user_input with
  | None => mret tt
  | Some text =>
      if bool_decide (text = "") then mret tt
      else
        _ ← append_question text;
        _ ← append_message
              {| role := "user"; content := text; references := None |};
        '(bot_response, refs) ←
           generate_response text temperature top_k use_conversation;
        append_message
          {| role := "assistant"; content := bot_response;
             references := Some refs |}
  end.

(** The reset button of the sidebar. *)
Definition on_reset : stx AppState unit :=
  _ ← reset_messages;
  ss ← get_session;
  match qa_system ss with
  | Some qa => call (qa_clear_history qa)
  | None => mret tt
  end.

(** A sequence of script runs, each with the text entered (if any) and
    the widget values of that run. *)
Fixpoint run_inputs (inputs : list string) (temperature : Q) (top_k : Z)
    (use_conversation : bool) : stx AppState unit :=
  match inputs with
  | [] => mret tt
  | text :: rest =>
      _ ← on_user_input (Some text) temperature top_k use_conversation;
      run_inputs rest temperature top_k use_conversation
  end.

(** The state with other messages, questions and collaborator state. *)
Definition with_history (s : AppState) (ms : list Message)
    (qs : list string) (w : World) : AppState :=
  {| session := {| messages := ms; user_questions := qs;
                   qa_system := qa_system (session s);
                   search_engine := search_engine (session s) |};
     world := w |}.

(** A sequence of [st.session_state.messages.append(turn)]. *)
Fixpoint append_turns (turns : list Message) : stx AppState unit :=
  match turns with
  | [] => mret tt
  | turn :: rest => _ ← append_message turn; append_turns rest
  end.
End FrontEnd.

Arguments se_hybrid_search {World} _ _ _ _.
Arguments qa_build_context {World} _ _ _ _.
Arguments qa_generate_answer {World} _ _ _ _ _ _.
Arguments qa_clear_history {World} _ _.
Arguments mkQA {World} _ _ _.
Arguments mkSearchEngine {World} _.
Arguments mkSession {World} _ _ _ _.
Arguments mkApp {World} _ _.
Arguments messages {World} _.
Arguments user_questions {World} _.
Arguments qa_system {World} _.
Arguments search_engine {World} _.
Arguments session {World} _.
Arguments world {World} _.
Arguments generate_response {World} _ _ _ _ _.
Arguments on_user_input {World} _ _ _ _ _.
Arguments on_reset {World} _.
Arguments run_inputs {World} _ _ _ _ _.
Arguments append_message {World} _ _.
Arguments append_turns {World} _ _.
Arguments with_history {World} _ _ _ _.

(** The object the script actually builds: [QASystem] of
    src/s7_qa_system_light.py, whose [generate_answer] has no [use_history]
    parameter and which has no [clear_history] method. *)
Definition light_qa : QAObj CallLog :=
  {| qa_build_context := fun rs k => lift_res (build_context rs k);
     qa_generate_answer := fun _ _ _ _ =>
       lift_res (Raise (TypeError
         "QASystem.generate_answer() got an unexpected keyword argument 'use_history'"));
     qa_clear_history :=
       lift_res (Raise (AttributeError
         "'QASystem' object has no attribute 'clear_history'")) |}.

(** ** The chunking driver  (src/s4_chunking_strategy.py) *)

Section Chunking.
(** Chunks, and the table and image records of the processed report, are
    only handed on to [ChunkingStrategy]. *)
Variables Chunk TableRecord ImageRecord : Type.

Record TextBlock : Type := mkTextBlock {
  tb_text : pyval;
  tb_page_num : pyval
}.

(** The methods of [ChunkingStrategy] the driver calls. *)
Record ChunkingStrategy : Type := mkChunker {
  chunk_pages : list TextBlock -> pyval -> pyres (list Chunk);
  make_table_to_chunk : TableRecord -> pyres Chunk;
  make_image_to_chunk : ImageRecord -> pyres Chunk;
  apply_overlap : list Chunk -> pyres (list Chunk);
  save_chunks : list Chunk -> string -> pyres unit
}.

(** The JSON document [<institution>_report_processed.json]; a field is
    [None] when its key is absent. *)
Record ProcessedReport : Type := mkReport {
  rp_institution : option pyval;
  rp_texts : option (list (gmap string pyval));
  rp_tables : option (list TableRecord);
  rp_images : option (list ImageRecord)
}.

(** [ChunkingStrategy(chunk_size, overlap, model)] *)
Variable new_chunker : Z -> Z -> string -> ChunkingStrategy.
(** The input file of an institution: [None] when it does not exist, else
    what [json.load] gives for it, a report or an exception. *)
Variable read_report : string -> option (pyres ProcessedReport).
(** [str(project_root / c1 / ... / cn)]: the path below the project root
    with the given components. *)
Variable path_str : list string -> string.

(** [v.upper()] inside a [print]: its value is only printed, but the call
    raises when [v] is not a string. *)
Definition call_upper (v : pyval) : pyres unit :=
  match v with
  | PStr _ => Ok tt
  | _ =>
      Raise (AttributeError
               ("'" +:+ py_type_name v +:+ "' object has no attribute 'upper'"))
  end.

(** [for text_data in texts: text_blocks.append({...})] *)
Fixpoint text_block_loop (texts : list (gmap string pyval))
    (text_blocks : list TextBlock) : list TextBlock :=
  match texts with
  | [] => text_blocks
  | text_data :: rest =>
      text_block_loop rest
        (text_blocks ++
           [{| tb_text := default (PStr "") (text_data !! "text");
               tb_page_num := default (PInt 0) (text_data !! "page_num") |}])
  end.

(** [for table_data in tables: table_chunks.append(make_table_to_chunk(table_data))] *)
Fixpoint table_loop (chunker : ChunkingStrategy) (tables : list TableRecord)
    (table_chunks : list Chunk) : pyres (list Chunk) :=
  match tables with
  | [] => Ok table_chunks
  | table_data :: rest =>
      table_chunk ← make_table_to_chunk chunker table_data;
      table_loop chunker rest (table_chunks ++ [table_chunk])
  end.

(** [for image_data in images: image_chunks.append(make_image_to_chunk(image_data))] *)
Fixpoint image_loop (chunker : ChunkingStrategy) (images : list ImageRecord)
    (image_chunks : list Chunk) : pyres (list Chunk) :=
  match images with
  | [] => Ok image_chunks
  | image_data :: rest =>
      image_chunk ← make_image_to_chunk chunker image_data;
      image_loop chunker rest (image_chunks ++ [image_chunk])
  end.

(** [str(output_file)], with
    [output_file = project_root / "data" / "processed" / institution
                   / f"{institution}_chunks.json"]. *)
Definition output_file (institution : string) : string :=
  path_str ["data"; "processed"; institution; institution +:+ "_chunks.json"].

(** Steps 1 to 4 of [chunk_single_institution]: the three chunk lists and
    their concatenation [all_chunks]. *)
Definition collect_chunks (chunker : ChunkingStrategy) (institution : string)
    (data : ProcessedReport)
    : pyres (list Chunk * list Chunk * list Chunk * list Chunk) :=
  let institution_code := default (PStr institution) (rp_institution data) in
  _ ← call_upper institution_code;
  let texts := default [] (rp_texts data) in
  let tables := default [] (rp_tables data) in
  let images := default [] (rp_images data) in
  let text_blocks := text_block_loop texts [] in
  text_chunks ← chunk_pages chunker text_blocks institution_code;
  table_chunks ← table_loop chunker tables [];
  image_chunks ← image_loop chunker images [];
  let all_chunks := text_chunks ++ table_chunks ++ image_chunks in
  Ok (text_chunks, table_chunks, image_chunks, all_chunks).

(** Returns [None] when the input file does not exist. *)
Definition chunk_single_institution (institution : string)
    : pyres (option (list Chunk)) :=
  match read_report institution with
  | None => Ok None
  | Some loaded =>
      let chunker := new_chunker 800 100 "gpt-4" in
      data ← loaded;
      '(_, _, _, all_chunks) ← collect_chunks chunker institution data;
      final_chunks ← apply_overlap chunker all_chunks;
      _ ← save_chunks chunker final_chunks (output_file institution);
      Ok (Some final_chunks)
  end.
End Chunking.

Arguments mkChunker {Chunk TableRecord ImageRecord} _ _ _ _ _.
Arguments mkReport {TableRecord ImageRecord} _ _ _ _.
Arguments make_table_to_chunk {Chunk TableRecord ImageRecord} _ _.
Arguments make_image_to_chunk {Chunk TableRecord ImageRecord} _ _.
Arguments chunk_pages {Chunk TableRecord ImageRecord} _ _ _.
Arguments apply_overlap {Chunk TableRecord ImageRecord} _ _.
Arguments save_chunks {Chunk TableRecord ImageRecord} _ _ _.
Arguments rp_institution {TableRecord ImageRecord} _.
Arguments rp_texts {TableRecord ImageRecord} _.
Arguments rp_tables {TableRecord ImageRecord} _.
Arguments rp_images {TableRecord ImageRecord} _.
Arguments table_loop {Chunk TableRecord ImageRecord} _ _ _.
Arguments image_loop {Chunk TableRecord ImageRecord} _ _ _.
Arguments collect_chunks {Chunk TableRecord ImageRecord} _ _ _.
Arguments chunk_single_institution {Chunk TableRecord ImageRecord} _ _ _ _.

(** ** The rank fuser  (src/s6_search_engine.py) *)

(** Modelled from the spec: the source of the rank fuser is not part of the
    sources at hand; a [RankedHit] is one entry of the ranked list a
    retrieval method returns, with a 1-based [rank]. *)
Record RankedHit : Type := mkHit {
  chunk_id : string;
  rank : positive;
  raw_score : Q
}.

(** Modelled from the spec: the source of the rank fuser is not part of the
    sources at hand; a [FusedResult] is a chunk, by its id, with its fused
    score, kept as an exact rational. *)
Record FusedResult : Type := mkFused {
  fr_chunk_id : string;
  fr_rrf_score : Qc
}.

(** Modelled from the spec: the source of the rank fuser is not part of the
    sources at hand; [rank_in_list(chunk)] is the rank a list gives to a
    chunk, if the chunk is in the list. *)
Fixpoint rank_in_list (c : string) (hits : list RankedHit) : option positive :=
  match hits with
  | [] => None
  | h :: rest => if decide (chunk_id h = c) then Some (rank h) else rank_in_list c rest
  end.

(** Modelled from the spec: the source of the rank fuser is not part of the
    sources at hand; one list contributes [1 / (k + rank_in_list(chunk))] to
    a chunk it ranks and 0 to a chunk it does not hold. *)
Definition contribution (k : N) (c : string) (hits : list RankedHit) : Qc :=
  match rank_in_list c hits with
  | Some r => (1 / Q2Qc (inject_Z (Z.of_N k + Z.pos r)))%Qc
  | None => 0%Qc
  end.

(** Modelled from the spec: the source of the rank fuser is not part of the
    sources at hand; [rrf_score(chunk)] is the sum of the contributions of
    the named lists. *)
Definition rrf_score (k : N) (lists : list (string * list RankedHit))
    (c : string) : Qc :=
  foldr Qcplus 0%Qc
    ((fun named : string * list RankedHit => contribution k c named.2) <$> lists).

(** Modelled from the spec: the source of the rank fuser is not part of the
    sources at hand; the distinct chunk ids that appear in at least one
    list. *)
Definition distinct_ids (lists : list (string * list RankedHit)) : list string :=
  remove_dups
    (concat ((fun named : string * list RankedHit => chunk_id <$> named.2) <$> lists)).

(** Modelled from the spec: the source of the rank fuser is not part of the
    sources at hand; [a] may stand before [b] when its score is higher or,
    on equal scores, its chunk id is not larger (strings compare by code
    point, which is the order of their UTF-8 bytes). *)
Definition fused_leb (a b : FusedResult) : bool :=
  match (fr_rrf_score b ?= fr_rrf_score a)%Qc with
  | Lt => true
  | Eq => String.leb (fr_chunk_id a) (fr_chunk_id b)
  | Gt => false
  end.

Definition fused_le (a b : FusedResult) : Prop := fused_leb a b.

#[global] Instance fused_le_dec : RelDecision fused_le.
Proof. intros a b. unfold fused_le. apply _. Defined.

(** Modelled from the spec: the source of the rank fuser is not part of the
    sources at hand; the fused output is one result per distinct chunk id,
    sorted by [rrf_score] descending and [chunk_id] ascending on ties. *)
Definition fuse (k : N) (lists : list (string * list RankedHit))
    : list FusedResult :=
  merge_sort fused_le
    ((fun c => {| fr_chunk_id := c; fr_rrf_score := rrf_score k lists c |})
       <$> distinct_ids lists).

Section HybridSearch.
(** The two retrieval methods, as ranked lists for a query. *)
Variable keyword_search : string -> list RankedHit.
Variable vector_search : string -> list RankedHit.
(** The smoothing constant (60 by default). *)
Variable k : N.

(** Modelled from the spec: the source of [hybrid_search] is not part of
    the sources at hand; it returns the first [top_k] fused results. *)
Definition hybrid_search (query : string) (top_k : nat) : list FusedResult :=
  take top_k
    (fuse k [("keyword", keyword_search query); ("vector", vector_search query)]).
End HybridSearch.

(** ** Notions used to state the properties *)

(** The citation indices the loop of [build_context] hands out, in order. *)
Definition citation_indices (search_results : list SearchResult)
    (max_chunks : Z) : list Z :=
  (enumerate (slice_to search_results max_chunks) 1).*1.

(** How many results [search_results[:max_chunks]] keeps of [L]. *)
Definition rendered_count (L : nat) (max_chunks : Z) : nat :=
  if 0 <=? max_chunks then Nat.min L (Z.to_nat max_chunks)
  else Z.to_nat (Z.of_nat L + max_chunks).

(** [image_path], when the metadata has it, is a string or [None]. *)
Definition image_path_typed (result : SearchResult) : bool :=
  match default ∅ (sr_metadata result) !! "image_path" with
  | None | Some PNone | Some (PStr _) => true
  | Some _ => false
  end.

(** The text [{content}] stands for in a block. *)
Definition content_text (result : SearchResult) : string :=
  py_str (default (PStr "") (sr_content result)).

(** The heading of the block with citation index [i]. *)
Definition block_heading (i : Z) : string := "[컨텍스트 " +:+ pretty i +:+ "]".

(** The rendered context for the given blocks. *)
Definition context_of_blocks (blocks : list string) : string :=
  join nl (context_header :: concat ((fun b => [b; separator]) <$> blocks)).

(** ** Sample data *)

Definition sample_table : SearchResult :=
  {| sr_metadata := Some {[ "institution" := PStr "kb";
                            "doc_type" := PStr "table";
                            "page" := PInt 12;
                            "table_id" := PStr "T1";
                            "image_path" := PStr "img/p12.png" ]};
     sr_content := Some (PStr "매매가격 2.0% 상승") |}.

Definition sample_image : SearchResult :=
  {| sr_metadata := Some {[ "institution" := PStr "hd";
                            "doc_type" := PStr "image";
                            "page" := PInt 3;
                            "image_path" := PStr "data/img/fig1.png" ]};
     sr_content := Some (PStr "그래프 설명") |}.

Definition sample_text : SearchResult :=
  {| sr_metadata := Some {[ "institution" := PStr "khi";
                            "doc_type" := PStr "text";
                            "page" := PInt 7 ]};
     sr_content := Some (PStr "본문 내용") |}.

Definition sample_results : list SearchResult :=
  [sample_table; sample_image; sample_text].

(** A service whose first call fails and which answers every later call. *)
Definition flaky_service (n : nat) (req : ChatRequest) : pyres ChatResponse :=
  match n with
  | O => Raise (OtherError "Connection error.")
  | S _ => Ok {| choices := [Some "2.0% 상승했습니다. [1]"];
                 usage := Some {| prompt_tokens := 900;
                                  completion_tokens := 20;
                                  total_tokens := 920 |} |}
  end.

(** A service that always fails. *)
Definition dead_service (n : nat) (req : ChatRequest) : pyres ChatResponse :=
  Raise (OtherError "Connection error.").

(** Collaborators without state of their own: a search engine that finds
    the sample results, and a QA object whose answer generation fails. *)
Definition sample_engine : SearchEngineObj unit :=
  {| se_hybrid_search := fun _ _ => mret sample_results |}.

Definition failing_qa : QAObj unit :=
  {| qa_build_context := fun rs k => lift_res (build_context rs k);
     qa_generate_answer := fun _ _ _ _ => mret None;
     qa_clear_history := mret tt |}.

Definition fresh_app : AppState unit :=
  {| session := {| messages := []; user_questions := [];
                   qa_system := Some failing_qa;
                   search_engine := Some sample_engine |};
     world := tt |}.

Definition user_turn (text : string) : Message :=
  {| role := "user"; content := text; references := None |}.

Definition assistant_turn (text : string) (refs : list Reference) : Message :=
  {| role := "assistant"; content := text; references := Some refs |}.

(** A chunker over texts: one chunk per page, table and image, and no
    overlap. *)
Definition sample_chunker : ChunkingStrategy string string string :=
  {| chunk_pages := fun blocks _ => Ok ((fun b => py_str (tb_text b)) <$> blocks);
     make_table_to_chunk := fun table => Ok ("table: " +:+ table);
     make_image_to_chunk := fun image => Ok ("image: " +:+ image);
     apply_overlap := fun chunks => Ok chunks;
     save_chunks := fun _ _ => Ok tt |}.

Definition sample_report : ProcessedReport string string :=
  {| rp_institution := Some (PStr "kb");
     rp_texts := Some [ {[ "text" := PStr "page one"; "page_num" := PInt 1 ]} ];
     rp_tables := Some ["t1"; "a very long table"];
     rp_images := Some ["fig1"] |}.

(** The ranked lists of the worked example: lexical ranks A:1, B:2 and
    semantic ranks B:1, C:2. *)
Definition lexical_hits : list RankedHit :=
  [ {| chunk_id := "A"; rank := 1; raw_score := 7 # 2 |};
    {| chunk_id := "B"; rank := 2; raw_score := 5 # 2 |} ].

Definition semantic_hits : list RankedHit :=
  [ {| chunk_id := "B"; rank := 1; raw_score := 9 # 10 |};
    {| chunk_id := "C"; rank := 2; raw_score := 8 # 10 |} ].

(** ** The rest of the front end  (tmp.py) *)

(** [len(s)]: the number of code points of a string. *)
Fixpoint utf8_length (s : string) : nat :=
  match s with
  | EmptyString => O
  | String a s' =>
      if is_continuation a then utf8_length s' else S (utf8_length s')
  end.

(** [l[start:]], with Python's reading of a negative [start]. *)
Definition slice_from {A : Type} (l : list A) (start : Z) : list A :=
  if 0 <=? start then drop (Z.to_nat start) l
  else drop (Z.to_nat (Z.of_nat (length l) + start)) l.

(** The sidebar: [recent_questions = user_questions[-4:][::-1]]. *)
Definition recent_questions (user_questions : list string) : list string :=
  reverse (slice_from user_questions (-4)).

(** The label of a recent-question button:
    [question if len(question) <= 30 else question[:27] + "..."]. *)
Definition display_question (question : string) : string :=
  if (utf8_length question <=? 30)%nat then question
  else utf8_take 27 question +:+ "...".

(** What the reference panel of the right column shows: one line per
    reference, or the caption. *)
Inductive Panel : Type :=
  | PanelLines (lines : list string)
  | PanelCaption (text : string).

Definition no_results_caption : string := "아직 검색 결과가 없습니다.".

(** [f"**[{idx}]** {source} ({page}페이지)"] *)
Definition reference_line (idx : Z) (ref : Reference) : string :=
  "**[" +:+ pretty idx +:+ "]** " +:+ ref_source ref +:+
  " (" +:+ py_str (ref_page ref) +:+ "페이지)".

Definition reference_panel (messages : list Message) : Panel :=
  match messages with
  | [] => PanelCaption no_results_caption
  | _ =>
      let last_messages :=
        filter (fun msg => role msg = "assistant") messages in
      match last last_messages with
      | Some msg =>
          match references msg with
          | Some refs =>
              match refs with
              | [] => PanelCaption no_results_caption
              | _ =>
                  PanelLines
                    ((fun ir : Z * Reference => reference_line ir.1 ir.2)
                       <$> enumerate refs 1)
              end
          | None => PanelCaption no_results_caption
          end
      | None => PanelCaption no_results_caption
      end
  end.

(** ** [main] of the chunking driver  (src/s4_chunking_strategy.py) *)

Section ChunkingMain.
Variables Chunk TableRecord ImageRecord : Type.
Variable new_chunker :
  Z -> Z -> string -> ChunkingStrategy Chunk TableRecord ImageRecord.
Variable read_report :
  string -> option (pyres (ProcessedReport TableRecord ImageRecord)).
Variable path_str : list string -> string.

Definition institutions : list string := ["hd"; "kb"; "khi"].

(** One turn of the loop of [main]: [results[institution] = len(chunks)]
    when the chunking returned chunks; an exception is caught and the loop
    goes on. *)
Definition main_step (results : gmap string nat) (institution : string)
    : gmap string nat :=
  match chunk_single_institution new_chunker read_report path_str institution
  with
  | Ok (Some chunks) =>
      match chunks with
      | [] => results
      | _ => <[institution := length chunks]> results
      end
  | Ok None => results
  | Raise _ => results
  end.

(** The dictionary [results] that [main] fills and prints. *)
Definition main_results : gmap string nat :=
  foldl main_step ∅ institutions.

(** The chunking of an institution returned [n] chunks, and [n > 0]: the
    condition under which a turn of the loop lists the institution. *)
Definition listed (institution : string) (n : nat) : Prop :=
  exists chunks,
    chunk_single_institution new_chunker read_report path_str institution
    = Ok (Some chunks) /\
    chunks <> [] /\ n = length chunks.
End ChunkingMain.

Arguments main_step {Chunk TableRecord ImageRecord} _ _ _ _ _.
Arguments main_results {Chunk TableRecord ImageRecord} _ _ _.
Arguments listed {Chunk TableRecord ImageRecord} _ _ _ _ _.

(** ** [test_multi_institution]  (test_full_pipeline.py) *)

Definition multi_query : string := "2024년 부동산 시장 전망은?".

(** What the loop keeps of the search of one institution: its results, or
    nothing when it raised. *)
Definition found (outcome : pyres (list SearchResult)) : list SearchResult :=
  match outcome with
  | Ok results => results
  | Raise _ => []
  end.

Section MultiInstitution.
(** Loading the vector store of an institution and running
    [hybrid_search(query, top_k=3)] on it: results, or an exception. *)
Variable search : string -> pyres (list SearchResult).
Variable create : nat -> ChatRequest -> pyres ChatResponse.

(** The loop over the institutions: [all_results.extend(results)], and
    [continue] on an exception. *)
Fixpoint gather_results (todo : list string) (all_results : list SearchResult)
    : list SearchResult :=
  match todo with
  | [] => all_results
  | institution :: rest =>
      match search institution with
      | Ok results => gather_results rest (all_results ++ results)
      | Raise _ => gather_results rest all_results
      end
  end.

Definition test_multi_institution : stx CallLog (option string) :=
  let all_results := gather_results ["hd"; "kb"; "khi"] [] in
  match all_results with
  | [] => mret None
  | _ =>
      answer ← answer_question create "gpt-4o" multi_query all_results true;
      mret (Some answer)
  end.
End MultiInstitution.

(** ** Further notions used to state the properties *)

(** The block of this result cannot be rendered: no usable [table_id], and
    an [image_path] that is truthy but not a string. *)
Definition block_fails (result : SearchResult) : bool :=
  let metadata := default ∅ (sr_metadata result) in
  negb (truthy (default PNone (metadata !! "table_id")))
  && match default PNone (metadata !! "image_path") with
     | PStr _ => false
     | v => truthy v
     end.

(** The exception of the test ['\\' in image_path] on the [image_path] of
    this result, which names the type of the value. *)
Definition image_path_error (result : SearchResult) : pyexn :=
  TypeError
    ("argument of type '" +:+
     py_type_name (default PNone (default ∅ (sr_metadata result) !! "image_path"))
     +:+ "' is not iterable").

(** The first result of a list whose block cannot be rendered, with its
    position. *)
Definition first_failing (results : list SearchResult)
    : option (nat * SearchResult) :=
  list_find (fun r => block_fails r = true) results.

(** The exception of the slice [content[:300]] on the content of this
    result, which names the type of the value. *)
Definition content_error (result : SearchResult) : pyexn :=
  TypeError
    ("'" +:+ py_type_name (default (PStr "") (sr_content result)) +:+
     "' object is not subscriptable").

(** The content of a result is a string (or missing). *)
Definition content_is_str (result : SearchResult) : bool :=
  match default (PStr "") (sr_content result) with
  | PStr _ => true
  | _ => false
  end.

(** A rendered result: missing [table_id], [image_path] in a file tree. *)
Definition sample_windows_image : gmap string pyval :=
  {[ "image_path" := PStr "C:\data\img/fig 2.png" ]}.

(** A result whose [image_path] is a number. *)
Definition sample_broken : SearchResult :=
  {| sr_metadata := Some {[ "image_path" := PInt 7 ]};
     sr_content := Some (PStr "text") |}.

(** A result without string content. *)
Definition sample_no_text : SearchResult :=
  {| sr_metadata := Some {[ "institution" := PStr "kb" ]};
     sr_content := Some PNone |}.

(** A QA object that answers, over collaborators without state. *)
Definition answering_qa : QAObj unit :=
  {| qa_build_context := fun rs k => lift_res (build_context rs k);
     qa_generate_answer := fun _ _ _ _ => mret (Some "2.0% 상승 [1]");
     qa_clear_history := mret tt |}.

Definition answering_app : AppState unit :=
  {| session := {| messages := []; user_questions := [];
                   qa_system := Some answering_qa;
                   search_engine := Some sample_engine |};
     world := tt |}.

(** The session of the script as it stands: the [QASystem] at hand and a
    search engine over the sample results. *)
Definition light_app : AppState CallLog :=
  {| session := {| messages := [user_turn "이전 질문"];
                   user_questions := ["이전 질문"];
                   qa_system := Some light_qa;
                   search_engine :=
                     Some {| se_hybrid_search := fun _ _ => mret sample_results |} |};
     world := [] |}.

(** A service that answers every call. *)
Definition good_service (n : nat) (req : ChatRequest) : pyres ChatResponse :=
  Ok {| choices := [Some "  답변입니다. [1]  "];
        usage := Some {| prompt_tokens := 10; completion_tokens := 5;
                         total_tokens := 15 |} |}.

(** Reports on disk for two of the three institutions; the chunking of
    the second one gives no chunk.  A further report has a number as its
    institution code. *)
Definition sample_reports (institution : string)
    : option (pyres (ProcessedReport string string)) :=
  if decide (institution = "kb") then Some (Ok sample_report)
  else if decide (institution = "khi") then
    Some (Ok {| rp_institution := None; rp_texts := None;
                rp_tables := None; rp_images := None |})
  else if decide (institution = "xx") then
    Some (Ok {| rp_institution := Some (PInt 5); rp_texts := None;
                rp_tables := Some ["t"]; rp_images := None |})
  else None.

(** Reports of which the first cannot be loaded and the third has [null]
    as its institution code. *)
Definition broken_reports (institution : string)
    : option (pyres (ProcessedReport string string)) :=
  if decide (institution = "hd") then
    Some (Raise (OtherError "Expecting value: line 1 column 1 (char 0)"))
  else if decide (institution = "kb") then Some (Ok sample_report)
  else if decide (institution = "khi") then
    Some (Ok {| rp_institution := Some PNone; rp_texts := None;
                rp_tables := Some ["t"]; rp_images := None |})
  else None.

(** Paths below a project root. *)
Definition sample_path_str (components : list string) : string :=
  "/srv/app/" +:+ join "/" components.

(** Searches of the three institutions: three results, three results, and
    a failure. *)
Definition sample_search (institution : string) : pyres (list SearchResult) :=
  if decide (institution = "hd") then Ok [sample_image; sample_image; sample_image]
  else if decide (institution = "kb") then Ok [sample_table; sample_table; sample_table]
  else Raise (OtherError "FAISS index not found").

(** The answer [generate_answer] takes from what the service gave: the
    content of the first choice, when the response has a usage record. *)
Definition answer_of (given : pyres ChatResponse) : option string :=
  match given with
  | Ok {| choices := Some text :: _; usage := Some _ |} => Some text
  | _ => None
  end.

(** The value a call returned, if it returned. *)
Definition from_ok {A : Type} (outcome : pyres A) : option A :=
  match outcome with
  | Ok a => Some a
  | Raise _ => None
  end.

(** The sentence [generate_response] returns for an outcome of
    [generate_answer] that is a failure; [None] for a non-empty answer. *)
Definition failure_sentence (outcome : pyres (option string)) : option string :=
  match outcome with
  | Ok None => Some failure_message
  | Ok (Some text) =>
      if bool_decide (text = "") then Some failure_message else None
  | Raise e => Some (error_message e)
  end.

(* ===================================================================== *)
(** * Part II: properties                                                 *)
(* ===================================================================== *)

(** ** Strings *)

Lemma str_app_cons (x : ascii) (a b : string) :
  String x a +:+ b = String x (a +:+ b).
Proof. reflexivity. Qed.

Lemma str_app_nil_l (a : string) : "" +:+ a = a.
Proof. reflexivity. Qed.

Lemma str_app_assoc (a b c : string) : (a +:+ b) +:+ c = a +:+ b +:+ c.
Proof.
  induction a as [|x a IH]; [done|]. by rewrite !str_app_cons, IH.
Qed.

Lemma str_app_nil_r (a : string) : a +:+ "" = a.
Proof.
  induction a as [|x a IH]; [done|]. by rewrite str_app_cons, IH.
Qed.

Lemma substring_refl (s : string) : substring s s.
Proof. exists "", "". by rewrite str_app_nil_r. Qed.

Lemma substring_app_r (t a b : string) : substring t b -> substring t (a +:+ b).
Proof.
  intros (pre & post & ->). exists (a +:+ pre), post.
  by rewrite str_app_assoc.
Qed.

Lemma substring_app_l (t a b : string) : substring t a -> substring t (a +:+ b).
Proof.
  intros (pre & post & ->). exists pre, (post +:+ b).
  by rewrite !str_app_assoc.
Qed.

Lemma substring_trans (t u s : string) :
  substring t u -> substring u s -> substring t s.
Proof.
  intros (p1 & q1 & ->) (p2 & q2 & ->).
  exists (p2 +:+ p1), (q1 +:+ q2). by rewrite !str_app_assoc.
Qed.

(** Every part is found in the joined string. *)
Lemma substring_join (sep p : string) (parts : list string) :
  p ∈ parts -> substring p (join sep parts).
Proof.
  induction parts as [|q parts IH]; [by intros ?%elem_of_nil|].
  intros [->|Hin]%elem_of_cons.
  - destruct parts; simpl; [apply substring_refl|].
    apply substring_app_l, substring_refl.
  - destruct parts as [|q' parts]; [by apply elem_of_nil in Hin|].
    change (join sep (q :: q' :: parts))
      with (q +:+ sep +:+ join sep (q' :: parts)).
    by apply substring_app_r, substring_app_r, IH.
Qed.

Ltac substring_here :=
  repeat first
    [ apply substring_refl
    | apply substring_app_l, substring_refl
    | apply substring_app_r ].

(** ** Slices and [enumerate] *)

Lemma slice_to_take {A : Type} (l : list A) (stop : Z) :
  slice_to l stop = take (rendered_count (length l) stop) l.
Proof.
  unfold slice_to, rendered_count. destruct (0 <=? stop); [|done].
  destruct (Nat.min_spec (length l) (Z.to_nat stop)) as [[? ->]|[? ->]];
    [|done].
  rewrite !take_ge; [done|lia..].
Qed.

Lemma length_slice_to {A : Type} (l : list A) (stop : Z) :
  length (slice_to l stop) = rendered_count (length l) stop.
Proof.
  rewrite slice_to_take, length_take. unfold rendered_count.
  destruct (0 <=? stop) eqn:E; lia.
Qed.

Lemma rendered_count_nonneg (L : nat) (max_chunks : Z) :
  0 <= max_chunks ->
  Z.of_nat (rendered_count L max_chunks) = Z.min (Z.of_nat L) max_chunks.
Proof.
  intros H. unfold rendered_count.
  destruct (Z.leb_spec 0 max_chunks); lia.
Qed.

Lemma enumerate_fst {A : Type} (l : list A) (start : Z) :
  (enumerate l start).*1 = seqZ start (Z.of_nat (length l)).
Proof.
  revert start. induction l as [|x l IH]; intros start; simpl; [done|].
  rewrite IH, (seqZ_cons start) by lia.
  do 2 f_equal; lia.
Qed.

Lemma enumerate_snd {A : Type} (l : list A) (start : Z) :
  (enumerate l start).*2 = l.
Proof.
  revert start. induction l as [|x l IH]; intros start; simpl; [done|].
  by rewrite IH.
Qed.

Lemma enumerate_lookup {A : Type} (l : list A) (start : Z) (j : nat) (x : A) :
  l !! j = Some x -> enumerate l start !! j = Some (start + Z.of_nat j, x).
Proof.
  revert start j. induction l as [|y l IH]; intros start [|j] H;
    simplify_eq/=.
  - do 2 f_equal. lia.
  - rewrite (IH (start + 1) j H). do 2 f_equal. lia.
Qed.

(** ** [build_context] *)

Lemma bind_Ok_inv {A B : Type} (m : pyres A) (f : A -> pyres B) (b : B) :
  m ≫= f = Ok b -> exists a, m = Ok a /\ f a = Ok b.
Proof. destruct m as [a|e]; [|done]. intros H. by exists a. Qed.

Lemma split_char_not_nil (c : ascii) (s : string) : split_char c s <> [].
Proof.
  induction s as [|a s IH]; simpl; [done|].
  destruct (decide (a = c)); [done|]. by destruct (split_char c s).
Qed.

Lemma py_last_split (c : ascii) (s : string) :
  exists w, py_last (split_char c s) = Ok w.
Proof.
  unfold py_last.
  destruct (last (split_char c s)) as [w|] eqn:E; [by exists w|].
  apply last_None in E. by apply split_char_not_nil in E.
Qed.

(** A block is rendered for every result whose [image_path] is a string or
    [None]. *)
Lemma render_block_returns (i : Z) (r : SearchResult) :
  image_path_typed r = true -> exists b, render_block i r = Ok b.
Proof.
  unfold image_path_typed, render_block, extra_info_of.
  set (metadata := default ∅ (sr_metadata r)).
  destruct (truthy (default PNone (metadata !! "table_id"))); [by eexists|].
  destruct (metadata !! "image_path") as [[| | |p]|]; simpl;
    try done; try by eexists.
  intros _. destruct (negb (bool_decide (p = ""))); [|by eexists].
  destruct (contains_char backslash p).
  - destruct (py_last_split backslash p) as [w ->]. by eexists.
  - destruct (py_last_split slash p) as [w ->]. by eexists.
Qed.

Lemma render_block_heading (i : Z) (r : SearchResult) (b : string) :
  render_block i r = Ok b -> substring (block_heading i) b.
Proof.
  unfold render_block. intros (e & _ & [= <-])%bind_Ok_inv.
  unfold formatted_block, block_heading.
  rewrite <- !str_app_assoc. rewrite !str_app_assoc.
  exists "". eexists. rewrite str_app_nil_l, !str_app_assoc. reflexivity.
Qed.

Lemma render_block_content (i : Z) (r : SearchResult) (b : string) :
  render_block i r = Ok b -> substring (content_text r) b.
Proof.
  unfold render_block. intros (e & _ & [= <-])%bind_Ok_inv.
  unfold formatted_block, content_text. substring_here.
Qed.

(** What the loop has appended when it finishes. *)
Lemma render_loop_spec (items : list (Z * SearchResult))
    (acc parts : list string) :
  render_loop items acc = Ok parts <->
  exists blocks,
    Forall2 (fun ir b => render_block ir.1 ir.2 = Ok b) items blocks /\
    parts = acc ++ concat ((fun b => [b; separator]) <$> blocks).
Proof.
  revert acc. induction items as [|[i r] items IH]; intros acc; simpl.
  - split.
    + intros [= <-]. exists []. split; [constructor|]. by rewrite app_nil_r.
    + intros (blocks & ->%Forall2_nil_inv_l & ->). by rewrite app_nil_r.
  - split.
    + intros (b & Hb & Hrest)%bind_Ok_inv.
      apply IH in Hrest as (blocks & HF & ->).
      exists (b :: blocks). split; [by constructor|].
      by rewrite <- app_assoc.
    + intros (blocks & HF & ->).
      apply Forall2_cons_inv_l in HF as (b & blocks' & Hb & HF & ->).
      simpl in Hb. rewrite Hb. simpl. apply IH.
      exists blocks'. split; [done|]. by rewrite <- app_assoc.
Qed.

Lemma render_loop_returns (items : list (Z * SearchResult))
    (acc : list string) :
  Forall (fun ir => image_path_typed ir.2 = true) items ->
  exists parts, render_loop items acc = Ok parts.
Proof.
  revert acc. induction items as [|[i r] items IH]; intros acc HF; simpl.
  - by eexists.
  - apply Forall_cons in HF as [Hr HF].
    destruct (render_block_returns i r Hr) as [b ->]. simpl. by apply IH.
Qed.

Lemma build_context_nonempty (rs : list SearchResult) (m : Z) (ctx : string) :
  rs <> [] -> build_context rs m = Ok ctx ->
  exists blocks,
    Forall2 (fun ir b => render_block ir.1 ir.2 = Ok b)
      (enumerate (slice_to rs m) 1) blocks /\
    ctx = context_of_blocks blocks.
Proof.
  destruct rs as [|r rs]; [done|]. intros _. unfold build_context.
  intros (parts & Hloop & [= <-])%bind_Ok_inv.
  apply render_loop_spec in Hloop as (blocks & HF & ->).
  by exists blocks.
Qed.

Lemma build_context_returns (rs : list SearchResult) (m : Z) :
  Forall (fun r => image_path_typed r = true) (slice_to rs m) ->
  exists ctx, build_context rs m = Ok ctx.
Proof.
  intros HF. destruct rs as [|r rs]; [by eexists|].
  unfold build_context.
  destruct (render_loop_returns (enumerate (slice_to (r :: rs) m) 1)
              [context_header]) as [parts ->]; [|by eexists].
  apply Forall_forall. intros [i x] Hin.
  rewrite Forall_forall in HF. apply HF.
  rewrite <- (enumerate_snd (slice_to (r :: rs) m) 1).
  apply list_elem_of_fmap. by exists (i, x).
Qed.

Lemma block_in_context (b : string) (blocks : list string) :
  b ∈ blocks -> substring b (context_of_blocks blocks).
Proof.
  intros Hin. apply substring_join. apply elem_of_cons. right.
  apply list_elem_of_In, in_concat. exists [b; separator].
  split; [|by left]. apply list_elem_of_In, list_elem_of_fmap. by exists b.
Qed.

(** C3 (as amended).  [build_context] renders the first [N] results of the
    list in their order, where [N = min(L, max_chunks)] for
    [max_chunks >= 0] and [N = max(0, L + max_chunks)] for a negative
    [max_chunks]; the loop hands out the citation indices [1..N], without
    gap or repetition; block [j] (counted from 0) is the rendering of
    result [j] under index [j + 1], and its heading occurs in the context.
    The context is returned whenever the [image_path] of the rendered
    results is a string or [None]. *)
Theorem build_context_citations (rs : list SearchResult) (m : Z) :
  let N := rendered_count (length rs) m in
  (0 <= m -> Z.of_nat N = Z.min (Z.of_nat (length rs)) m) /\
  slice_to rs m = take N rs /\
  citation_indices rs m = seqZ 1 (Z.of_nat N) /\
  NoDup (citation_indices rs m) /\
  (Forall (fun r => image_path_typed r = true) (take N rs) ->
   exists ctx, build_context rs m = Ok ctx) /\
  (forall ctx, rs <> [] -> build_context rs m = Ok ctx ->
   exists blocks,
     length blocks = N /\
     (forall (j : nat) r, take N rs !! j = Some r ->
        exists b, blocks !! j = Some b /\
                  render_block (Z.of_nat j + 1) r = Ok b /\
                  substring (block_heading (Z.of_nat j + 1)) ctx) /\
     ctx = context_of_blocks blocks).
Proof.
  cbv zeta.
  assert (Hidx : citation_indices rs m
                 = seqZ 1 (Z.of_nat (rendered_count (length rs) m))).
  { unfold citation_indices. by rewrite enumerate_fst, length_slice_to. }
  split; [apply rendered_count_nonneg|].
  split; [apply slice_to_take|].
  split; [done|].
  split; [rewrite Hidx; apply NoDup_seqZ|].
  split.
  { intros HF. apply build_context_returns. by rewrite slice_to_take. }
  intros ctx Hne Hctx.
  destruct (build_context_nonempty rs m ctx Hne Hctx) as (blocks & HF & ->).
  exists blocks. split; [|split; [|done]].
  - apply Forall2_length in HF. rewrite <- HF.
    rewrite <- (length_fmap fst), enumerate_fst, length_seqZ, length_slice_to.
    lia.
  - intros j r Hj. rewrite <- slice_to_take in Hj.
    apply (enumerate_lookup _ 1) in Hj.
    destruct (Forall2_lookup_l _ _ _ _ _ HF Hj) as (b & Hb & Hrender).
    simpl in Hrender. replace (1 + Z.of_nat j) with (Z.of_nat j + 1) in * by lia.
    exists b. split; [done|]. split; [done|].
    eapply substring_trans; [by eapply render_block_heading|].
    apply block_in_context. by eapply list_elem_of_lookup_2.
Qed.

Lemma build_context_citations_witness :
  citation_indices sample_results 2 = [1; 2] /\
  exists ctx, build_context sample_results 2 = Ok ctx /\
              substring (block_heading 2) ctx.
Proof.
  destruct (build_context_citations sample_results 2)
    as (_ & _ & Hidx & _ & Hret & Hblocks).
  split; [exact Hidx|].
  destruct Hret as [ctx Hctx]; [by repeat constructor|].
  exists ctx. split; [exact Hctx|].
  destruct (Hblocks ctx) as (blocks & _ & Hj & _); [done|exact Hctx|].
  destruct (Hj 1%nat sample_image) as (b & _ & _ & Hsub); [reflexivity|].
  exact Hsub.
Defined.

(** C3, as stated, fails for a negative [max_chunks]: of three results,
    [build_context(results, -1)] renders two, under the indices 1 and 2,
    while [min(3, -1)] is [-1]. *)
Lemma build_context_negative_max_chunks :
  citation_indices sample_results (-1) = [1; 2] /\
  Z.min (Z.of_nat (length sample_results)) (-1) = -1 /\
  citation_indices sample_results (-1)
    <> seqZ 1 (Z.min (Z.of_nat (length sample_results)) (-1)) /\
  exists b1 b2,
    render_block 1 sample_table = Ok b1 /\
    render_block 2 sample_image = Ok b2 /\
    build_context sample_results (-1) = Ok (context_of_blocks [b1; b2]).
Proof.
  split; [reflexivity|]. split; [reflexivity|]. split; [by vm_compute|].
  eexists _, _. split; [reflexivity|]. split; [reflexivity|].
  vm_compute. reflexivity.
Qed.

(** C4.  For the empty result list [build_context] returns the fixed,
    non-empty sentence saying that no related information was found; it
    does not raise, whatever [max_chunks] is. *)
Theorem build_context_empty (m : Z) :
  build_context [] m = Ok no_info_context /\
  no_info_context <> "" /\
  no_info_context = "관련 정보를 찾을 수 없습니다.".
Proof. by repeat split. Qed.

(** C5.  For a non-empty result list, the rendered context contains the
    content of every rendered result verbatim; the context is returned
    whenever the [image_path] of the rendered results is a string or
    [None]. *)
Theorem build_context_keeps_content (rs : list SearchResult) (m : Z) :
  rs <> [] ->
  (Forall (fun r => image_path_typed r = true) (slice_to rs m) ->
   exists ctx, build_context rs m = Ok ctx) /\
  (forall ctx, build_context rs m = Ok ctx ->
   forall r, r ∈ slice_to rs m ->
     substring (content_text r) ctx /\
     (forall s, sr_content r = Some (PStr s) -> substring s ctx)).
Proof.
  intros Hne. split; [apply build_context_returns|].
  intros ctx Hctx r Hin.
  destruct (build_context_nonempty rs m ctx Hne Hctx) as (blocks & HF & ->).
  assert (Hsub : substring (content_text r) (context_of_blocks blocks)).
  { apply list_elem_of_lookup in Hin as [j Hj].
    apply (enumerate_lookup _ 1) in Hj.
    destruct (Forall2_lookup_l _ _ _ _ _ HF Hj) as (b & Hb & Hrender).
    eapply substring_trans; [by eapply render_block_content|].
    apply block_in_context. by eapply list_elem_of_lookup_2. }
  split; [done|]. intros s Hs. unfold content_text in Hsub.
  by rewrite Hs in Hsub.
Qed.

Lemma build_context_keeps_content_witness :
  exists ctx, build_context sample_results 5 = Ok ctx /\
              substring "그래프 설명" ctx.
Proof.
  destruct (build_context_keeps_content sample_results 5) as [Hret Hsub];
    [done|].
  destruct Hret as [ctx Hctx]; [by repeat constructor|].
  exists ctx. split; [exact Hctx|].
  destruct (Hsub ctx Hctx sample_image) as [_ Hs].
  - apply list_elem_of_lookup. by exists 1%nat.
  - by apply Hs.
Defined.

(** C10.  When the metadata of a result holds both a truthy [table_id] and
    a truthy [image_path], the block of the result holds the table-id line
    and no image line: between the page line and the blank line before the
    content stands the line of [table_id] alone, the block is the one
    rendered for the same result without [image_path], and this block is
    part of the context [build_context] returns for a list in which the
    result is rendered. *)
Theorem table_id_precedes_image_path (metadata : gmap string pyval)
    (table_id image_path : pyval) :
  metadata !! "table_id" = Some table_id -> truthy table_id = true ->
  metadata !! "image_path" = Some image_path -> truthy image_path = true ->
  let institution := default (PStr "unknown") (metadata !! "institution") in
  let source_name :=
    map_get institution_map institution (py_str institution +:+ " 리포트") in
  let doc_type :=
    map_get doc_type_map (default PNone (metadata !! "doc_type")) "본문" in
  let page := py_str (default (PStr "unknown") (metadata !! "page")) in
  let block (i : Z) (content : option pyval) :=
    "[컨텍스트 " +:+ pretty i +:+ "]" +:+ nl +:+
    "출처 기관: " +:+ source_name +:+ nl +:+
    "타입: " +:+ doc_type +:+ nl +:+
    "페이지: " +:+ page +:+ "페이지" +:+ nl +:+
    "표 ID: " +:+ py_str table_id +:+ nl +:+
    nl +:+
    "내용:" +:+ nl +:+
    py_str (default (PStr "") content) +:+ nl +:+
    nl +:+
    "출처: [" +:+ pretty i +:+ "] " +:+ source_name +:+ " " +:+ doc_type +:+
    " (" +:+ page +:+ "페이지)" +:+ nl in
  extra_info_of metadata = Ok (nl +:+ "표 ID: " +:+ py_str table_id) /\
  extra_info_of metadata = extra_info_of (delete "image_path" metadata) /\
  (forall i content,
     render_block i {| sr_metadata := Some metadata; sr_content := content |}
     = Ok (block i content) /\
     render_block i {| sr_metadata := Some metadata; sr_content := content |}
     = render_block i {| sr_metadata := Some (delete "image_path" metadata);
                         sr_content := content |}) /\
  (forall (rs : list SearchResult) (m : Z) (j : nat) content ctx,
     slice_to rs m !! j
     = Some {| sr_metadata := Some metadata; sr_content := content |} ->
     build_context rs m = Ok ctx ->
     substring (block (Z.of_nat j + 1) content) ctx /\
     substring
       ("페이지" +:+ nl +:+ "표 ID: " +:+ py_str table_id +:+ nl +:+ nl +:+
        "내용:" +:+ nl)
       ctx).
Proof.
  intros Ht Htt Hi Hit. cbv beta zeta.
  assert (Hextra : extra_info_of metadata
                   = Ok (nl +:+ "표 ID: " +:+ py_str table_id)).
  { unfold extra_info_of. rewrite Ht. simpl. by rewrite Htt. }
  assert (He : extra_info_of metadata
               = extra_info_of (delete "image_path" metadata)).
  { unfold extra_info_of. rewrite !lookup_delete_ne by done.
    rewrite Ht. simpl. by rewrite Htt. }
  assert (Hblock : forall i content,
    render_block i {| sr_metadata := Some metadata; sr_content := content |}
    = Ok ("[컨텍스트 " +:+ pretty i +:+ "]" +:+ nl +:+
          "출처 기관: " +:+
          map_get institution_map
            (default (PStr "unknown") (metadata !! "institution"))
            (py_str (default (PStr "unknown") (metadata !! "institution"))
             +:+ " 리포트") +:+ nl +:+
          "타입: " +:+
          map_get doc_type_map (default PNone (metadata !! "doc_type")) "본문"
          +:+ nl +:+
          "페이지: " +:+ py_str (default (PStr "unknown") (metadata !! "page"))
          +:+ "페이지" +:+ nl +:+
          "표 ID: " +:+ py_str table_id +:+ nl +:+
          nl +:+
          "내용:" +:+ nl +:+
          py_str (default (PStr "") content) +:+ nl +:+
          nl +:+
          "출처: [" +:+ pretty i +:+ "] " +:+
          map_get institution_map
            (default (PStr "unknown") (metadata !! "institution"))
            (py_str (default (PStr "unknown") (metadata !! "institution"))
             +:+ " 리포트") +:+ " " +:+
          map_get doc_type_map (default PNone (metadata !! "doc_type")) "본문"
          +:+ " (" +:+ py_str (default (PStr "unknown") (metadata !! "page"))
          +:+ "페이지)" +:+ nl)).
  { intros i content. unfold render_block. simpl. rewrite Hextra. simpl.
    unfold formatted_block. rewrite !str_app_assoc. repeat f_equal. }
  split; [done|]. split; [done|]. split.
  - intros i content. split; [apply Hblock|].
    unfold render_block. simpl.
    rewrite <- He. by rewrite !lookup_delete_ne by done.
  - intros rs m j content ctx Hj Hctx.
    assert (Hne : rs <> []).
    { intros ->. unfold slice_to in Hj.
      by destruct (0 <=? m); rewrite take_nil in Hj. }
    destruct (build_context_nonempty rs m ctx Hne Hctx) as (blocks & HF & ->).
    apply (enumerate_lookup _ 1) in Hj.
    destruct (Forall2_lookup_l _ _ _ _ _ HF Hj) as (b & Hb & Hrender).
    simpl in Hrender.
    replace (1 + Z.of_nat j) with (Z.of_nat j + 1) in Hrender by lia.
    rewrite Hblock in Hrender. injection Hrender as <-.
    assert (Hin : substring
                    ("[컨텍스트 " +:+ pretty (Z.of_nat j + 1) +:+ "]" +:+ nl +:+
          "출처 기관: " +:+
          map_get institution_map
            (default (PStr "unknown") (metadata !! "institution"))
            (py_str (default (PStr "unknown") (metadata !! "institution"))
             +:+ " 리포트") +:+ nl +:+
          "타입: " +:+
          map_get doc_type_map (default PNone (metadata !! "doc_type")) "본문"
          +:+ nl +:+
          "페이지: " +:+ py_str (default (PStr "unknown") (metadata !! "page"))
          +:+ "페이지" +:+ nl +:+
          "표 ID: " +:+ py_str table_id +:+ nl +:+
          nl +:+
          "내용:" +:+ nl +:+
          py_str (default (PStr "") content) +:+ nl +:+
          nl +:+
          "출처: [" +:+ pretty (Z.of_nat j + 1) +:+ "] " +:+
          map_get institution_map
            (default (PStr "unknown") (metadata !! "institution"))
            (py_str (default (PStr "unknown") (metadata !! "institution"))
             +:+ " 리포트") +:+ " " +:+
          map_get doc_type_map (default PNone (metadata !! "doc_type")) "본문"
          +:+ " (" +:+ py_str (default (PStr "unknown") (metadata !! "page"))
          +:+ "페이지)" +:+ nl)
                    (context_of_blocks blocks)).
    { apply block_in_context. by eapply list_elem_of_lookup_2. }
    split; [exact Hin|].
    eapply substring_trans; [|exact Hin].
    exists ("[컨텍스트 " +:+ pretty (Z.of_nat j + 1) +:+ "]" +:+ nl +:+
          "출처 기관: " +:+
          map_get institution_map
            (default (PStr "unknown") (metadata !! "institution"))
            (py_str (default (PStr "unknown") (metadata !! "institution"))
             +:+ " 리포트") +:+ nl +:+
          "타입: " +:+
          map_get doc_type_map (default PNone (metadata !! "doc_type")) "본문"
          +:+ nl +:+
          "페이지: " +:+ py_str (default (PStr "unknown") (metadata !! "page"))).
    eexists. rewrite !str_app_assoc. reflexivity.
Qed.

Lemma table_id_precedes_image_path_witness :
  render_block 1 sample_table
  = Ok ("[컨텍스트 1]" +:+ nl +:+
        "출처 기관: KB 부동산 리포트" +:+ nl +:+
        "타입: 표" +:+ nl +:+
        "페이지: 12페이지" +:+ nl +:+
        "표 ID: T1" +:+ nl +:+
        nl +:+
        "내용:" +:+ nl +:+
        "매매가격 2.0% 상승" +:+ nl +:+
        nl +:+
        "출처: [1] KB 부동산 리포트 표 (12페이지)" +:+ nl) /\
  render_block 1 sample_table
  = render_block 1
      {| sr_metadata := Some {[ "institution" := PStr "kb";
                                "doc_type" := PStr "table";
                                "page" := PInt 12;
                                "table_id" := PStr "T1" ]};
         sr_content := Some (PStr "매매가격 2.0% 상승") |} /\
  exists ctx,
    build_context sample_results 5 = Ok ctx /\
    substring
      ("페이지" +:+ nl +:+ "표 ID: T1" +:+ nl +:+ nl +:+ "내용:" +:+ nl) ctx.
Proof.
  pose proof (table_id_precedes_image_path
                {[ "institution" := PStr "kb"; "doc_type" := PStr "table";
                   "page" := PInt 12; "table_id" := PStr "T1";
                   "image_path" := PStr "img/p12.png" ]}
                (PStr "T1") (PStr "img/p12.png")
                eq_refl eq_refl eq_refl eq_refl) as (_ & _ & Hblock & Hctx).
  destruct (Hblock 1 (Some (PStr "매매가격 2.0% 상승"))) as [Hb Hsame].
  split; [|split].
  - etrans; [exact Hb|]. by vm_compute.
  - etrans; [exact Hsame|]. by vm_compute.
  - destruct (build_context_returns sample_results 5) as [ctx Hret];
      [by repeat constructor|].
    exists ctx. split; [exact Hret|].
    exact (proj2 (Hctx sample_results 5 0%nat
                    (Some (PStr "매매가격 2.0% 상승")) ctx eq_refl Hret)).
Defined.

(** ** [rewrite_query], [generate_answer], [answer_question] *)

(** [rewrite_query] returns a query whatever the service does. *)
Lemma rewrite_query_returns create (query : string) (log : CallLog) :
  exists q, rewrite_query create query log
            = (Ok q, log ++ [rewrite_request query]).
Proof.
  unfold rewrite_query, try_except, chat_create, mbind, stx_bind, lift_res,
    mret, stx_ret.
  destruct (create (length log) (rewrite_request query)) as [resp|e];
    [|by eexists].
  destruct (choices resp) as [|[c|] cs]; simpl; by eexists.
Qed.

(** [generate_answer] returns, with [None] when the call fails. *)
Lemma generate_answer_returns create model (query context : string)
    (temperature : Q) (max_tokens : Z) (log : CallLog) :
  exists answer,
    generate_answer create model query context temperature max_tokens log
    = (Ok answer,
       log ++ [answer_request model query context temperature max_tokens]).
Proof.
  unfold generate_answer, try_except, chat_create, mbind, stx_bind, lift_res,
    mret, stx_ret.
  destruct (create _ _) as [resp|e]; [|by eexists].
  destruct (choices resp) as [|c cs]; simpl; [by eexists|].
  destruct (usage resp); simpl; by eexists.
Qed.

(** C8.  When the call of the service inside [rewrite_query] raises,
    [rewrite_query] returns the query unchanged, and [answer_question] goes
    on as it does without rewriting: it builds the context and sends the
    answer request for the original query, whose answer it returns. *)
Theorem rewrite_failure_keeps_pipeline create model (query : string)
    (rs : list SearchResult) (log : CallLog) (e : pyexn) :
  create (length log) (rewrite_request query) = Raise e ->
  rewrite_query create query log = (Ok query, log ++ [rewrite_request query]) /\
  answer_question create model query rs true log
  = answer_question create model query rs false
      (log ++ [rewrite_request query]) /\
  (forall ctx, build_context rs 5 = Ok ctx ->
     (answer_question create model query rs true log).2
     = log ++ [rewrite_request query;
               answer_request model query ctx (3 # 10) 2000] /\
     exists text, (answer_question create model query rs true log).1 = Ok text) /\
  (forall ctx text rest u,
     build_context rs 5 = Ok ctx ->
     create (S (length log)) (answer_request model query ctx (3 # 10) 2000)
     = Ok {| choices := Some text :: rest; usage := Some u |} ->
     text <> "" ->
     (answer_question create model query rs true log).1 = Ok text).
Proof.
  intros Hraise.
  assert (Hrw : rewrite_query create query log
                = (Ok query, log ++ [rewrite_request query])).
  { unfold rewrite_query, try_except, chat_create, mbind, stx_bind.
    by rewrite Hraise. }
  assert (Heq : answer_question create model query rs true log
                = answer_question create model query rs false
                    (log ++ [rewrite_request query])).
  { unfold answer_question, mbind, stx_bind at 1 3. by rewrite Hrw. }
  split; [done|]. split; [done|]. split.
  - intros ctx Hctx. rewrite Heq.
    unfold answer_question, mbind, stx_bind, lift_res, mret, stx_ret.
    rewrite Hctx.
    destruct (generate_answer_returns create model query ctx (3 # 10) 2000
                (log ++ [rewrite_request query])) as [answer ->].
    rewrite <- app_assoc. simpl.
    destruct answer as [text|]; [|by eauto].
    destruct (bool_decide (text = "")); by eauto.
  - intros ctx text rest u Hctx Hresp Hne. rewrite Heq.
    unfold answer_question, mbind, stx_bind, lift_res, mret, stx_ret.
    rewrite Hctx.
    unfold generate_answer, try_except, chat_create, mbind, stx_bind,
      lift_res, mret, stx_ret.
    rewrite length_app, Nat.add_1_r, Hresp. simpl.
    by rewrite bool_decide_eq_false_2.
Qed.

Lemma rewrite_failure_keeps_pipeline_witness :
  rewrite_query flaky_service "서울 집값 어때?" []
  = (Ok "서울 집값 어때?", [rewrite_request "서울 집값 어때?"]) /\
  (answer_question flaky_service "gpt-4o" "서울 집값 어때?" sample_results
     true []).1 = Ok "2.0% 상승했습니다. [1]".
Proof.
  destruct (rewrite_failure_keeps_pipeline flaky_service "gpt-4o"
              "서울 집값 어때?" sample_results [] (OtherError "Connection error."))
    as (Hrw & _ & _ & Hans); [reflexivity|].
  split; [exact Hrw|].
  destruct (build_context_returns sample_results 5) as [ctx Hctx];
    [by repeat constructor|].
  eapply (Hans ctx); [exact Hctx|reflexivity|done].
Defined.

(** ** The chat front end *)

Section FrontEndFacts.
Context {World : Type}.
Implicit Types (s : AppState World) (m : Message).

Lemma append_message_run m s :
  append_message m s
  = (Ok tt, with_history s (messages (session s) ++ [m])
              (user_questions (session s)) (world s)).
Proof. reflexivity. Qed.

Lemma append_turns_run (turns : list Message) s :
  append_turns turns s
  = (Ok tt, with_history s (messages (session s) ++ turns)
              (user_questions (session s)) (world s)).
Proof.
  revert s. induction turns as [|t turns IH]; intros s.
  - simpl. unfold mret, stx_ret, with_history. rewrite app_nil_r.
    by destruct s as [[] ?].
  - simpl. unfold mbind, stx_bind. rewrite append_message_run, IH.
    unfold with_history. simpl. by rewrite <- app_assoc.
Qed.

(** [generate_response] catches whatever its collaborators raise, and
    leaves the session as it is. *)
Lemma generate_response_returns (query : string) (temperature : Q)
    (top_k : Z) (use_conversation : bool) s :
  exists response refs w,
    generate_response query temperature top_k use_conversation s
    = (Ok (response, refs),
       with_history s (messages (session s)) (user_questions (session s)) w).
Proof.
  destruct s as [[ms qs qa se] w0].
  unfold generate_response, with_history, mbind, stx_bind, get_session,
    try_except, call, lift_res, mret, stx_ret. simpl.
  destruct qa as [qa|]; [|by eexists _, _, _].
  destruct se as [se|]; simpl; [|by eexists _, _, _].
  destruct (se_hybrid_search se query top_k w0) as [[rs|e] w1]; simpl;
    [|by eexists _, _, _].
  destruct (qa_build_context qa rs top_k w1) as [[ctx|e] w2]; simpl;
    [|by eexists _, _, _].
  destruct (qa_generate_answer qa query ctx temperature use_conversation w2)
    as [[[text|]|e] w3]; simpl; [|by eexists _, _, _..].
  destruct (bool_decide (text = "")); [by eexists _, _, _|].
  destruct (reference_loop (slice_to rs top_k) []); by eexists _, _, _.
Qed.

(** Every text entered adds a user turn and an assistant turn, whose
    content is what [generate_response] returned. *)
Lemma on_user_input_appends (text : string) (temperature : Q) (top_k : Z)
    (use_conversation : bool) s :
  text <> "" ->
  exists response refs w,
    generate_response text temperature top_k use_conversation
      (with_history s (messages (session s) ++ [user_turn text])
         (user_questions (session s) ++ [text]) (world s))
    = (Ok (response, refs),
       with_history s (messages (session s) ++ [user_turn text])
         (user_questions (session s) ++ [text]) w) /\
    on_user_input (Some text) temperature top_k use_conversation s
    = (Ok tt,
       with_history s
         (messages (session s) ++ [user_turn text; assistant_turn response refs])
         (user_questions (session s) ++ [text]) w).
Proof.
  intros Hne.
  destruct (generate_response_returns text temperature top_k use_conversation
              (with_history s (messages (session s) ++ [user_turn text])
                 (user_questions (session s) ++ [text]) (world s)))
    as (response & refs & w & Hgen).
  exists response, refs, w. split; [exact Hgen|].
  unfold on_user_input. rewrite bool_decide_eq_false_2 by done.
  unfold with_history, user_turn, assistant_turn in *.
  unfold append_question, append_message, get_session, put_session.
  repeat (unfold mbind, stx_bind;
          cbn [session world messages user_questions qa_system search_engine]).
  rewrite Hgen.
  repeat (unfold mbind, stx_bind;
          cbn [session world messages user_questions qa_system search_engine]).
  by rewrite <- app_assoc.
Qed.
End FrontEndFacts.

Section SessionHistory.
Context {World : Type}.
Implicit Types (s : AppState World).

Lemma with_history_twice s ms qs w ms' qs' w' :
  with_history (with_history s ms qs w) ms' qs' w' = with_history s ms' qs' w'.
Proof. reflexivity. Qed.

Lemma with_history_messages s ms qs w :
  messages (session (with_history s ms qs w)) = ms.
Proof. reflexivity. Qed.

Lemma with_history_questions s ms qs w :
  user_questions (session (with_history s ms qs w)) = qs.
Proof. reflexivity. Qed.

(** Over any number of inputs: two turns per input, all of them kept. *)
Lemma run_inputs_run (inputs : list string) (temperature : Q) (top_k : Z)
    (use_conversation : bool) s :
  Forall (fun text => text <> "") inputs ->
  exists replies w,
    length replies = length inputs /\
    Forall (fun reply => role reply = "assistant") replies /\
    run_inputs inputs temperature top_k use_conversation s
    = (Ok tt,
       with_history s
         (messages (session s)
          ++ concat (zip_with (fun text reply => [user_turn text; reply])
                       inputs replies))
         (user_questions (session s) ++ inputs) w).
Proof.
  revert s. induction inputs as [|text inputs IH]; intros s HF.
  - exists [], (world s). split; [done|]. split; [done|].
    simpl. rewrite !app_nil_r. by destruct s as [[] ?].
  - apply Forall_cons in HF as [Hne HF].
    destruct (on_user_input_appends text temperature top_k use_conversation
                s Hne) as (response & refs & w & _ & Hstep).
    destruct (IH (with_history s
                    (messages (session s)
                     ++ [user_turn text; assistant_turn response refs])
                    (user_questions (session s) ++ [text]) w) HF)
      as (replies & w' & Hlen & Hroles & Hrun).
    exists (assistant_turn response refs :: replies), w'.
    split; [simpl; by rewrite Hlen|]. split; [by constructor|].
    cbn [run_inputs]. unfold mbind, stx_bind. rewrite Hstep, Hrun.
    rewrite with_history_twice, with_history_messages,
      with_history_questions.
    by rewrite <- !app_assoc.
Qed.

(** The reset button empties the history, whatever [clear_history] does. *)
Lemma on_reset_run s :
  exists r w,
    on_reset s = (r, with_history s [] (user_questions (session s)) w).
Proof.
  destruct s as [[ms qs qa se] w0].
  unfold on_reset, reset_messages, get_session, put_session, with_history.
  repeat (unfold mbind, stx_bind, mret, stx_ret, call;
          cbn [session world messages user_questions qa_system search_engine]).
  destruct qa as [qa|]; simpl; [|by eexists _, _].
  destruct (qa_clear_history qa w0) as [r w]. by eexists _, _.
Qed.
End SessionHistory.

(** C6 (as amended).  The history [st.session_state.messages] has no
    window: every appended turn stays, in the order of appending; each
    text entered adds its user turn and an assistant turn; only the reset
    button empties the history. *)
Theorem history_keeps_every_turn {World : Type} (s : AppState World)
    (turns : list Message) (inputs : list string) (temperature : Q)
    (top_k : Z) (use_conversation : bool) :
  Forall (fun text => text <> "") inputs ->
  messages (session (append_turns turns s).2) = messages (session s) ++ turns /\
  (exists replies,
     length replies = length inputs /\
     Forall (fun reply => role reply = "assistant") replies /\
     (run_inputs inputs temperature top_k use_conversation s).1 = Ok tt /\
     messages (session
                 (run_inputs inputs temperature top_k use_conversation s).2)
     = messages (session s)
       ++ concat (zip_with (fun text reply => [user_turn text; reply])
                    inputs replies)) /\
  messages (session (on_reset s).2) = [].
Proof.
  intros HF. split; [by rewrite append_turns_run|]. split.
  - destruct (run_inputs_run inputs temperature top_k use_conversation s HF)
      as (replies & w & Hlen & Hroles & ->).
    by exists replies.
  - by destruct (on_reset_run s) as (r & w & ->).
Qed.

Lemma history_keeps_every_turn_witness :
  messages (session
              (append_turns [user_turn "a"; user_turn "b"; user_turn "c"]
                 fresh_app).2)
  = [user_turn "a"; user_turn "b"; user_turn "c"] /\
  length (messages (session
                      (run_inputs ["a"; "b"; "c"] (3 # 10) 5 true fresh_app).2))
  = 6%nat.
Proof.
  destruct (history_keeps_every_turn fresh_app
              [user_turn "a"; user_turn "b"; user_turn "c"]
              ["a"; "b"; "c"] (3 # 10) 5 true)
    as (Happ & (replies & Hlen & _ & _ & Hrun) & _); [by repeat constructor|].
  split; [exact Happ|].
  rewrite Hrun. destruct replies as [|r1 [|r2 [|r3 [|r4 replies]]]];
    try discriminate Hlen. reflexivity.
Defined.

(** C6, as stated, fails: no window size [W] makes [W + 1] appended turns
    shrink to [W]. *)
Lemma history_has_no_window :
  ~ exists W : nat,
      forall turns : list Message,
        length turns = S W ->
        length (messages (session (append_turns turns fresh_app).2)) = W.
Proof.
  intros [W H]. specialize (H (replicate (S W) (user_turn "q"))).
  rewrite append_turns_run, length_replicate in H.
  specialize (H eq_refl). simpl in H. rewrite length_replicate in H. lia.
Qed.

(** What [generate_answer] returns, from what the service gave. *)
Lemma generate_answer_run create model (query context : string)
    (temperature : Q) (max_tokens : Z) (log : CallLog) :
  generate_answer create model query context temperature max_tokens log
  = (Ok (answer_of
           (create (length log)
              (answer_request model query context temperature max_tokens))),
     log ++ [answer_request model query context temperature max_tokens]).
Proof.
  unfold generate_answer, try_except, chat_create, mbind, stx_bind, lift_res,
    mret, stx_ret, answer_of.
  destruct (create _ _) as [[cs u]|e]; simpl; [|done].
  destruct cs as [|[c|] cs]; simpl; [done|..]; by destruct u.
Qed.

(** What [answer_question] returns once the context is built. *)
Lemma answer_question_run create model (query : string)
    (rs : list SearchResult) (rewrite : bool) (log log1 : CallLog)
    (query' ctx : string) :
  (if rewrite then rewrite_query create query else mret query) log
  = (Ok query', log1) ->
  build_context rs 5 = Ok ctx ->
  answer_question create model query rs rewrite log
  = (Ok match answer_of
                (create (length log1)
                   (answer_request model query' ctx (3 # 10) 2000)) with
        | Some text => if bool_decide (text = "") then failure_message else text
        | None => failure_message
        end,
     log1 ++ [answer_request model query' ctx (3 # 10) 2000]).
Proof.
  intros Hfirst Hctx. unfold answer_question.
  unfold mbind at 1, stx_bind at 1. rewrite Hfirst.
  unfold mbind, stx_bind, lift_res. rewrite Hctx, generate_answer_run.
  destruct (answer_of _) as [text|]; [|done].
  by destruct (bool_decide (text = "")).
Qed.

Section FailureFacts.
Context {World : Type}.
Implicit Types (s : AppState World).

(** What [generate_response] returns once the search and the context
    building have returned, in any history. *)
Lemma generate_response_after_context s (qa : QAObj World)
    (engine : SearchEngineObj World) (text : string) (temperature : Q)
    (top_k : Z) (use_conversation : bool) (results : list SearchResult)
    (ctx : string) (outcome : pyres (option string)) (w1 w2 w3 : World)
    (ms : list Message) (qs : list string) :
  qa_system (session s) = Some qa ->
  search_engine (session s) = Some engine ->
  se_hybrid_search engine text top_k (world s) = (Ok results, w1) ->
  qa_build_context qa results top_k w1 = (Ok ctx, w2) ->
  qa_generate_answer qa text ctx temperature use_conversation w2
  = (outcome, w3) ->
  generate_response text temperature top_k use_conversation
    (with_history s ms qs (world s))
  = (Ok match failure_sentence outcome with
        | Some sentence => (sentence, [])
        | None =>
            match reference_loop (slice_to results top_k) [] with
            | Ok refs => (default "" (default None (from_ok outcome)), refs)
            | Raise e => (error_message e, [])
            end
        end,
     with_history s ms qs w3).
Proof.
  intros Hqa Hse Hsearch Hctx Hgen. destruct s as [[ms0 qs0 qa0 se0] w0].
  simpl in Hqa, Hse, Hsearch. subst qa0 se0.
  unfold generate_response, with_history, get_session, try_except.
  repeat (unfold mbind, stx_bind, mret, stx_ret, call, lift_res;
          cbn [session world messages user_questions qa_system search_engine]).
  rewrite Hsearch. cbn. rewrite Hctx. cbn. rewrite Hgen. cbn.
  destruct outcome as [[answer|]|e]; cbn; [|done..].
  destruct (bool_decide (answer = "")); [done|].
  by destruct (reference_loop (slice_to results top_k) []).
Qed.

(** The two turns a text entered adds, from what [generate_response]
    returns in the history that already holds the user turn. *)
Lemma on_user_input_run s (text : string) (temperature : Q) (top_k : Z)
    (use_conversation : bool) (reply : string) (refs : list Reference)
    (w : World) :
  text <> "" ->
  generate_response text temperature top_k use_conversation
    (with_history s (messages (session s) ++ [user_turn text])
       (user_questions (session s) ++ [text]) (world s))
  = (Ok (reply, refs),
     with_history s (messages (session s) ++ [user_turn text])
       (user_questions (session s) ++ [text]) w) ->
  on_user_input (Some text) temperature top_k use_conversation s
  = (Ok tt,
     with_history s
       (messages (session s) ++ [user_turn text; assistant_turn reply refs])
       (user_questions (session s) ++ [text]) w).
Proof.
  intros Hne Hgen.
  unfold on_user_input. rewrite bool_decide_eq_false_2 by done.
  unfold with_history, user_turn, assistant_turn in *.
  unfold append_question, append_message, get_session, put_session.
  repeat (unfold mbind, stx_bind;
          cbn [session world messages user_questions qa_system search_engine]).
  rewrite Hgen.
  repeat (unfold mbind, stx_bind;
          cbn [session world messages user_questions qa_system search_engine]).
  by rewrite <- app_assoc.
Qed.
End FailureFacts.

(** C7 (as amended).  When answer generation fails, the answer text is
    withheld and the caller receives a failure sentence, and the front end
    appends an assistant turn holding that sentence to the history, after
    the user turn.  [answer_question], with or without rewriting, returns
    the sentinel sentence when the answer request gave no answer (the call
    raised, no choice, no content, no usage record) or an empty one, and
    the text of the answer in every other case.  [generate_response]
    returns the sentinel sentence, with no reference, when
    [generate_answer] returns [None] or an empty text, and the error
    sentence built from the exception when [generate_answer] raises; a
    non-empty answer is returned with its references. *)
Theorem generation_failure_is_reported {World : Type} (s : AppState World)
    (qa : QAObj World) (engine : SearchEngineObj World)
    (text : string) (temperature : Q) (top_k : Z) (use_conversation : bool)
    (results : list SearchResult) (ctx : string)
    (outcome : pyres (option string)) (w1 w2 w3 : World)
    create model (query : string) (rs : list SearchResult) (rewrite : bool)
    (log log1 : CallLog) (query' ctx' : string) :
  text <> "" ->
  qa_system (session s) = Some qa ->
  search_engine (session s) = Some engine ->
  se_hybrid_search engine text top_k (world s) = (Ok results, w1) ->
  qa_build_context qa results top_k w1 = (Ok ctx, w2) ->
  qa_generate_answer qa text ctx temperature use_conversation w2
  = (outcome, w3) ->
  (if rewrite then rewrite_query create query else mret query) log
  = (Ok query', log1) ->
  build_context rs 5 = Ok ctx' ->
  let request := answer_request model query' ctx' (3 # 10) 2000 in
  let given := answer_of (create (length log1) request) in
  (given = None \/ given = Some "" ->
   answer_question create model query rs rewrite log
   = (Ok failure_message, log1 ++ [request])) /\
  (forall answer, given = Some answer -> answer <> "" ->
     answer_question create model query rs rewrite log
     = (Ok answer, log1 ++ [request])) /\
  (forall sentence,
     outcome = Ok None /\ sentence = failure_message \/
     outcome = Ok (Some "") /\ sentence = failure_message \/
     (exists e, outcome = Raise e /\
                sentence = "오류가 발생했습니다: " +:+ exn_message e) ->
     generate_response text temperature top_k use_conversation s
     = (Ok (sentence, []),
        with_history s (messages (session s)) (user_questions (session s)) w3) /\
     on_user_input (Some text) temperature top_k use_conversation s
     = (Ok tt,
        with_history s
          (messages (session s)
           ++ [user_turn text; assistant_turn sentence []])
          (user_questions (session s) ++ [text]) w3)) /\
  (forall answer refs,
     outcome = Ok (Some answer) -> answer <> "" ->
     reference_loop (slice_to results top_k) [] = Ok refs ->
     on_user_input (Some text) temperature top_k use_conversation s
     = (Ok tt,
        with_history s
          (messages (session s)
           ++ [user_turn text; assistant_turn answer refs])
          (user_questions (session s) ++ [text]) w3)).
Proof.
  intros Hne Hqa Hse Hsearch Hctx Hgen Hfirst Hctx'. cbv zeta.
  pose proof (answer_question_run create model query rs rewrite log log1
                query' ctx' Hfirst Hctx') as Hrun.
  pose proof (fun ms qs =>
                generate_response_after_context s qa engine text temperature
                  top_k use_conversation results ctx outcome w1 w2 w3 ms qs
                  Hqa Hse Hsearch Hctx Hgen) as Hresp.
  split; [|split; [|split]].
  - intros [Hgiven|Hgiven]; by rewrite Hrun, Hgiven.
  - intros answer Hgiven Hanswer.
    by rewrite Hrun, Hgiven, bool_decide_eq_false_2.
  - intros sentence Hsentence.
    assert (Hfail : failure_sentence outcome = Some sentence).
    { by destruct Hsentence as [[-> ->]|[[-> ->]|(e & -> & ->)]]. }
    split.
    + specialize (Hresp (messages (session s)) (user_questions (session s))).
      rewrite Hfail in Hresp. by destruct s as [[] ?].
    + apply on_user_input_run; [done|]. by rewrite Hresp, Hfail.
  - intros answer refs -> Hanswer Hrefs.
    apply on_user_input_run; [done|]. rewrite Hresp. simpl.
    by rewrite bool_decide_eq_false_2, Hrefs.
Qed.

Lemma generation_failure_is_reported_witness :
  answer_question dead_service "gpt-4o" "서울 집값?" sample_results true []
  = (Ok failure_message,
     [rewrite_request "서울 집값?";
      answer_request "gpt-4o" "서울 집값?"
        (match build_context sample_results 5 with
         | Ok context => context
         | Raise _ => ""
         end) (3 # 10) 2000]) /\
  on_user_input (Some "서울 집값?") (3 # 10) 5 true light_app
  = (Ok tt,
     with_history light_app
       [user_turn "이전 질문"; user_turn "서울 집값?";
        assistant_turn
          ("오류가 발생했습니다: " +:+
           "QASystem.generate_answer() got an unexpected keyword argument 'use_history'")
          []]
       ["이전 질문"; "서울 집값?"] []).
Proof.
  destruct (build_context_returns sample_results 5) as [ctx Hctx];
    [by repeat constructor|].
  rewrite Hctx.
  destruct (generation_failure_is_reported light_app light_qa
              {| se_hybrid_search := fun _ _ => mret sample_results |}
              "서울 집값?" (3 # 10) 5 true sample_results ctx
              (Raise (TypeError
                 "QASystem.generate_answer() got an unexpected keyword argument 'use_history'"))
              [] [] []
              dead_service "gpt-4o" "서울 집값?" sample_results true []
              [rewrite_request "서울 집값?"] "서울 집값?" ctx)
    as (Hans & _ & Hturn & _);
    [done|reflexivity|reflexivity|reflexivity| |reflexivity|reflexivity
    |exact Hctx|].
  - unfold light_qa, qa_build_context, lift_res. by rewrite Hctx.
  - split; [apply Hans; by left|].
    apply (Hturn ("오류가 발생했습니다: " +:+
                  "QASystem.generate_answer() got an unexpected keyword argument 'use_history'")).
    right. right. by eexists.
Defined.

(** C7, as stated, fails in its last part: after a failed generation the
    history does hold an assistant turn for the failed answer.  With the
    [QASystem] the script builds, the call of [generate_answer] raises and
    the turn holds the error sentence; with a QA object whose
    [generate_answer] returns [None], the turn holds the sentinel
    sentence. *)
Lemma failed_answer_enters_history :
  (forall query context temperature use_history log,
     exists e,
       qa_generate_answer light_qa query context temperature use_history log
       = (Raise e, log)) /\
  messages (session
              (on_user_input (Some "서울 집값?") (3 # 10) 5 true light_app).2)
  = [user_turn "이전 질문"; user_turn "서울 집값?";
     assistant_turn
       ("오류가 발생했습니다: " +:+
        "QASystem.generate_answer() got an unexpected keyword argument 'use_history'")
       []] /\
  (forall query context temperature use_history,
     qa_generate_answer failing_qa query context temperature use_history tt
     = (Ok None, tt)) /\
  messages (session
              (on_user_input (Some "서울 집값?") (3 # 10) 5 true fresh_app).2)
  = [user_turn "서울 집값?"; assistant_turn failure_message []] /\
  ~ Forall (fun turn => role turn <> "assistant")
      (messages (session
         (on_user_input (Some "서울 집값?") (3 # 10) 5 true light_app).2)) /\
  ~ Forall (fun turn => role turn <> "assistant")
      (messages (session
         (on_user_input (Some "서울 집값?") (3 # 10) 5 true fresh_app).2)).
Proof.
  split; [intros; by eexists|].
  assert (Hlight : messages (session
              (on_user_input (Some "서울 집값?") (3 # 10) 5 true light_app).2)
            = [user_turn "이전 질문"; user_turn "서울 집값?";
               assistant_turn
                 ("오류가 발생했습니다: " +:+
                  "QASystem.generate_answer() got an unexpected keyword argument 'use_history'")
                 []])
    by by vm_compute.
  assert (Hfresh : messages (session
              (on_user_input (Some "서울 집값?") (3 # 10) 5 true fresh_app).2)
            = [user_turn "서울 집값?"; assistant_turn failure_message []])
    by by vm_compute.
  split; [exact Hlight|]. split; [reflexivity|]. split; [exact Hfresh|].
  rewrite Hlight, Hfresh. split; intros HF.
  - apply Forall_cons in HF as [_ HF]. apply Forall_cons in HF as [_ HF].
    apply Forall_cons in HF as [Hrole _]. by apply Hrole.
  - apply Forall_cons in HF as [_ HF]. apply Forall_cons in HF as [Hrole _].
    by apply Hrole.
Qed.

(** ** The chunking driver *)

Section ChunkingFacts.
Context {Chunk TableRecord ImageRecord : Type}.
Implicit Types (chunker : ChunkingStrategy Chunk TableRecord ImageRecord).

Lemma table_loop_spec chunker (tables : list TableRecord)
    (acc chunks : list Chunk) :
  table_loop chunker tables acc = Ok chunks <->
  exists new,
    Forall2 (fun t c => make_table_to_chunk chunker t = Ok c) tables new /\
    chunks = acc ++ new.
Proof.
  revert acc. induction tables as [|t tables IH]; intros acc; simpl.
  - split.
    + intros [= <-]. exists []. by rewrite app_nil_r.
    + intros (new & ->%Forall2_nil_inv_l & ->). by rewrite app_nil_r.
  - split.
    + intros (c & Hc & Hrest)%bind_Ok_inv.
      apply IH in Hrest as (new & HF & ->).
      exists (c :: new). split; [by constructor|]. by rewrite <- app_assoc.
    + intros (new & HF & ->).
      apply Forall2_cons_inv_l in HF as (c & new' & Hc & HF & ->).
      rewrite Hc. simpl. apply IH. exists new'.
      split; [done|]. by rewrite <- app_assoc.
Qed.

Lemma image_loop_spec chunker (images : list ImageRecord)
    (acc chunks : list Chunk) :
  image_loop chunker images acc = Ok chunks <->
  exists new,
    Forall2 (fun i c => make_image_to_chunk chunker i = Ok c) images new /\
    chunks = acc ++ new.
Proof.
  revert acc. induction images as [|i images IH]; intros acc; simpl.
  - split.
    + intros [= <-]. exists []. by rewrite app_nil_r.
    + intros (new & ->%Forall2_nil_inv_l & ->). by rewrite app_nil_r.
  - split.
    + intros (c & Hc & Hrest)%bind_Ok_inv.
      apply IH in Hrest as (new & HF & ->).
      exists (c :: new). split; [by constructor|]. by rewrite <- app_assoc.
    + intros (new & HF & ->).
      apply Forall2_cons_inv_l in HF as (c & new' & Hc & HF & ->).
      rewrite Hc. simpl. apply IH. exists new'.
      split; [done|]. by rewrite <- app_assoc.
Qed.
End ChunkingFacts.

Lemma collect_chunks_spec {Chunk TableRecord ImageRecord : Type}
    (chunker : ChunkingStrategy Chunk TableRecord ImageRecord)
    (institution : string) (data : ProcessedReport TableRecord ImageRecord)
    (text_chunks table_chunks image_chunks all_chunks : list Chunk) :
  collect_chunks chunker institution data
  = Ok (text_chunks, table_chunks, image_chunks, all_chunks) <->
  (exists code, default (PStr institution) (rp_institution data) = PStr code) /\
  chunk_pages chunker (text_block_loop (default [] (rp_texts data)) [])
    (default (PStr institution) (rp_institution data)) = Ok text_chunks /\
  Forall2 (fun t c => make_table_to_chunk chunker t = Ok c)
    (default [] (rp_tables data)) table_chunks /\
  Forall2 (fun i c => make_image_to_chunk chunker i = Ok c)
    (default [] (rp_images data)) image_chunks /\
  all_chunks = text_chunks ++ table_chunks ++ image_chunks.
Proof.
  unfold collect_chunks. split.
  - intros (u & Hup & H)%bind_Ok_inv.
    apply bind_Ok_inv in H as (tc & Htc & H).
    apply bind_Ok_inv in H as (tbc & Htbc & H).
    apply bind_Ok_inv in H as (ic & Hic & [= <- <- <- <-]).
    apply table_loop_spec in Htbc as (new & HFt & ->).
    apply image_loop_spec in Hic as (new' & HFi & ->).
    split; [|by repeat split].
    unfold call_upper in Hup.
    destruct (default (PStr institution) (rp_institution data)); try done.
    by eexists.
  - intros ([code Hcode] & Htc & HFt & HFi & ->). rewrite Hcode in *. simpl.
    rewrite Htc. simpl.
    assert (Ht : table_loop chunker (default [] (rp_tables data)) []
                 = Ok table_chunks)
      by (apply table_loop_spec; by exists table_chunks).
    assert (Hi : image_loop chunker (default [] (rp_images data)) []
                 = Ok image_chunks)
      by (apply image_loop_spec; by exists image_chunks).
    rewrite Ht. simpl. rewrite Hi. reflexivity.
Qed.

(** When and with what [chunk_single_institution] returns chunks. *)
Lemma chunk_single_institution_Some {Chunk TableRecord ImageRecord : Type}
    (new_chunker : Z -> Z -> string ->
                   ChunkingStrategy Chunk TableRecord ImageRecord)
    (read_report :
       string -> option (pyres (ProcessedReport TableRecord ImageRecord)))
    (path_str : list string -> string) (institution : string)
    (final : list Chunk) :
  chunk_single_institution new_chunker read_report path_str institution
  = Ok (Some final) <->
  exists data text_chunks table_chunks image_chunks,
    read_report institution = Some (Ok data) /\
    collect_chunks (new_chunker 800 100 "gpt-4") institution data
    = Ok (text_chunks, table_chunks, image_chunks,
          text_chunks ++ table_chunks ++ image_chunks) /\
    apply_overlap (new_chunker 800 100 "gpt-4")
      (text_chunks ++ table_chunks ++ image_chunks) = Ok final /\
    save_chunks (new_chunker 800 100 "gpt-4") final
      (path_str ["data"; "processed"; institution;
                 institution +:+ "_chunks.json"]) = Ok tt.
Proof.
  unfold chunk_single_institution.
  destruct (read_report institution) as [[data|e]|].
  - simpl. split.
    + destruct (collect_chunks _ _ _) as [[[[tc tbc] ic] al]|e] eqn:Hc;
        simpl; [|done].
      destruct (apply_overlap _ _) as [final'|e] eqn:Ho; simpl; [|done].
      destruct (save_chunks _ _ _) as [[]|e] eqn:Hs; simpl; [|done].
      intros [= <-].
      assert (al = tc ++ tbc ++ ic) as ->.
      { by apply collect_chunks_spec in Hc as (_ & _ & _ & _ & ->). }
      by exists data, tc, tbc, ic.
    + intros (data' & tc & tbc & ic & [= <-] & -> & Ho & Hs). simpl.
      rewrite Ho. simpl. unfold output_file. by rewrite Hs.
  - simpl. split; [done|]. by intros (? & ? & ? & ? & [=] & _).
  - split; [done|]. by intros (? & ? & ? & ? & [=] & _).
Qed.

(** C9.  The driver makes exactly one chunk of every table record and one
    of every image record, by one call of [make_table_to_chunk] or
    [make_image_to_chunk] on the whole record, whatever the record is; the
    chunks stand in the order of the records, after the text chunks, and
    it is to this list that [chunk_single_institution] applies the overlap
    before it saves and returns the result. *)
Theorem one_chunk_per_table_and_image {Chunk TableRecord ImageRecord : Type}
    (new_chunker : Z -> Z -> string ->
                   ChunkingStrategy Chunk TableRecord ImageRecord)
    (read_report :
       string -> option (pyres (ProcessedReport TableRecord ImageRecord)))
    (path_str : list string -> string)
    (institution : string) (data : ProcessedReport TableRecord ImageRecord)
    (text_chunks table_chunks image_chunks all_chunks : list Chunk) :
  let chunker := new_chunker 800 100 "gpt-4" in
  let tables := default [] (rp_tables data) in
  let images := default [] (rp_images data) in
  (collect_chunks chunker institution data
   = Ok (text_chunks, table_chunks, image_chunks, all_chunks) <->
   (exists code, default (PStr institution) (rp_institution data) = PStr code) /\
   chunk_pages chunker (text_block_loop (default [] (rp_texts data)) [])
     (default (PStr institution) (rp_institution data)) = Ok text_chunks /\
   Forall2 (fun t c => make_table_to_chunk chunker t = Ok c) tables table_chunks /\
   Forall2 (fun i c => make_image_to_chunk chunker i = Ok c) images image_chunks /\
   all_chunks = text_chunks ++ table_chunks ++ image_chunks) /\
  (collect_chunks chunker institution data
   = Ok (text_chunks, table_chunks, image_chunks, all_chunks) ->
   length table_chunks = length tables /\
   length image_chunks = length images /\
   length all_chunks
   = (length text_chunks + length tables + length images)%nat) /\
  (forall final,
     chunk_single_institution new_chunker read_report path_str institution
     = Ok (Some final) <->
     exists report texts_out tables_out images_out,
       read_report institution = Some (Ok report) /\
       (exists code,
          default (PStr institution) (rp_institution report) = PStr code) /\
       chunk_pages chunker (text_block_loop (default [] (rp_texts report)) [])
         (default (PStr institution) (rp_institution report)) = Ok texts_out /\
       Forall2 (fun t c => make_table_to_chunk chunker t = Ok c)
         (default [] (rp_tables report)) tables_out /\
       Forall2 (fun i c => make_image_to_chunk chunker i = Ok c)
         (default [] (rp_images report)) images_out /\
       apply_overlap chunker (texts_out ++ tables_out ++ images_out)
       = Ok final /\
       save_chunks chunker final
         (path_str ["data"; "processed"; institution;
                    institution +:+ "_chunks.json"]) = Ok tt).
Proof.
  cbv zeta.
  pose proof (collect_chunks_spec (new_chunker 800 100 "gpt-4") institution
                data text_chunks table_chunks image_chunks all_chunks) as Hiff.
  split; [exact Hiff|]. split.
  - intros (_ & _ & HFt & HFi & ->)%Hiff.
    apply Forall2_length in HFt, HFi. rewrite !length_app. lia.
  - intros final. rewrite chunk_single_institution_Some. split.
    + intros (report & tc & tbc & ic & Hread & Hc & Ho & Hs).
      apply collect_chunks_spec in Hc as (Hcode & Htc & HFt & HFi & _).
      by exists report, tc, tbc, ic.
    + intros (report & tc & tbc & ic & Hread & Hcode & Htc & HFt & HFi & Ho & Hs).
      exists report, tc, tbc, ic. split; [done|]. split; [|done].
      by apply collect_chunks_spec.
Qed.

Lemma one_chunk_per_table_and_image_witness :
  collect_chunks sample_chunker "kb" sample_report
  = Ok (["page one"],
        ["table: t1"; "table: a very long table"],
        ["image: fig1"],
        ["page one"; "table: t1"; "table: a very long table"; "image: fig1"]) /\
  length ["table: t1"; "table: a very long table"]
  = length (default [] (rp_tables sample_report)) /\
  chunk_single_institution (fun _ _ _ => sample_chunker) sample_reports
    sample_path_str "kb"
  = Ok (Some ["page one"; "table: t1"; "table: a very long table";
              "image: fig1"]).
Proof.
  destruct (one_chunk_per_table_and_image (fun _ _ _ => sample_chunker)
              sample_reports sample_path_str "kb" sample_report
              ["page one"] ["table: t1"; "table: a very long table"]
              ["image: fig1"]
              ["page one"; "table: t1"; "table: a very long table";
               "image: fig1"]) as (Hiff & Hlen & Hwhole).
  assert (H : collect_chunks sample_chunker "kb" sample_report
              = Ok (["page one"],
                    ["table: t1"; "table: a very long table"],
                    ["image: fig1"],
                    ["page one"; "table: t1"; "table: a very long table";
                     "image: fig1"])).
  { apply Hiff. split; [by exists "kb"|]. split; [reflexivity|].
    split; [by repeat constructor|]. split; [by repeat constructor|].
    reflexivity. }
  split; [exact H|]. split; [by destruct (Hlen H) as (-> & _)|].
  apply Hwhole.
  exists sample_report, ["page one"],
    ["table: t1"; "table: a very long table"], ["image: fig1"].
  split; [reflexivity|]. split; [by exists "kb"|]. split; [reflexivity|].
  split; [by repeat constructor|]. split; [by repeat constructor|].
  by split.
Defined.

(** A report whose ["institution"] is not a string stops the driver at
    the first use of [institution_code.upper()], before any chunk is made. *)
Example collect_chunks_bad_institution :
  collect_chunks sample_chunker "kb"
    {| rp_institution := Some (PInt 5); rp_texts := None;
       rp_tables := Some ["t"]; rp_images := None |}
  = Raise (AttributeError "'int' object has no attribute 'upper'").
Proof. reflexivity. Qed.

(** ** The rank fuser *)

(** The order of the fused output, spelled out. *)
Lemma fused_le_alt (a b : FusedResult) :
  fused_le a b <->
  (fr_rrf_score b < fr_rrf_score a)%Qc \/
  (fr_rrf_score a = fr_rrf_score b /\
   String.le (fr_chunk_id a) (fr_chunk_id b)).
Proof.
  unfold fused_le, fused_leb, String.le.
  destruct (fr_rrf_score b ?= fr_rrf_score a)%Qc eqn:E.
  - apply Qceq_alt in E. split; [by right|].
    intros [Hlt|[_ ?]]; [|done]. by apply Qclt_not_eq in Hlt.
  - apply Qclt_alt in E. split; [by left|done].
  - apply Qcgt_alt in E. split; [done|].
    intros [Hlt|[Heq _]].
    + by destruct (irreflexivity Qclt _ (Qclt_trans _ _ _ E Hlt)).
    + rewrite Heq in E. by destruct (irreflexivity Qclt _ E).
Qed.

#[global] Instance fused_le_total : Total fused_le.
Proof.
  intros a b. rewrite !fused_le_alt.
  destruct (Qclt_le_dec (fr_rrf_score b) (fr_rrf_score a)) as [?|Hle];
    [by left; left|].
  destruct (Qclt_le_dec (fr_rrf_score a) (fr_rrf_score b)) as [?|Hle'];
    [by right; left|].
  assert (fr_rrf_score a = fr_rrf_score b) by by apply Qcle_antisym.
  destruct (total String.le (fr_chunk_id a) (fr_chunk_id b));
    [left|right]; by right.
Qed.

#[global] Instance fused_le_trans : Transitive fused_le.
Proof.
  intros a b c. rewrite !fused_le_alt.
  intros [Hab|[Hab Hab']] [Hbc|[Hbc Hbc']].
  - left. by eapply Qclt_trans.
  - left. by rewrite <- Hbc.
  - left. by rewrite Hab.
  - right. split; [congruence|]. by etrans.
Qed.

#[global] Instance fused_le_antisym : AntiSymm eq fused_le.
Proof.
  intros [ia sa] [ib sb]. rewrite !fused_le_alt. simpl.
  intros [Hab|[Hab Hab']] [Hba|[Hba Hba']].
  - by destruct (irreflexivity Qclt _ (Qclt_trans _ _ _ Hab Hba)).
  - rewrite Hba in Hab. by destruct (irreflexivity Qclt _ Hab).
  - rewrite Hab in Hba. by destruct (irreflexivity Qclt _ Hba).
  - f_equal; [|done]. by apply (anti_symm String.le).
Qed.

Lemma rank_in_list_Some (c : string) (hits : list RankedHit) :
  is_Some (rank_in_list c hits) <-> c ∈ chunk_id <$> hits.
Proof.
  induction hits as [|h hits IH]; simpl.
  - split; [by intros [? ?]|by intros ?%elem_of_nil].
  - destruct (decide (chunk_id h = c)) as [<-|Hne].
    + split; [intros _; by left|by eauto].
    + rewrite IH. split; [by right|].
      by intros [?|?]%elem_of_cons.
Qed.

(** The rank found is the rank of the first hit of the chunk. *)
Lemma rank_in_list_hit (c : string) (hits : list RankedHit) (r : positive) :
  rank_in_list c hits = Some r ->
  exists h, h ∈ hits /\ chunk_id h = c /\ rank h = r.
Proof.
  induction hits as [|h hits IH]; simpl; [done|].
  destruct (decide (chunk_id h = c)) as [<-|Hne].
  - intros [= <-]. exists h. split; [by left|done].
  - intros (h' & Hin & ? & ?)%IH. exists h'. split; [by right|done].
Qed.

Lemma elem_of_distinct_ids (lists : list (string * list RankedHit)) (c : string) :
  c ∈ distinct_ids lists <->
  exists named h, named ∈ lists /\ h ∈ named.2 /\ chunk_id h = c.
Proof.
  unfold distinct_ids. rewrite elem_of_remove_dups.
  rewrite list_elem_of_In, in_concat. split.
  - intros (ids & Hids & Hc).
    apply list_elem_of_In, list_elem_of_fmap in Hids as (named & -> & Hnamed).
    apply list_elem_of_In, list_elem_of_fmap in Hc as (h & -> & Hh).
    by exists named, h.
  - intros (named & h & Hnamed & Hh & <-).
    exists (chunk_id <$> named.2). split.
    + apply list_elem_of_In, list_elem_of_fmap. by exists named.
    + apply list_elem_of_In, list_elem_of_fmap. by exists h.
Qed.

Lemma fuse_permutation (k : N) (lists : list (string * list RankedHit)) :
  fuse k lists
  ≡ₚ (fun c => {| fr_chunk_id := c; fr_rrf_score := rrf_score k lists c |})
       <$> distinct_ids lists.
Proof. apply merge_sort_Permutation. Qed.

Lemma fuse_ids (k : N) (lists : list (string * list RankedHit)) :
  fr_chunk_id <$> fuse k lists ≡ₚ distinct_ids lists.
Proof.
  rewrite fuse_permutation, <- list_fmap_compose.
  erewrite (list_fmap_ext _ id); [by rewrite list_fmap_id|done].
Qed.

Lemma fuse_sorted (k : N) (lists : list (string * list RankedHit)) :
  StronglySorted fused_le (fuse k lists).
Proof. apply StronglySorted_merge_sort; apply _. Qed.

Lemma fuse_score (k : N) (lists : list (string * list RankedHit))
    (r : FusedResult) :
  r ∈ fuse k lists -> fr_rrf_score r = rrf_score k lists (fr_chunk_id r).
Proof.
  rewrite fuse_permutation. by intros (c & -> & _)%list_elem_of_fmap.
Qed.

Lemma StronglySorted_lookup {A : Type} (R : relation A) (l : list A)
    (i j : nat) (a b : A) :
  StronglySorted R l -> (i < j)%nat ->
  l !! i = Some a -> l !! j = Some b -> R a b.
Proof.
  intros HS. revert i j. induction HS as [|x l HS IH HF]; intros i j Hij Hi Hj.
  - by rewrite lookup_nil in Hi.
  - destruct j as [|j]; [lia|]. destruct i as [|i]; simplify_eq/=.
    + rewrite Forall_forall in HF. apply HF. by eapply list_elem_of_lookup_2.
    + apply (IH i j); [lia|done..].
Qed.

Lemma sum_permutation (l1 l2 : list Qc) :
  l1 ≡ₚ l2 -> foldr Qcplus 0%Qc l1 = foldr Qcplus 0%Qc l2.
Proof.
  induction 1 as [|x l1 l2 _ IH|x y l|l1 l2 l3 _ IH1 _ IH2]; simpl.
  - done.
  - by rewrite IH.
  - rewrite !Qcplus_assoc. by rewrite (Qcplus_comm y x).
  - by rewrite IH1.
Qed.

Lemma rrf_score_alt (k : N) (lists : list (string * list RankedHit))
    (c : string) :
  rrf_score k lists c = foldr Qcplus 0%Qc (contribution k c <$> lists.*2).
Proof. unfold rrf_score. by rewrite <- list_fmap_compose. Qed.

Lemma distinct_ids_alt (lists : list (string * list RankedHit)) :
  distinct_ids lists
  = remove_dups
      (concat ((fun hits : list RankedHit => chunk_id <$> hits) <$> lists.*2)).
Proof. unfold distinct_ids. by rewrite <- list_fmap_compose. Qed.

Lemma concat_elem_permutation {A : Type} (ls1 ls2 : list (list A)) (x : A) :
  ls1 ≡ₚ ls2 -> x ∈ concat ls1 -> x ∈ concat ls2.
Proof.
  intros HP. rewrite !list_elem_of_In, !in_concat.
  intros (l & Hl & Hx). exists l. split; [|done].
  apply list_elem_of_In. rewrite <- HP. by apply list_elem_of_In.
Qed.

(** The fused list depends only on the collection of hit lists, not on
    their names or their order. *)
Lemma fuse_permutation_invariant (k : N)
    (lists1 lists2 : list (string * list RankedHit)) :
  lists1.*2 ≡ₚ lists2.*2 -> fuse k lists1 = fuse k lists2.
Proof.
  intros HP.
  apply (StronglySorted_unique fused_le); [apply fuse_sorted..|].
  rewrite !fuse_permutation.
  assert (Hids : distinct_ids lists1 ≡ₚ distinct_ids lists2).
  { rewrite !distinct_ids_alt.
    apply NoDup_Permutation; [apply NoDup_remove_dups..|].
    intros c. rewrite !elem_of_remove_dups.
    split; apply concat_elem_permutation; by rewrite HP. }
  rewrite <- Hids. erewrite list_fmap_ext; [reflexivity|].
  intros _ c _. simpl. f_equal. rewrite !rrf_score_alt.
  apply sum_permutation. by rewrite HP.
Qed.

(** C1.  The fused score of a chunk is the sum over the lists of
    [1 / (k + rank)] for the lists that rank it and 0 for the lists that do
    not; the fused output holds every chunk of some list exactly once,
    sorted by score descending and chunk id ascending on ties; and
    [hybrid_search(query, top_k)] is the first [top_k] elements of it. *)
Theorem fusion_correct (keyword_search vector_search : string -> list RankedHit)
    (k : N) (lists : list (string * list RankedHit)) (query : string)
    (top_k : nat) :
  (forall r, r ∈ fuse k lists ->
     fr_rrf_score r
     = foldr Qcplus 0%Qc
         ((fun named : string * list RankedHit =>
             match rank_in_list (fr_chunk_id r) named.2 with
             | Some rk => (1 / Q2Qc (inject_Z (Z.of_N k + Z.pos rk)))%Qc
             | None => 0%Qc
             end) <$> lists)) /\
  (forall c hits,
     (c ∉ chunk_id <$> hits -> rank_in_list c hits = None) /\
     (c ∈ chunk_id <$> hits ->
      exists h, h ∈ hits /\ chunk_id h = c /\ rank_in_list c hits = Some (rank h))) /\
  (forall r,
     r ∈ fuse k [("keyword", keyword_search query);
                 ("vector", vector_search query)] ->
     fr_rrf_score r
     = (contribution k (fr_chunk_id r) (keyword_search query)
        + contribution k (fr_chunk_id r) (vector_search query))%Qc) /\
  NoDup (fr_chunk_id <$> fuse k lists) /\
  (forall c, c ∈ fr_chunk_id <$> fuse k lists <->
     exists named h, named ∈ lists /\ h ∈ named.2 /\ chunk_id h = c) /\
  (forall (i j : nat) a b,
     (i < j)%nat -> fuse k lists !! i = Some a -> fuse k lists !! j = Some b ->
     (fr_rrf_score b < fr_rrf_score a)%Qc \/
     (fr_rrf_score a = fr_rrf_score b /\
      String.le (fr_chunk_id a) (fr_chunk_id b) /\
      fr_chunk_id a <> fr_chunk_id b)) /\
  hybrid_search keyword_search vector_search k query top_k
  = take top_k (fuse k [("keyword", keyword_search query);
                        ("vector", vector_search query)]) /\
  length (hybrid_search keyword_search vector_search k query top_k)
  = Nat.min top_k
      (length (distinct_ids [("keyword", keyword_search query);
                             ("vector", vector_search query)])).
Proof.
  assert (Hnodup : NoDup (fr_chunk_id <$> fuse k lists)).
  { rewrite fuse_ids. apply NoDup_remove_dups. }
  split; [by intros r ->%fuse_score|].
  split.
  { intros c hits. split.
    - intros Hnot. destruct (rank_in_list c hits) eqn:E; [|done].
      destruct Hnot. apply rank_in_list_Some. by rewrite E.
    - intros [rk Hrk]%rank_in_list_Some.
      destruct (rank_in_list_hit _ _ _ Hrk) as (h & Hin & Hc & Hr).
      exists h. by rewrite Hr. }
  split.
  { intros r ->%fuse_score. unfold rrf_score. simpl.
    by rewrite Qcplus_0_r. }
  split; [done|].
  split; [intros c; by rewrite fuse_ids, elem_of_distinct_ids|].
  split.
  { intros i j a b Hij Hi Hj.
    pose proof (StronglySorted_lookup fused_le _ i j a b
                  (fuse_sorted k lists) Hij Hi Hj) as Hle.
    apply fused_le_alt in Hle as [?|[? ?]]; [by left|right].
    split; [done|]. split; [done|]. intros Heq.
    assert (i = j); [|lia].
    eapply NoDup_lookup; [exact Hnodup|..];
      rewrite list_lookup_fmap; [by rewrite Hi|by rewrite Hj, Heq]. }
  split; [done|].
  unfold hybrid_search. rewrite length_take. f_equal.
  rewrite <- (length_fmap fr_chunk_id). by rewrite fuse_ids.
Qed.

Lemma fusion_correct_witness :
  (fun r => (fr_chunk_id r, this (fr_rrf_score r)))
    <$> hybrid_search (fun _ => lexical_hits) (fun _ => semantic_hits) 60
          "서울 집값" 2
  = [("B", 123 # 3782); ("A", 1 # 61)] /\
  forall r,
    r ∈ fuse 60 [("keyword", lexical_hits); ("vector", semantic_hits)] ->
    fr_rrf_score r
    = (contribution 60 (fr_chunk_id r) lexical_hits
       + contribution 60 (fr_chunk_id r) semantic_hits)%Qc.
Proof.
  destruct (fusion_correct (fun _ => lexical_hits) (fun _ => semantic_hits) 60
              [] "서울 집값" 2) as (_ & _ & Hpair & _ & _ & _ & Htop & _).
  split; [rewrite Htop; by vm_compute|exact Hpair].
Defined.

(** C2.  The fused order is a function of the hit lists alone: it is the
    same for the lists supplied in any order (and under any names), hence
    the same from one invocation to the next, and [hybrid_search] does not
    change when the two retrieval methods change places. *)
Theorem fusion_order_independent (k : N)
    (lists1 lists2 : list (string * list RankedHit)) :
  lists1.*2 ≡ₚ lists2.*2 ->
  fuse k lists1 = fuse k lists2 /\
  fr_chunk_id <$> fuse k lists1 = fr_chunk_id <$> fuse k lists2 /\
  (forall (search1 search2 : string -> list RankedHit) query top_k,
     hybrid_search search1 search2 k query top_k
     = hybrid_search search2 search1 k query top_k).
Proof.
  intros HP.
  assert (H := fuse_permutation_invariant k lists1 lists2 HP).
  split; [done|]. split; [by rewrite H|].
  intros search1 search2 query top_k. unfold hybrid_search. f_equal.
  apply fuse_permutation_invariant. simpl. apply perm_swap.
Qed.

Lemma fusion_order_independent_witness :
  fuse 60 [("keyword", lexical_hits); ("vector", semantic_hits)]
  = fuse 60 [("vector", semantic_hits); ("keyword", lexical_hits)].
Proof.
  apply (fusion_order_independent 60
           [("keyword", lexical_hits); ("vector", semantic_hits)]
           [("vector", semantic_hits); ("keyword", lexical_hits)]).
  simpl. apply perm_swap.
Defined.

(** The worked example: with lexical ranks A:1, B:2, semantic ranks B:1,
    C:2 and [k = 60], B scores 1/62 + 1/61, A scores 1/61 and C 1/62. *)
Example fuse_example :
  (fun r => (fr_chunk_id r, this (fr_rrf_score r)))
    <$> fuse 60 [("keyword", lexical_hits); ("vector", semantic_hits)]
  = [("B", 123 # 3782); ("A", 1 # 61); ("C", 1 # 62)].
Proof. by vm_compute. Qed.

(** ** The front end with the [QASystem] at hand *)

(** With the class of src/s7_qa_system_light.py as [qa_system], the call
    [generate_answer(..., use_history=...)] raises, and [generate_response]
    answers with the error sentence. *)
Lemma light_qa_response (engine : SearchEngineObj CallLog)
    (ms : list Message) (qs : list string) (log log' : CallLog)
    (query : string) (temperature : Q) (top_k : Z) (use_conversation : bool)
    (results : list SearchResult) (ctx : string) :
  se_hybrid_search engine query top_k log = (Ok results, log') ->
  build_context results top_k = Ok ctx ->
  (generate_response query temperature top_k use_conversation
     {| session := {| messages := ms; user_questions := qs;
                      qa_system := Some light_qa;
                      search_engine := Some engine |};
        world := log |}).1
  = Ok (error_message
          (TypeError
             "QASystem.generate_answer() got an unexpected keyword argument 'use_history'"),
        []).
Proof.
  intros Hsearch Hctx.
  unfold generate_response, get_session, try_except.
  repeat (unfold mbind, stx_bind, mret, stx_ret, call, lift_res;
          cbn [session world messages user_questions qa_system search_engine]).
  rewrite Hsearch. cbn. unfold lift_res. by rewrite Hctx.
Qed.

(* ===================================================================== *)
(** * Part III: further properties of the code                            *)
(* ===================================================================== *)

(** ** When [build_context] raises *)

Lemma render_block_fails (i : Z) (r : SearchResult) :
  block_fails r = true ->
  render_block i r = Raise (image_path_error r).
Proof.
  unfold block_fails, render_block, extra_info_of, image_path_error.
  set (metadata := default ∅ (sr_metadata r)).
  destruct (truthy (default PNone (metadata !! "table_id"))); [done|].
  destruct (default PNone (metadata !! "image_path")) as [|[]|z|p]; simpl;
    try done.
  by intros ->.
Qed.

Lemma render_block_succeeds (i : Z) (r : SearchResult) :
  block_fails r = false -> exists b, render_block i r = Ok b.
Proof.
  unfold block_fails, render_block, extra_info_of.
  set (metadata := default ∅ (sr_metadata r)).
  destruct (truthy (default PNone (metadata !! "table_id"))); [by eexists|].
  destruct (default PNone (metadata !! "image_path")) as [|[]|z|p]; simpl;
    try done; try by eexists.
  - intros ->. by eexists.
  - intros _. destruct (negb (bool_decide (p = ""))); [|by eexists].
    destruct (contains_char backslash p).
    + destruct (py_last_split backslash p) as [w ->]. by eexists.
    + destruct (py_last_split slash p) as [w ->]. by eexists.
Qed.

(** The loop stops at the first result whose block cannot be rendered. *)
Lemma render_loop_raises (l : list SearchResult) (start : Z)
    (acc : list string) (j : nat) (r : SearchResult) :
  first_failing l = Some (j, r) ->
  render_loop (enumerate l start) acc = Raise (image_path_error r).
Proof.
  unfold first_failing.
  revert start acc j. induction l as [|x l IH]; intros start acc j; [done|].
  simpl. destruct (decide (block_fails x = true)) as [Hx|Hx].
  - intros [= _ <-]. by rewrite (render_block_fails start x Hx).
  - apply not_true_is_false in Hx.
    destruct (render_block_succeeds start x Hx) as [b ->]. simpl.
    destruct (list_find _ l) as [[j' r']|] eqn:Hfind; [|done].
    simpl. intros [= _ <-]. by apply (IH _ _ j').
Qed.

Lemma render_loop_succeeds (items : list (Z * SearchResult))
    (acc : list string) :
  Forall (fun ir => block_fails ir.2 = false) items ->
  exists parts, render_loop items acc = Ok parts.
Proof.
  revert acc. induction items as [|[i r] items IH]; intros acc HF; simpl.
  - by eexists.
  - apply Forall_cons in HF as [Hr HF].
    destruct (render_block_succeeds i r Hr) as [b ->]. simpl. by apply IH.
Qed.

Lemma enumerate_Forall {A : Type} (P : A -> Prop) (l : list A) (start : Z) :
  Forall (fun ir => P ir.2) (enumerate l start) <-> Forall P l.
Proof.
  revert start. induction l as [|x l IH]; intros start; simpl.
  - split; constructor.
  - by rewrite !Forall_cons, IH.
Qed.

Lemma first_failing_None (l : list SearchResult) :
  first_failing l = None <-> Forall (fun r => block_fails r = false) l.
Proof.
  unfold first_failing. rewrite list_find_None. apply Forall_proper; [|done].
  intros r. split; [apply not_true_is_false|congruence].
Qed.

Lemma first_failing_Some (l : list SearchResult) (j : nat) (r : SearchResult) :
  first_failing l = Some (j, r) <->
  l !! j = Some r /\ block_fails r = true /\
  forall j' r', l !! j' = Some r' -> (j' < j)%nat -> block_fails r' = false.
Proof.
  unfold first_failing. rewrite list_find_Some.
  split; intros (Hj & Hr & Hbefore); (split; [done|split; [done|]]);
    intros j' r' Hj' Hlt.
  - apply not_true_is_false. by apply (Hbefore j').
  - rewrite (Hbefore j' r' Hj' Hlt). done.
Qed.

(** X1.  Over results whose metadata values are [None], booleans, integers
    or strings: for a non-empty result list, [build_context] raises exactly
    when one of the results it renders has no truthy [table_id] and an
    [image_path] that is a non-zero integer or [True]; the exception is
    then the [TypeError] of the test ['\\' in image_path] on the first such
    result, which names the type of that value; in every other case a
    context is returned. *)
Theorem build_context_raises_iff (rs : list SearchResult) (m : Z) :
  rs <> [] ->
  ((exists e, build_context rs m = Raise e) <->
   Exists (fun r => block_fails r = true) (slice_to rs m)) /\
  ((exists ctx, build_context rs m = Ok ctx) <->
   Forall (fun r => block_fails r = false) (slice_to rs m)) /\
  (forall e,
     build_context rs m = Raise e <->
     exists j r,
       slice_to rs m !! j = Some r /\ block_fails r = true /\
       (forall j' r', slice_to rs m !! j' = Some r' -> (j' < j)%nat ->
                      block_fails r' = false) /\
       (exists v,
          default PNone (default ∅ (sr_metadata r) !! "image_path") = v /\
          (v = PBool true \/ exists z, z <> 0 /\ v = PInt z) /\
          e = TypeError ("argument of type '" +:+ py_type_name v +:+
                         "' is not iterable"))).
Proof.
  intros Hne. destruct rs as [|r0 rs]; [done|]. unfold build_context.
  set (top := slice_to (r0 :: rs) m).
  destruct (first_failing top) as [[j r]|] eqn:Hfind.
  - rewrite (render_loop_raises top 1 [context_header] j r Hfind). simpl.
    pose proof Hfind as (Hj & Hr & Hbefore)%first_failing_Some.
    assert (Hv : exists v,
               default PNone (default ∅ (sr_metadata r) !! "image_path") = v /\
               (v = PBool true \/ exists z, z <> 0 /\ v = PInt z) /\
               image_path_error r
               = TypeError ("argument of type '" +:+ py_type_name v +:+
                            "' is not iterable")).
    { eexists. split; [reflexivity|]. split; [|reflexivity].
      revert Hr. unfold block_fails.
      destruct (default PNone (default ∅ (sr_metadata r) !! "image_path"))
        as [|[]|z|p]; rewrite ?andb_false_r; try done.
      - by left.
      - simpl. intros [_ Hz%negb_true_iff%Z.eqb_neq]%andb_true_iff.
        right. by exists z. }
    split; [|split].
    + split; [intros _|by eexists]. apply Exists_exists. exists r.
      split; [by eapply list_elem_of_lookup_2|done].
    + split; [by intros [? ?]|]. intros HF%first_failing_None. congruence.
    + intros e. split.
      * intros [= <-]. exists j, r. destruct Hv as (v & Hv & Hkind & ->).
        split; [done|]. split; [done|]. split; [done|]. by exists v.
      * intros (j2 & r2 & Hj2 & Hr2 & Hbefore2 & v & Hv2 & _ & ->).
        assert (first_failing top = Some (j2, r2)) as Hfind2
          by by apply first_failing_Some.
        rewrite Hfind in Hfind2. injection Hfind2 as -> ->.
        unfold image_path_error. by rewrite Hv2.
  - apply first_failing_None in Hfind as HF.
    destruct (render_loop_succeeds (enumerate top 1) [context_header])
      as [parts ->];
      [by apply (enumerate_Forall (fun r => block_fails r = false))|].
    simpl. split; [|split].
    + split; [by intros [? ?]|]. intros HE.
      apply Exists_exists in HE as (r & Hin & Hr).
      rewrite Forall_forall in HF. specialize (HF r Hin). congruence.
    + split; [done|by eexists].
    + intros e. split; [done|].
      intros (j & r & Hj & Hr & _).
      rewrite Forall_forall in HF.
      specialize (HF r (list_elem_of_lookup_2 _ _ _ Hj)). congruence.
Qed.

Lemma build_context_raises_iff_witness :
  build_context [sample_text; sample_broken; sample_no_text] 5
  = Raise (TypeError "argument of type 'int' is not iterable").
Proof.
  destruct (build_context_raises_iff [sample_text; sample_broken; sample_no_text] 5)
    as (_ & _ & Hraise); [done|].
  apply Hraise. exists 1%nat, sample_broken.
  split; [reflexivity|]. split; [reflexivity|]. split.
  - intros [|j'] r' Hj' Hlt; [|lia]. by injection Hj' as <-.
  - exists (PInt 7). split; [reflexivity|]. split; [|reflexivity].
    right. by exists 7.
Defined.

(** X2.  When the list is not empty but the slice keeps no result
    ([max_chunks = 0], or a negative [max_chunks] that drops them all), the
    context is the heading line alone, which is not the no-information
    sentence of the empty list. *)
Theorem build_context_header_only (rs : list SearchResult) (m : Z) :
  rs <> [] -> rendered_count (length rs) m = O ->
  build_context rs m = Ok context_header /\
  context_header <> no_info_context /\
  citation_indices rs m = [].
Proof.
  intros Hne Hcount.
  assert (Htop : slice_to rs m = []).
  { apply length_zero_iff_nil. by rewrite length_slice_to. }
  split; [|split].
  - destruct rs as [|r rs]; [done|]. unfold build_context. by rewrite Htop.
  - by vm_compute.
  - unfold citation_indices. by rewrite Htop.
Qed.

Lemma build_context_header_only_witness :
  build_context sample_results 0 = Ok context_header /\
  build_context sample_results (-3) = Ok context_header.
Proof.
  split.
  - by apply (build_context_header_only sample_results 0).
  - by apply (build_context_header_only sample_results (-3)).
Defined.

Lemma build_context_slice (rs rs' : list SearchResult) (m m' : Z) :
  rs <> [] -> rs' <> [] -> slice_to rs m = slice_to rs' m' ->
  build_context rs m = build_context rs' m'.
Proof.
  intros Hne Hne' Htop. destruct rs as [|r rs]; [done|].
  destruct rs' as [|r' rs']; [done|]. unfold build_context. by rewrite Htop.
Qed.

(** X3.  The results after the first [max_chunks] have no influence on
    the context: two non-empty lists that agree on their first
    [max_chunks] results give the same context (or the same exception). *)
Theorem build_context_ignores_tail (rs rs' : list SearchResult) (m : Z) :
  0 <= m -> rs <> [] -> rs' <> [] ->
  take (Z.to_nat m) rs = take (Z.to_nat m) rs' ->
  build_context rs m = build_context rs' m.
Proof.
  intros Hm Hne Hne' Htake. apply build_context_slice; [done..|].
  unfold slice_to. by destruct (Z.leb_spec 0 m); [|lia].
Qed.

Lemma build_context_ignores_tail_witness :
  build_context [sample_table; sample_image; sample_text] 2
  = build_context [sample_table; sample_image; sample_broken; sample_broken] 2.
Proof.
  by apply (build_context_ignores_tail
              [sample_table; sample_image; sample_text]
              [sample_table; sample_image; sample_broken; sample_broken] 2).
Defined.

(** ** The file name of an image *)

Lemma split_char_absent (c : ascii) (s : string) :
  contains_char c s = false -> split_char c s = [s].
Proof.
  induction s as [|a s IH]; simpl; [done|].
  destruct (decide (a = c)); [done|]. intros H. by rewrite (IH H).
Qed.

Lemma split_char_present (c : ascii) (s : string) :
  contains_char c s = true -> exists x y l, split_char c s = x :: y :: l.
Proof.
  induction s as [|a s IH]; simpl; [done|].
  destruct (decide (a = c)).
  - intros _. destruct (split_char c s) as [|y l] eqn:E;
      [by apply split_char_not_nil in E|]. by eexists _, _, _.
  - intros (x & y & l & ->)%IH. by eexists _, _, _.
Qed.

(** The last piece of a split holds no separator; it is the whole string
    when there is no separator, and what follows the last one otherwise. *)
Lemma split_char_last (c : ascii) (s : string) :
  exists w,
    last (split_char c s) = Some w /\
    contains_char c w = false /\
    ((contains_char c s = false /\ w = s) \/
     (contains_char c s = true /\ exists pre, s = pre +:+ String c w)).
Proof.
  induction s as [|a s IH].
  - exists "". split; [done|]. split; [done|]. by left.
  - destruct IH as (w & Hlast & Hw & Hcase). simpl.
    destruct (decide (a = c)) as [->|Hne].
    + exists w. split.
      { destruct (split_char c s) as [|y l] eqn:E;
          [by apply split_char_not_nil in E|]. by rewrite last_cons, Hlast. }
      split; [done|]. right. split; [done|].
      destruct Hcase as [[_ ->]|[_ [pre ->]]].
      * by exists "".
      * by exists (String c pre).
    + destruct (contains_char c s) eqn:Hs.
      * destruct (split_char_present c s Hs) as (x & y & l & E).
        rewrite E in *. exists w. split.
        { by rewrite last_cons_cons, <- Hlast, last_cons_cons. }
        split; [done|]. right. split; [done|].
        destruct Hcase as [[? _]|[_ [pre ->]]]; [done|].
        by exists (String a pre).
      * rewrite (split_char_absent c s Hs) in *.
        injection Hlast as <-. exists (String a s). split; [done|].
        split.
        { simpl. by destruct (decide (a = c)). }
        by left.
Qed.

(** X4.  For a result without a truthy [table_id] whose [image_path] is a
    non-empty string, the extra line is the image line with the file name:
    what follows the last backslash of the path when it has one, else what
    follows its last slash, else the path itself; the name shown never
    holds the separator it was cut at. *)
Theorem image_line_shows_file_name (metadata : gmap string pyval)
    (image_path : string) :
  truthy (default PNone (metadata !! "table_id")) = false ->
  metadata !! "image_path" = Some (PStr image_path) ->
  image_path <> "" ->
  exists name,
    extra_info_of metadata = Ok (nl +:+ "이미지: " +:+ name) /\
    (contains_char backslash image_path = true ->
     contains_char backslash name = false /\
     exists dir, image_path = dir +:+ String backslash name) /\
    (contains_char backslash image_path = false ->
     contains_char slash image_path = true ->
     contains_char slash name = false /\
     exists dir, image_path = dir +:+ String slash name) /\
    (contains_char backslash image_path = false ->
     contains_char slash image_path = false ->
     name = image_path).
Proof.
  intros Ht Hi Hne. unfold extra_info_of. rewrite Ht, Hi. simpl.
  rewrite bool_decide_eq_false_2 by done. simpl.
  destruct (contains_char backslash image_path) eqn:Hb.
  - destruct (split_char_last backslash image_path)
      as (w & Hlast & Hw & Hcase).
    exists w. unfold py_last. rewrite Hlast. simpl.
    split; [done|]. split; [|by split].
    intros _. split; [done|].
    destruct Hcase as [[? _]|[_ Hpre]]; [congruence|done].
  - destruct (split_char_last slash image_path)
      as (w & Hlast & Hw & Hcase).
    exists w. unfold py_last. rewrite Hlast. simpl.
    split; [done|]. split; [done|]. split.
    + intros _ Hs. split; [done|].
      destruct Hcase as [[? _]|[_ Hpre]]; [congruence|done].
    + intros _ Hs. destruct Hcase as [[_ ->]|[? _]]; [done|congruence].
Qed.

Lemma image_line_shows_file_name_witness :
  extra_info_of sample_windows_image = Ok (nl +:+ "이미지: " +:+ "img/fig 2.png").
Proof.
  destruct (image_line_shows_file_name sample_windows_image
              "C:\data\img/fig 2.png")
    as (name & Hline & Hback & _); [reflexivity|reflexivity|done|].
  destruct Hback as [_ [dir Hdir]]; [reflexivity|].
  rewrite Hline. by vm_compute.
Defined.

(** ** The calls of [QASystem] to the service *)

(** X5.  [generate_answer] never raises and sends exactly one request; it
    returns a text exactly when the call returned a response with a first
    choice holding that text and with a usage record, and [None] in every
    other case (the call raised, no choice, no content, no usage). *)
Theorem generate_answer_outcome create model (query context : string)
    (temperature : Q) (max_tokens : Z) (log : CallLog) :
  let req := answer_request model query context temperature max_tokens in
  let run := generate_answer create model query context temperature
               max_tokens log in
  run.2 = log ++ [req] /\
  exists answer,
    run.1 = Ok answer /\
    (forall text,
       answer = Some text <->
       exists rest u,
         create (length log) req
         = Ok {| choices := Some text :: rest; usage := Some u |}).
Proof.
  cbv zeta.
  unfold generate_answer, try_except, chat_create, mbind, stx_bind, lift_res,
    mret, stx_ret.
  destruct (create _ _) as [[cs u]|e] eqn:E; simpl.
  - destruct cs as [|c cs]; simpl.
    { split; [done|]. exists None. split; [done|]. intros text.
      split; [done|]. by intros (? & ? & [=]). }
    destruct u as [u|]; simpl.
    + split; [done|]. exists c. split; [done|]. intros text. split.
      * intros ->. by eexists _, _.
      * by intros (? & ? & [= -> _ _]).
    + split; [done|]. exists None. split; [done|]. intros text.
      split; [done|]. by intros (? & ? & [=]).
  - split; [done|]. exists None. split; [done|]. intros text.
    split; [done|]. by intros (? & ? & [=]).
Qed.

(** X6.  [rewrite_query] never raises and sends exactly one request; it
    returns the stripped content of the first choice when the call returns
    one, and the query as it was given in every other case (the call
    raised, no choice, no content); a usage record is not needed. *)
Theorem rewrite_query_outcome create (query : string) (log : CallLog) :
  let run := rewrite_query create query log in
  run.2 = log ++ [rewrite_request query] /\
  exists rewritten,
    run.1 = Ok rewritten /\
    (forall text rest u,
       create (length log) (rewrite_request query)
       = Ok {| choices := Some text :: rest; usage := u |} ->
       rewritten = strip text) /\
    ((forall text rest u,
        create (length log) (rewrite_request query)
        <> Ok {| choices := Some text :: rest; usage := u |}) ->
     rewritten = query).
Proof.
  cbv zeta.
  unfold rewrite_query, try_except, chat_create, mbind, stx_bind, lift_res,
    mret, stx_ret.
  destruct (create _ _) as [[cs u]|e] eqn:E; simpl.
  - destruct cs as [|[c|] cs]; simpl.
    + split; [done|]. exists query. by repeat split.
    + split; [done|]. exists (strip c). split; [done|]. split.
      * by intros text rest u' [= -> _ _].
      * intros H. by destruct (H c cs u).
    + split; [done|]. exists query. by repeat split.
  - split; [done|]. exists query. by repeat split.
Qed.

Lemma generate_answer_outcome_witness :
  (generate_answer dead_service "gpt-4o" "질문" "컨텍스트" (3 # 10) 2000 []).1
  = Ok None /\
  (generate_answer good_service "gpt-4o" "질문" "컨텍스트" (3 # 10) 2000 []).1
  = Ok (Some "  답변입니다. [1]  ").
Proof.
  split.
  - destruct (generate_answer_outcome dead_service "gpt-4o" "질문" "컨텍스트"
                (3 # 10) 2000 []) as (_ & answer & -> & Hiff).
    destruct answer as [text|]; [|done].
    by destruct (proj1 (Hiff text) eq_refl) as (? & ? & ?).
  - destruct (generate_answer_outcome good_service "gpt-4o" "질문" "컨텍스트"
                (3 # 10) 2000 []) as (_ & answer & -> & Hiff).
    f_equal. apply Hiff. by eexists _, _.
Defined.

Lemma rewrite_query_outcome_witness :
  (rewrite_query good_service "서울 집값 어때?" []).1 = Ok "답변입니다. [1]" /\
  (rewrite_query dead_service "서울 집값 어때?" []).1 = Ok "서울 집값 어때?".
Proof.
  split.
  - destruct (rewrite_query_outcome good_service "서울 집값 어때?" [])
      as (_ & rewritten & -> & Hstrip & _).
    by rewrite (Hstrip "  답변입니다. [1]  " [] _ eq_refl).
  - destruct (rewrite_query_outcome dead_service "서울 집값 어때?" [])
      as (_ & rewritten & -> & _ & Hkeep).
    by rewrite Hkeep.
Defined.

(** ** [answer_question] as a whole *)

Lemma generate_answer_Some create model (query context : string)
    (temperature : Q) (max_tokens : Z) (log log' : CallLog) (text : string) :
  generate_answer create model query context temperature max_tokens log
  = (Ok (Some text), log') ->
  exists rest u,
    create (length log)
      (answer_request model query context temperature max_tokens)
    = Ok {| choices := Some text :: rest; usage := Some u |}.
Proof.
  unfold generate_answer, try_except, chat_create, mbind, stx_bind, lift_res,
    mret, stx_ret.
  destruct (create _ _) as [[cs u]|e]; simpl; [|done].
  destruct cs as [|c cs]; simpl; [done|].
  destruct u as [u|]; simpl; [|done].
  intros [= -> _]. by eexists _, _.
Qed.

(** The run of [answer_question] after its first step. *)
Lemma answer_question_steps create model (query : string)
    (rs : list SearchResult) (rewrite : bool) (log : CallLog) :
  exists query' log1,
    (if rewrite then rewrite_query create query else mret query) log
    = (Ok query', log1) /\
    log1 = log ++ (if rewrite then [rewrite_request query] else []) /\
    (rewrite = false -> query' = query) /\
    answer_question create model query rs rewrite log
    = match build_context rs 5 with
      | Ok context =>
          match generate_answer create model query' context (3 # 10) 2000 log1
          with
          | (Ok (Some text), log2) =>
              (Ok (if bool_decide (text = "") then failure_message else text),
               log2)
          | (Ok None, log2) => (Ok failure_message, log2)
          | (Raise e, log2) => (Raise e, log2)
          end
      | Raise e => (Raise e, log1)
      end.
Proof.
  unfold answer_question. destruct rewrite.
  - destruct (rewrite_query_returns create query log) as [query' Hrw].
    exists query', (log ++ [rewrite_request query]).
    split; [done|]. split; [done|]. split; [done|].
    unfold mbind, stx_bind at 1. rewrite Hrw.
    unfold mbind, stx_bind, lift_res, mret, stx_ret.
    destruct (build_context rs 5) as [ctx|e]; [|done].
    destruct (generate_answer _ _ _ _ _ _ _) as [[[text|]|e] log2]; try done.
    by destruct (bool_decide (text = "")).
  - exists query, log. split; [done|]. split; [by rewrite app_nil_r|].
    split; [done|].
    unfold mbind, stx_bind, lift_res, mret, stx_ret.
    destruct (build_context rs 5) as [ctx|e]; [|done].
    destruct (generate_answer _ _ _ _ _ _ _) as [[[text|]|e] log2]; try done.
    by destruct (bool_decide (text = "")).
Qed.

(** X7.  [answer_question] never returns an empty text: what it returns is
    the failure sentence, or the non-empty text the service gave as the
    first choice of an answer request. *)
Theorem answer_question_never_empty create model (query : string)
    (rs : list SearchResult) (rewrite : bool) (log : CallLog) (text : string) :
  (answer_question create model query rs rewrite log).1 = Ok text ->
  text <> "" /\
  (text = failure_message \/
   exists n query' context rest u,
     create n (answer_request model query' context (3 # 10) 2000)
     = Ok {| choices := Some text :: rest; usage := Some u |}).
Proof.
  destruct (answer_question_steps create model query rs rewrite log)
    as (query' & log1 & _ & _ & _ & ->).
  destruct (build_context rs 5) as [ctx|e]; [|done].
  destruct (generate_answer _ _ _ _ _ _ _) as [[[t|]|e] log2] eqn:Hgen;
    simpl; [| |done].
  - destruct (bool_decide_reflect (t = "")) as [->|Hne].
    + intros [= <-]. split; [done|by left].
    + intros [= <-]. split; [done|]. right.
      destruct (generate_answer_Some _ _ _ _ _ _ _ _ _ Hgen) as (rest & u & H).
      by eexists _, _, _, _, _.
  - intros [= <-]. split; [done|by left].
Qed.

Lemma answer_question_never_empty_witness :
  "2.0% 상승했습니다. [1]" <> "" /\
  (answer_question flaky_service "gpt-4o" "서울 집값 어때?" sample_results
     true []).1 = Ok "2.0% 상승했습니다. [1]".
Proof.
  assert (H : (answer_question flaky_service "gpt-4o" "서울 집값 어때?"
                 sample_results true []).1 = Ok "2.0% 상승했습니다. [1]")
    by by vm_compute.
  split; [|exact H].
  exact (proj1 (answer_question_never_empty flaky_service "gpt-4o"
                  "서울 집값 어때?" sample_results true [] _ H)).
Defined.

(** X8.  The requests [answer_question] sends: the rewrite request first,
    when rewriting is on, then the context is built, then one answer
    request.  When the context cannot be built the exception leaves
    [answer_question] after the rewrite request has been sent and before
    any answer request; otherwise a text is returned. *)
Theorem answer_question_requests create model (query : string)
    (rs : list SearchResult) (rewrite : bool) (log : CallLog) :
  let sent := if rewrite then [rewrite_request query] else [] in
  (forall e, build_context rs 5 = Raise e ->
     answer_question create model query rs rewrite log
     = (Raise e, log ++ sent)) /\
  (forall context, build_context rs 5 = Ok context ->
     exists query' text,
       (rewrite = false -> query' = query) /\
       answer_question create model query rs rewrite log
       = (Ok text,
          log ++ sent ++ [answer_request model query' context (3 # 10) 2000])).
Proof.
  cbv zeta.
  destruct (answer_question_steps create model query rs rewrite log)
    as (query' & log1 & _ & -> & Hq & ->).
  split.
  - by intros e ->.
  - intros context ->.
    destruct (generate_answer_returns create model query' context (3 # 10)
                2000 (log ++ (if rewrite then [rewrite_request query] else [])))
      as [answer ->].
    rewrite <- app_assoc.
    destruct answer as [t|]; by eexists _, _.
Qed.

Lemma answer_question_requests_witness :
  answer_question good_service "gpt-4o" "질문" [sample_broken] true []
  = (Raise (TypeError "argument of type 'int' is not iterable"),
     [rewrite_request "질문"]).
Proof.
  apply (answer_question_requests good_service "gpt-4o" "질문"
           [sample_broken] true []).
  reflexivity.
Defined.

Lemma build_context_first_five (rs : list SearchResult) :
  build_context rs 5 = build_context (take 5 rs) 5.
Proof.
  destruct rs as [|r rs]; [done|].
  apply build_context_slice; [done..|].
  unfold slice_to. simpl. by rewrite take_take.
Qed.

Lemma answer_question_first_five_eq create model (query : string)
    (rs : list SearchResult) (rewrite : bool) (log : CallLog) :
  answer_question create model query rs rewrite log
  = answer_question create model query (take 5 rs) rewrite log.
Proof.
  unfold answer_question. by rewrite (build_context_first_five rs).
Qed.

(** X9.  [answer_question] reads the first five search results only:
    the context of a result list is the context of its first five
    results, and the run with the list and the run with its first five
    results are the same, for the text returned and for the requests
    sent. *)
Theorem answer_question_first_five create model (query : string)
    (rs : list SearchResult) (rewrite : bool) (log : CallLog) :
  build_context rs 5 = build_context (take 5 rs) 5 /\
  answer_question create model query rs rewrite log
  = answer_question create model query (take 5 rs) rewrite log.
Proof.
  split; [apply build_context_first_five|apply answer_question_first_five_eq].
Qed.

(** ** [generate_response] *)

Section ResponseFacts.
Context {World : Type}.
Implicit Types (s : AppState World).

Lemma error_message_not_empty (e : pyexn) : error_message e <> "".
Proof. done. Qed.

(** What [generate_response] does with both collaborators at hand. *)
Lemma generate_response_run (qa : QAObj World) (engine : SearchEngineObj World)
    (ms : list Message) (qs : list string) (w : World)
    (query : string) (temperature : Q) (top_k : Z) (use_conversation : bool) :
  generate_response query temperature top_k use_conversation
    {| session := {| messages := ms; user_questions := qs;
                     qa_system := Some qa; search_engine := Some engine |};
       world := w |}
  = let keep w' :=
      {| session := {| messages := ms; user_questions := qs;
                       qa_system := Some qa; search_engine := Some engine |};
         world := w' |} in
    match se_hybrid_search engine query top_k w with
    | (Raise e, w1) => (Ok (error_message e, []), keep w1)
    | (Ok results, w1) =>
        match qa_build_context qa results top_k w1 with
        | (Raise e, w2) => (Ok (error_message e, []), keep w2)
        | (Ok context, w2) =>
            match qa_generate_answer qa query context temperature
                    use_conversation w2 with
            | (Raise e, w3) => (Ok (error_message e, []), keep w3)
            | (Ok None, w3) => (Ok (failure_message, []), keep w3)
            | (Ok (Some text), w3) =>
                if bool_decide (text = "")
                then (Ok (failure_message, []), keep w3)
                else match reference_loop (slice_to results top_k) [] with
                     | Ok refs => (Ok (text, refs), keep w3)
                     | Raise e => (Ok (error_message e, []), keep w3)
                     end
            end
        end
    end.
Proof.
  unfold generate_response, get_session, try_except.
  repeat (unfold mbind, stx_bind, mret, stx_ret, call, lift_res;
          cbn [session world messages user_questions qa_system search_engine]).
  destruct (se_hybrid_search engine query top_k w) as [[rs|e] w1]; simpl;
    [|done].
  destruct (qa_build_context qa rs top_k w1) as [[ctx|e] w2]; simpl; [|done].
  destruct (qa_generate_answer qa query ctx temperature use_conversation w2)
    as [[[text|]|e] w3]; simpl; [|done..].
  destruct (bool_decide (text = "")); [done|].
  by destruct (reference_loop (slice_to rs top_k) []).
Qed.

Lemma generate_response_not_empty (query : string) (temperature : Q)
    (top_k : Z) (use_conversation : bool) s response refs s' :
  generate_response query temperature top_k use_conversation s
  = (Ok (response, refs), s') -> response <> "".
Proof.
  destruct s as [[ms qs [qa|] se] w0]; [|by intros [= <- _ _]].
  destruct se as [engine|]; [|by intros [= <- _ _]].
  rewrite generate_response_run. cbv zeta.
  destruct (se_hybrid_search engine query top_k w0) as [[rs|e] w1];
    [|by intros [= <- _ _]].
  destruct (qa_build_context qa rs top_k w1) as [[ctx|e] w2];
    [|by intros [= <- _ _]].
  destruct (qa_generate_answer qa query ctx temperature use_conversation w2)
    as [[[text|]|e] w3]; [|by intros [= <- _ _]..].
  destruct (bool_decide_reflect (text = "")) as [->|Hne];
    [by intros [= <- _ _]|].
  destruct (reference_loop (slice_to rs top_k) []); by intros [= <- _ _].
Qed.
End ResponseFacts.

(** X10.  [generate_response] never raises, whatever its collaborators do:
    it returns a response text that is never empty, with a reference list,
    and it leaves the history, the question list and the two collaborator
    objects of the session as they were. *)
Theorem generate_response_contained {World : Type} (s : AppState World)
    (query : string) (temperature : Q) (top_k : Z) (use_conversation : bool) :
  exists response refs w,
    generate_response query temperature top_k use_conversation s
    = (Ok (response, refs),
       with_history s (messages (session s)) (user_questions (session s)) w) /\
    response <> "".
Proof.
  destruct (generate_response_returns query temperature top_k
              use_conversation s) as (response & refs & w & H).
  exists response, refs, w. split; [exact H|].
  by eapply generate_response_not_empty.
Qed.

(** X11.  An exception of a collaborator becomes the error sentence: when
    the search, the context building or the answer generation raises [e],
    [generate_response] returns the sentence built from [e], with no
    reference, and the later collaborators are not called. *)
Theorem generate_response_reports_exception {World : Type}
    (qa : QAObj World) (engine : SearchEngineObj World)
    (ms : list Message) (qs : list string) (w : World)
    (query : string) (temperature : Q) (top_k : Z) (use_conversation : bool)
    (e : pyexn) (w' : World) :
  se_hybrid_search engine query top_k w = (Raise e, w') \/
  (exists results w1,
     se_hybrid_search engine query top_k w = (Ok results, w1) /\
     (qa_build_context qa results top_k w1 = (Raise e, w') \/
      exists context w2,
        qa_build_context qa results top_k w1 = (Ok context, w2) /\
        qa_generate_answer qa query context temperature use_conversation w2
        = (Raise e, w'))) ->
  generate_response query temperature top_k use_conversation
    {| session := {| messages := ms; user_questions := qs;
                     qa_system := Some qa; search_engine := Some engine |};
       world := w |}
  = (Ok (error_message e, []),
     {| session := {| messages := ms; user_questions := qs;
                      qa_system := Some qa; search_engine := Some engine |};
        world := w' |}).
Proof.
  intros H. rewrite generate_response_run. cbv zeta.
  destruct H as [->|(results & w1 & -> & [->|(context & w2 & -> & ->)])];
    done.
Qed.

Lemma generate_response_reports_exception_witness :
  (generate_response "질문" (3 # 10) 5 true
     {| session := {| messages := []; user_questions := [];
                      qa_system := Some light_qa;
                      search_engine :=
                        Some {| se_hybrid_search :=
                                  fun _ _ => mret sample_results |} |};
        world := ([] : CallLog) |}).1
  = Ok (error_message
          (TypeError
             "QASystem.generate_answer() got an unexpected keyword argument 'use_history'"),
        []).
Proof.
  destruct (build_context_returns sample_results 5) as [ctx Hctx];
    [by repeat constructor|].
  rewrite (generate_response_reports_exception light_qa
             {| se_hybrid_search := fun _ _ => mret sample_results |}
             [] [] [] "질문" (3 # 10) 5 true
             (TypeError
                "QASystem.generate_answer() got an unexpected keyword argument 'use_history'")
             []); [done|].
  right. exists sample_results, []. split; [done|]. right.
  exists ctx, []. split; [|done].
  unfold light_qa, qa_build_context, lift_res. by rewrite Hctx.
Defined.

(** The reference loop stops at the first result whose content cannot be
    sliced. *)
Lemma reference_loop_raises (rs : list SearchResult) (acc : list Reference)
    (j : nat) (r : SearchResult) :
  rs !! j = Some r -> content_is_str r = false ->
  (forall j' r', rs !! j' = Some r' -> (j' < j)%nat -> content_is_str r' = true) ->
  reference_loop rs acc = Raise (content_error r).
Proof.
  revert acc j. induction rs as [|x rs IH]; intros acc j Hj Hr Hbefore;
    [done|].
  destruct j as [|j].
  - injection Hj as ->. simpl.
    unfold make_reference, content_is_str, content_error in *.
    by destruct (default (PStr "") (sr_content r)).
  - assert (Hx : content_is_str x = true) by (apply (Hbefore O); [done|lia]).
    simpl. unfold make_reference at 1. unfold content_is_str in Hx.
    destruct (default (PStr "") (sr_content x)); try done. simpl.
    apply (IH _ j); [done..|].
    intros j' r' Hj' Hlt. apply (Hbefore (S j')); [done|lia].
Qed.

(** X12.  Over results whose content is [None], a boolean, an integer or a
    string: an answer can be lost after it was generated.  When the service
    gave a non-empty answer but the content of a kept result is [None], a
    boolean or an integer, the slice [content[:300]] of the first such
    result raises, the response is the error sentence with the message of
    that [TypeError], which names the type of the content, and the answer
    text is dropped. *)
Theorem generate_response_drops_answer {World : Type}
    (qa : QAObj World) (engine : SearchEngineObj World)
    (ms : list Message) (qs : list string) (w w1 w2 w3 : World)
    (query : string) (temperature : Q) (top_k : Z) (use_conversation : bool)
    (results : list SearchResult) (context text : string)
    (j : nat) (r : SearchResult) :
  se_hybrid_search engine query top_k w = (Ok results, w1) ->
  qa_build_context qa results top_k w1 = (Ok context, w2) ->
  qa_generate_answer qa query context temperature use_conversation w2
  = (Ok (Some text), w3) ->
  text <> "" ->
  slice_to results top_k !! j = Some r ->
  content_is_str r = false ->
  (forall j' r', slice_to results top_k !! j' = Some r' -> (j' < j)%nat ->
                 content_is_str r' = true) ->
  generate_response query temperature top_k use_conversation
    {| session := {| messages := ms; user_questions := qs;
                     qa_system := Some qa; search_engine := Some engine |};
       world := w |}
  = (Ok ("오류가 발생했습니다: '" +:+
         py_type_name (default (PStr "") (sr_content r)) +:+
         "' object is not subscriptable", []),
     {| session := {| messages := ms; user_questions := qs;
                      qa_system := Some qa; search_engine := Some engine |};
        world := w3 |}).
Proof.
  intros Hs Hc Hg Hne Hj Hr Hbefore. rewrite generate_response_run. cbv zeta.
  rewrite Hs, Hc, Hg, bool_decide_eq_false_2 by done.
  by rewrite (reference_loop_raises _ [] j r Hj Hr Hbefore).
Qed.

Lemma generate_response_drops_answer_witness :
  generate_response "질문" (3 # 10) 5 true
    {| session := {| messages := []; user_questions := [];
                     qa_system := Some answering_qa;
                     search_engine :=
                       Some {| se_hybrid_search :=
                                 fun _ _ => mret [sample_text; sample_no_text] |} |};
       world := tt |}
  = (Ok ("오류가 발생했습니다: 'NoneType' object is not subscriptable", []),
     {| session := {| messages := []; user_questions := [];
                      qa_system := Some answering_qa;
                      search_engine :=
                        Some {| se_hybrid_search :=
                                  fun _ _ => mret [sample_text; sample_no_text] |} |};
        world := tt |}).
Proof.
  destruct (build_context_returns [sample_text; sample_no_text] 5)
    as [ctx Hctx]; [by repeat constructor|].
  apply (generate_response_drops_answer answering_qa
           {| se_hybrid_search := fun _ _ => mret [sample_text; sample_no_text] |}
           [] [] tt tt tt tt "질문" (3 # 10) 5 true
           [sample_text; sample_no_text] ctx "2.0% 상승 [1]" 1 sample_no_text);
    [done| |done|done|done|done|].
  - unfold answering_qa, qa_build_context, lift_res. by rewrite Hctx.
  - intros [|j'] r' Hj' Hlt; [|lia]. by injection Hj' as <-.
Defined.

(** ** Code points *)

Lemma utf8_take_prefix (n : nat) (s : string) :
  exists rest, s = utf8_take n s +:+ rest.
Proof.
  revert n. induction s as [|a s IH]; intros n; simpl; [by exists ""|].
  destruct (is_continuation a).
  - destruct (IH n) as [rest Hrest]. exists rest.
    by rewrite str_app_cons, <- Hrest.
  - destruct n as [|n]; [by eexists|].
    destruct (IH n) as [rest Hrest]. exists rest.
    by rewrite str_app_cons, <- Hrest.
Qed.

Lemma utf8_length_take (n : nat) (s : string) :
  utf8_length (utf8_take n s) = Nat.min n (utf8_length s).
Proof.
  revert n. induction s as [|a s IH]; intros n; simpl; [lia|].
  destruct (is_continuation a) eqn:E; simpl; rewrite ?E; [apply IH|].
  destruct n as [|n]; [done|]. simpl. rewrite E, IH. lia.
Qed.

Lemma utf8_take_all (n : nat) (s : string) :
  (utf8_length s <= n)%nat -> utf8_take n s = s.
Proof.
  revert n. induction s as [|a s IH]; intros n; simpl; [done|].
  destruct (is_continuation a); intros H.
  - by rewrite IH.
  - destruct n as [|n]; [lia|]. rewrite IH; [done|lia].
Qed.

Lemma utf8_length_app (a b : string) :
  utf8_length (a +:+ b) = (utf8_length a + utf8_length b)%nat.
Proof.
  induction a as [|x a IH]; [done|]. rewrite str_app_cons. simpl.
  destruct (is_continuation x); lia.
Qed.

(** ** The reference list *)

Lemma reference_loop_spec (rs : list SearchResult) (acc refs : list Reference) :
  reference_loop rs acc = Ok refs <->
  exists new,
    Forall2 (fun r ref => make_reference r = Ok ref) rs new /\
    refs = acc ++ new.
Proof.
  revert acc. induction rs as [|r rs IH]; intros acc; simpl.
  - split.
    + intros [= <-]. exists []. by rewrite app_nil_r.
    + intros (new & ->%Forall2_nil_inv_l & ->). by rewrite app_nil_r.
  - split.
    + intros (ref & Href & Hrest)%bind_Ok_inv.
      apply IH in Hrest as (new & HF & ->).
      exists (ref :: new). split; [by constructor|]. by rewrite <- app_assoc.
    + intros (new & HF & ->).
      apply Forall2_cons_inv_l in HF as (ref & new' & Href & HF & ->).
      rewrite Href. simpl. apply IH. exists new'.
      split; [done|]. by rewrite <- app_assoc.
Qed.

Lemma make_reference_text (r : SearchResult) (ref : Reference) :
  make_reference r = Ok ref ->
  content_is_str r = true /\
  ref_text ref = utf8_take 300 (content_text r) /\
  ref_page ref
  = default (PStr "N/A") (default ∅ (sr_metadata r) !! "page").
Proof.
  unfold make_reference, content_is_str, content_text.
  destruct (default (PStr "") (sr_content r)) as [|b|z|c]; simpl; try done.
  by intros [= <-].
Qed.

(** X13.  Over results whose content and metadata values are [None],
    booleans, integers or strings: the reference list of a response has
    one entry per kept search result, in their order; the text of an entry
    is the beginning of the content of its result, cut after 300 code
    points, and the whole content when that has no more than 300; its page
    is the page of the result, or ["N/A"].  Over these results the list is
    built exactly when the content of every kept result is a string (or
    missing); [None], a boolean or an integer as content stops the loop. *)
Theorem reference_list_shape (rs : list SearchResult) :
  ((exists refs, reference_loop rs [] = Ok refs) <->
   Forall (fun r => content_is_str r = true) rs) /\
  (forall refs, reference_loop rs [] = Ok refs ->
     length refs = length rs /\
     forall (j : nat) r ref, rs !! j = Some r -> refs !! j = Some ref ->
       (exists rest, content_text r = ref_text ref +:+ rest) /\
       (utf8_length (ref_text ref) <= 300)%nat /\
       ((utf8_length (content_text r) <= 300)%nat ->
        ref_text ref = content_text r) /\
       ref_page ref
       = default (PStr "N/A") (default ∅ (sr_metadata r) !! "page")).
Proof.
  split.
  - split.
    + intros (refs & (new & HF & _)%reference_loop_spec).
      apply Forall_forall. intros r Hin.
      apply list_elem_of_lookup in Hin as [j Hj].
      destruct (Forall2_lookup_l _ _ _ _ _ HF Hj) as (ref & _ & Href).
      by apply make_reference_text in Href as (? & _).
    + intros HF. induction rs as [|r rs IH] using rev_ind.
      * by exists [].
      * apply Forall_app in HF as [HF Hr]. apply Forall_cons in Hr as [Hr _].
        destruct (IH HF) as (refs & (new & HF2 & ->)%reference_loop_spec).
        assert (exists ref, make_reference r = Ok ref) as [ref Href].
        { unfold make_reference, content_is_str in *.
          destruct (default (PStr "") (sr_content r)); simpl in *; try done.
          by eexists. }
        exists (new ++ [ref]). apply reference_loop_spec.
        exists (new ++ [ref]). split; [|done].
        apply Forall2_app; [done|]. by constructor.
  - intros refs (new & HF & ->)%reference_loop_spec. simpl.
    split; [symmetry; by eapply Forall2_length|].
    intros j r ref Hj Href.
    pose proof (Forall2_lookup_lr _ _ _ _ _ _ HF Hj Href) as Hmake.
    apply make_reference_text in Hmake as (_ & Htext & Hpage).
    rewrite Htext. split; [apply utf8_take_prefix|].
    split; [rewrite utf8_length_take; lia|].
    split; [apply utf8_take_all|done].
Qed.

Lemma reference_list_shape_witness :
  exists refs, reference_loop sample_results [] = Ok refs /\
               length refs = 3%nat.
Proof.
  destruct (reference_list_shape sample_results) as [Hiff Hshape].
  destruct (proj2 Hiff) as [refs Hrefs]; [by repeat constructor|].
  exists refs. split; [exact Hrefs|].
  by destruct (Hshape refs Hrefs) as [-> _].
Defined.

(** ** Turns, questions and the sidebar *)

Section InputFacts.
Context {World : Type}.
Implicit Types (s : AppState World).

Lemma with_history_same s :
  with_history s (messages (session s)) (user_questions (session s)) (world s)
  = s.
Proof. by destruct s as [[] ?]. Qed.

Lemma on_user_input_blank (temperature : Q) (top_k : Z)
    (use_conversation : bool) s :
  on_user_input None temperature top_k use_conversation s = (Ok tt, s) /\
  on_user_input (Some "") temperature top_k use_conversation s = (Ok tt, s).
Proof. done. Qed.

Lemma run_inputs_any_run (inputs : list string) (temperature : Q) (top_k : Z)
    (use_conversation : bool) s :
  exists turns w,
    run_inputs inputs temperature top_k use_conversation s
    = (Ok tt,
       with_history s (messages (session s) ++ turns)
         (user_questions (session s)
          ++ filter (fun text => text <> "") inputs) w) /\
    length turns
    = (2 * length (filter (fun text => text <> "") inputs))%nat.
Proof.
  revert s. induction inputs as [|text inputs IH]; intros s.
  - exists [], (world s). split; [|done]. simpl.
    by rewrite !app_nil_r, with_history_same.
  - cbn [run_inputs]. unfold mbind, stx_bind.
    destruct (decide (text = "")) as [->|Hne].
    + rewrite (proj2 (on_user_input_blank temperature top_k use_conversation s)).
      destruct (IH s) as (turns & w & -> & Hlen).
      exists turns, w. split; [|done]. by rewrite filter_cons_False by naive_solver.
    + destruct (on_user_input_appends text temperature top_k use_conversation
                  s Hne) as (response & refs & w & _ & ->).
      destruct (IH (with_history s
                      (messages (session s)
                       ++ [user_turn text; assistant_turn response refs])
                      (user_questions (session s) ++ [text]) w))
        as (turns & w' & -> & Hlen).
      exists ([user_turn text; assistant_turn response refs] ++ turns), w'.
      rewrite filter_cons_True by done. split.
      * rewrite with_history_twice, with_history_messages,
          with_history_questions.
        by rewrite <- !app_assoc.
      * rewrite length_app. simpl in *. lia.
Qed.
End InputFacts.

(** X14.  Over any sequence of script runs, blank entries included: the
    run never fails, the question list grows by exactly the non-empty
    texts, in order, and the history by two turns for each of them; an
    empty text changes nothing. *)
Theorem run_inputs_counts {World : Type} (s : AppState World)
    (inputs : list string) (temperature : Q) (top_k : Z)
    (use_conversation : bool) :
  let run := run_inputs inputs temperature top_k use_conversation s in
  let entered := filter (fun text => text <> "") inputs in
  run.1 = Ok tt /\
  user_questions (session run.2) = user_questions (session s) ++ entered /\
  length (messages (session run.2))
  = (length (messages (session s)) + 2 * length entered)%nat /\
  messages (session s) `prefix_of` messages (session run.2).
Proof.
  cbv zeta.
  destruct (run_inputs_any_run inputs temperature top_k use_conversation s)
    as (turns & w & -> & Hlen).
  cbn [fst snd]. split; [done|]. split; [done|]. split.
  - rewrite with_history_messages, length_app. lia.
  - by exists turns.
Qed.

Lemma recent_questions_alt (qs : list string) :
  recent_questions qs = take 4 (reverse qs).
Proof.
  unfold recent_questions, slice_from. cbn [Z.leb Z.compare].
  replace (Z.to_nat (Z.of_nat (length qs) + -4)) with (length qs - 4)%nat
    by lia.
  rewrite reverse_drop.
  destruct (decide (length qs <= 4)%nat).
  - rewrite !take_ge; [done|rewrite length_reverse; lia..].
  - f_equal. lia.
Qed.

(** X15.  The sidebar shows at most four questions, the newest first: a
    text just entered is the first of them, followed by the three that
    were first before. *)
Theorem recent_questions_newest_first {World : Type} (s : AppState World)
    (text : string) (temperature : Q) (top_k : Z) (use_conversation : bool) :
  text <> "" ->
  let s' := (on_user_input (Some text) temperature top_k use_conversation s).2 in
  recent_questions (user_questions (session s'))
  = text :: take 3 (recent_questions (user_questions (session s))) /\
  (length (recent_questions (user_questions (session s'))) <= 4)%nat.
Proof.
  intros Hne. cbv zeta.
  destruct (on_user_input_appends text temperature top_k use_conversation
              s Hne) as (response & refs & w & _ & ->).
  cbn [snd]. rewrite with_history_questions, !recent_questions_alt.
  split.
  - rewrite reverse_app. simpl. f_equal. rewrite take_take. f_equal.
  - rewrite length_take. lia.
Qed.

Lemma recent_questions_newest_first_witness :
  recent_questions
    (user_questions
       (session (on_user_input (Some "질문 5") (3 # 10) 5 true
                   {| session := {| messages := [];
                                    user_questions :=
                                      ["질문 1"; "질문 2"; "질문 3"; "질문 4"];
                                    qa_system := Some failing_qa;
                                    search_engine := Some sample_engine |};
                      world := tt |}).2))
  = ["질문 5"; "질문 4"; "질문 3"; "질문 2"].
Proof.
  etrans;
    [apply (recent_questions_newest_first
              {| session := {| messages := [];
                               user_questions :=
                                 ["질문 1"; "질문 2"; "질문 3"; "질문 4"];
                               qa_system := Some failing_qa;
                               search_engine := Some sample_engine |};
                 world := tt |} "질문 5" (3 # 10) 5 true); done|].
  reflexivity.
Defined.

(** X16.  The label of a recent-question button is never longer than 30
    code points: a question of up to 30 is shown whole, a longer one as
    its first 27 code points followed by three dots. *)
Theorem display_question_bounded (question : string) :
  (utf8_length (display_question question) <= 30)%nat /\
  ((utf8_length question <= 30)%nat -> display_question question = question) /\
  ((30 < utf8_length question)%nat ->
   utf8_length (display_question question) = 30%nat /\
   exists head rest,
     display_question question = head +:+ "..." /\
     question = head +:+ rest /\
     utf8_length head = 27%nat).
Proof.
  unfold display_question.
  destruct (Nat.leb_spec (utf8_length question) 30) as [Hle|Hgt].
  - split; [done|]. split; [done|lia].
  - assert (Hlen : utf8_length (utf8_take 27 question +:+ "...") = 30%nat).
    { rewrite utf8_length_app, utf8_length_take.
      change (utf8_length "...") with 3%nat. lia. }
    split; [lia|]. split; [lia|]. intros _. split; [done|].
    destruct (utf8_take_prefix 27 question) as [rest Hrest].
    exists (utf8_take 27 question), rest. split; [done|]. split; [done|].
    rewrite utf8_length_take. lia.
Qed.

Lemma display_question_bounded_witness :
  display_question "2024년 1분기 서울 지역별 주택 가격 변동률은 얼마나 되나요?"
  = "2024년 1분기 서울 지역별 주택 가격 변동률은..." /\
  utf8_length
    (display_question "2024년 1분기 서울 지역별 주택 가격 변동률은 얼마나 되나요?")
  = 30%nat.
Proof.
  destruct (display_question_bounded
              "2024년 1분기 서울 지역별 주택 가격 변동률은 얼마나 되나요?")
    as (_ & _ & Hlong).
  destruct Hlong as [Hlen _]; [vm_compute; lia|].
  split; [by vm_compute|exact Hlen].
Defined.

(** ** The reset button and the reference panel *)

(** X17.  The reset button empties the history and nothing else: the
    question list and the collaborator objects stay; the run then ends as
    [clear_history] of the QA object ends, so that an exception of
    [clear_history] leaves the script with the history already emptied;
    without a QA object nothing is called. *)
Theorem on_reset_outcome {World : Type} (s : AppState World) :
  (qa_system (session s) = None ->
   on_reset s
   = (Ok tt, with_history s [] (user_questions (session s)) (world s))) /\
  (forall qa, qa_system (session s) = Some qa ->
   on_reset s
   = ((qa_clear_history qa (world s)).1,
      with_history s [] (user_questions (session s))
        (qa_clear_history qa (world s)).2)).
Proof.
  destruct s as [[ms qs qa se] w0].
  unfold on_reset, reset_messages, get_session, put_session, with_history.
  repeat (unfold mbind, stx_bind, mret, stx_ret, call;
          cbn [session world messages user_questions qa_system search_engine]).
  split.
  - by intros ->.
  - intros qa' ->. simpl. by destruct (qa_clear_history qa' w0).
Qed.

Lemma on_reset_outcome_witness :
  on_reset light_app
  = (Raise (AttributeError "'QASystem' object has no attribute 'clear_history'"),
     with_history light_app [] ["이전 질문"] []).
Proof.
  exact (proj2 (on_reset_outcome light_app) light_qa eq_refl).
Defined.

Lemma reference_panel_last (ms : list Message) (text : string)
    (refs : list Reference) :
  reference_panel (ms ++ [assistant_turn text refs])
  = match refs with
    | [] => PanelCaption no_results_caption
    | _ =>
        PanelLines
          ((fun ir : Z * Reference => reference_line ir.1 ir.2)
             <$> enumerate refs 1)
    end.
Proof.
  unfold reference_panel.
  destruct (ms ++ [assistant_turn text refs]) as [|m0 ms'] eqn:E;
    [by destruct ms|].
  rewrite <- E, filter_app.
  rewrite (filter_cons_True _ (assistant_turn text refs)) by done.
  rewrite filter_nil, last_snoc. done.
Qed.

(** X18.  The reference panel shows the references of the latest
    assistant turn only.  After a text was entered, the history is the
    earlier history, the user turn, and an assistant turn with what
    [generate_response] returned for that text in the history that already
    holds the user turn; the panel lists, numbered from 1, the references
    of that response, and it shows the caption when the response came
    without references, whatever earlier turns held. *)
Theorem reference_panel_follows_response {World : Type} (s : AppState World)
    (text : string) (temperature : Q) (top_k : Z) (use_conversation : bool)
    (response : string) (refs : list Reference) (s2 : AppState World) :
  text <> "" ->
  generate_response text temperature top_k use_conversation
    (with_history s (messages (session s) ++ [user_turn text])
       (user_questions (session s) ++ [text]) (world s))
  = (Ok (response, refs), s2) ->
  let after :=
    (on_user_input (Some text) temperature top_k use_conversation s).2 in
  messages (session after)
  = messages (session s) ++ [user_turn text; assistant_turn response refs] /\
  reference_panel (messages (session after))
  = match refs with
    | [] => PanelCaption no_results_caption
    | _ =>
        PanelLines
          ((fun ir : Z * Reference => reference_line ir.1 ir.2)
             <$> enumerate refs 1)
    end /\
  (forall lines,
     reference_panel (messages (session after)) = PanelLines lines ->
     length lines = length refs /\
     forall (j : nat) ref, refs !! j = Some ref ->
       lines !! j = Some (reference_line (Z.of_nat j + 1) ref)).
Proof.
  intros Hne Hgen0. cbv zeta.
  destruct (on_user_input_appends text temperature top_k use_conversation
              s Hne) as (response' & refs' & w & Hgen & ->).
  rewrite Hgen in Hgen0. injection Hgen0 as -> -> _.
  cbn [snd]. rewrite with_history_messages. split; [done|].
  replace (messages (session s)
           ++ [user_turn text; assistant_turn response refs])
    with ((messages (session s) ++ [user_turn text])
          ++ [assistant_turn response refs]) by by rewrite <- app_assoc.
  rewrite reference_panel_last. split; [done|].
  assert (Hlen : length ((fun ir : Z * Reference => reference_line ir.1 ir.2)
                           <$> enumerate refs 1) = length refs).
  { rewrite length_fmap, <- (length_fmap fst), enumerate_fst, length_seqZ.
    lia. }
  assert (Hlook : forall (j : nat) ref, refs !! j = Some ref ->
            ((fun ir : Z * Reference => reference_line ir.1 ir.2)
               <$> enumerate refs 1) !! j
            = Some (reference_line (Z.of_nat j + 1) ref)).
  { intros j ref Hj. rewrite list_lookup_fmap.
    rewrite (enumerate_lookup _ 1 j ref Hj). simpl. do 2 f_equal. lia. }
  intros lines. destruct refs as [|ref0 refs]; [done|].
  by intros [= <-].
Qed.

Lemma reference_panel_follows_response_witness :
  reference_panel
    (messages (session
       (on_user_input (Some "서울 집값?") (3 # 10) 2 true answering_app).2))
  = PanelLines ["**[1]** KB금융 - 표 (12페이지)";
                "**[2]** HD 현대 - 그래프 (3페이지)"].
Proof.
  destruct (generate_response "서울 집값?" (3 # 10) 2 true
              (with_history answering_app
                 (messages (session answering_app) ++ [user_turn "서울 집값?"])
                 (user_questions (session answering_app) ++ ["서울 집값?"])
                 (world answering_app)))
    as [[[response refs]|e] s2] eqn:Hgen; [|by vm_compute in Hgen].
  destruct (reference_panel_follows_response answering_app "서울 집값?"
              (3 # 10) 2 true response refs s2) as (_ & -> & _);
    [done|exact Hgen|].
  vm_compute in Hgen. injection Hgen as <- <- _. by vm_compute.
Defined.

(** ** The script with the [QASystem] at hand *)

(** X19.  With [QASystem] of src/s7_qa_system_light.py as the QA object,
    which the script imports, no question is ever answered: whatever the
    search engine returns, the assistant turn added for an entered text
    holds an error sentence and no reference, since [generate_answer] has
    no [use_history] parameter. *)
Theorem light_qa_never_answers (engine : SearchEngineObj CallLog)
    (ms : list Message) (qs : list string) (log : CallLog)
    (text : string) (temperature : Q) (top_k : Z) (use_conversation : bool) :
  text <> "" ->
  exists e log',
    on_user_input (Some text) temperature top_k use_conversation
      {| session := {| messages := ms; user_questions := qs;
                       qa_system := Some light_qa;
                       search_engine := Some engine |};
         world := log |}
    = (Ok tt,
       {| session := {| messages :=
                          ms ++ [user_turn text;
                                 assistant_turn (error_message e) []];
                        user_questions := qs ++ [text];
                        qa_system := Some light_qa;
                        search_engine := Some engine |};
          world := log' |}).
Proof.
  intros Hne.
  assert (Hgen : forall ms' qs',
    exists e log',
      generate_response text temperature top_k use_conversation
        {| session := {| messages := ms'; user_questions := qs';
                         qa_system := Some light_qa;
                         search_engine := Some engine |};
           world := log |}
      = (Ok (error_message e, []),
         {| session := {| messages := ms'; user_questions := qs';
                          qa_system := Some light_qa;
                          search_engine := Some engine |};
            world := log' |})).
  { intros ms' qs'. rewrite generate_response_run. cbv zeta.
    destruct (se_hybrid_search engine text top_k log) as [[rs|e] log1];
      [|by eexists _, _].
    assert (Hb : qa_build_context light_qa rs top_k log1
                 = (build_context rs top_k, log1)) by reflexivity.
    rewrite Hb.
    destruct (build_context rs top_k) as [ctx|e]; [|by eexists _, _].
    assert (Ha : qa_generate_answer light_qa text ctx temperature
                   use_conversation log1
                 = (Raise (TypeError
                      "QASystem.generate_answer() got an unexpected keyword argument 'use_history'"),
                    log1)) by reflexivity.
    rewrite Ha. by eexists _, _. }
  destruct (Hgen (ms ++ [user_turn text]) (qs ++ [text])) as (e & log' & Hg).
  exists e, log'.
  unfold on_user_input. rewrite bool_decide_eq_false_2 by done.
  unfold append_question, append_message, get_session, put_session.
  repeat (unfold mbind, stx_bind;
          cbn [session world messages user_questions qa_system search_engine]).
  unfold user_turn, assistant_turn in *. rewrite Hg.
  repeat (unfold mbind, stx_bind;
          cbn [session world messages user_questions qa_system search_engine]).
  by rewrite <- app_assoc.
Qed.

Lemma light_qa_never_answers_witness :
  exists e,
    messages (session (on_user_input (Some "서울 집값?") (3 # 10) 5 true
                         light_app).2)
    = [user_turn "이전 질문"; user_turn "서울 집값?";
       assistant_turn (error_message e) []].
Proof.
  destruct (light_qa_never_answers
              {| se_hybrid_search := fun _ _ => mret sample_results |}
              [user_turn "이전 질문"] ["이전 질문"] [] "서울 집값?" (3 # 10) 5 true)
    as (e & log' & H); [done|].
  exists e. unfold light_app. by rewrite H.
Defined.

(** ** The chunking driver as a whole *)

Lemma text_block_loop_alt (texts : list (gmap string pyval))
    (acc : list TextBlock) :
  text_block_loop texts acc
  = acc ++ ((fun page : gmap string pyval =>
               {| tb_text := default (PStr "") (page !! "text");
                  tb_page_num := default (PInt 0) (page !! "page_num") |})
              <$> texts).
Proof.
  revert acc. induction texts as [|page texts IH]; intros acc; simpl.
  - by rewrite app_nil_r.
  - by rewrite IH, <- app_assoc.
Qed.

(** X20.  The driver hands exactly one text block per page to
    [chunk_pages], in page order; a page without ["text"] gives the empty
    text and a page without ["page_num"] the page number 0. *)
Theorem text_blocks_per_page (texts : list (gmap string pyval)) :
  length (text_block_loop texts []) = length texts /\
  (forall (j : nat) page, texts !! j = Some page ->
     exists block,
       text_block_loop texts [] !! j = Some block /\
       (forall v, page !! "text" = Some v -> tb_text block = v) /\
       (page !! "text" = None -> tb_text block = PStr "") /\
       (forall v, page !! "page_num" = Some v -> tb_page_num block = v) /\
       (page !! "page_num" = None -> tb_page_num block = PInt 0)).
Proof.
  rewrite text_block_loop_alt. simpl. split; [by rewrite length_fmap|].
  intros j page Hj. eexists. rewrite list_lookup_fmap, Hj. simpl.
  split; [done|]. by repeat split; intros; simplify_option_eq.
Qed.

(** X21.  [chunk_single_institution] returns [None] exactly when the
    processed report of the institution is missing.  It returns chunks
    exactly when the report was loaded, its institution code is a string,
    the three kinds of chunks were made, the overlap was applied to text
    chunks, table chunks and image chunks in this order, and the result
    was saved under the path of
    [project_root / "data" / "processed" / institution /
     f"{institution}_chunks.json"]: what is returned is what was saved.
    When loading the report raises, so does the function; and a report
    whose ["institution"] is [None], a boolean or an integer makes
    [institution_code.upper()] raise an [AttributeError] that names the
    type, before any chunk is made. *)
Theorem chunk_single_institution_outcome {Chunk TableRecord ImageRecord : Type}
    (new_chunker : Z -> Z -> string ->
                   ChunkingStrategy Chunk TableRecord ImageRecord)
    (read_report :
       string -> option (pyres (ProcessedReport TableRecord ImageRecord)))
    (path_str : list string -> string)
    (institution : string) :
  let chunker := new_chunker 800 100 "gpt-4" in
  let run :=
    chunk_single_institution new_chunker read_report path_str institution in
  (run = Ok None <-> read_report institution = None) /\
  (forall final,
     run = Ok (Some final) <->
     exists data text_chunks table_chunks image_chunks,
       read_report institution = Some (Ok data) /\
       (exists code,
          default (PStr institution) (rp_institution data) = PStr code) /\
       collect_chunks chunker institution data
       = Ok (text_chunks, table_chunks, image_chunks,
             text_chunks ++ table_chunks ++ image_chunks) /\
       apply_overlap chunker (text_chunks ++ table_chunks ++ image_chunks)
       = Ok final /\
       save_chunks chunker final
         (path_str ["data"; "processed"; institution;
                    institution +:+ "_chunks.json"]) = Ok tt) /\
  (forall e, read_report institution = Some (Raise e) -> run = Raise e) /\
  (forall data v,
     read_report institution = Some (Ok data) ->
     rp_institution data = Some v ->
     (forall code, v <> PStr code) ->
     run = Raise (AttributeError
                    ("'" +:+ py_type_name v +:+
                     "' object has no attribute 'upper'"))).
Proof.
  cbv zeta. split; [|split; [|split]].
  - unfold chunk_single_institution.
    destruct (read_report institution) as [[data|e]|]; [| |done].
    + split; [|done]. simpl.
      destruct (collect_chunks _ _ _) as [[[[tc tbc] ic] al]|e]; simpl;
        [|done].
      destruct (apply_overlap _ _) as [final|e]; simpl; [|done].
      by destruct (save_chunks _ _ _).
    + by split.
  - intros final. rewrite chunk_single_institution_Some. split.
    + intros (data & tc & tbc & ic & Hread & Hc & Ho & Hs).
      exists data, tc, tbc, ic. split; [done|]. split; [|done].
      by apply collect_chunks_spec in Hc as (Hcode & _).
    + intros (data & tc & tbc & ic & Hread & _ & Hc & Ho & Hs).
      by exists data, tc, tbc, ic.
  - intros e Hread. unfold chunk_single_institution. by rewrite Hread.
  - intros data v Hread Hv Hnot. unfold chunk_single_institution.
    rewrite Hread. simpl. unfold collect_chunks. rewrite Hv. simpl.
    destruct v as [| | |code]; try done. by destruct (Hnot code).
Qed.

Lemma text_blocks_per_page_witness :
  text_block_loop [ {[ "text" := PStr "page one"; "page_num" := PInt 1 ]};
                    {[ "page_num" := PInt 2 ]};
                    ∅ ] []
  = [ {| tb_text := PStr "page one"; tb_page_num := PInt 1 |};
      {| tb_text := PStr ""; tb_page_num := PInt 2 |};
      {| tb_text := PStr ""; tb_page_num := PInt 0 |} ].
Proof.
  destruct (text_blocks_per_page
              [ {[ "text" := PStr "page one"; "page_num" := PInt 1 ]};
                {[ "page_num" := PInt 2 ]}; ∅ ]) as [_ H].
  destruct (H 2%nat ∅ eq_refl) as (block & Hb & _ & Ht & _ & Hp).
  by vm_compute.
Defined.

Lemma chunk_single_institution_outcome_witness :
  chunk_single_institution (fun _ _ _ => sample_chunker) sample_reports
    sample_path_str "hd"
  = Ok None /\
  chunk_single_institution (fun _ _ _ => sample_chunker) sample_reports
    sample_path_str "kb"
  = Ok (Some ["page one"; "table: t1"; "table: a very long table";
              "image: fig1"]) /\
  chunk_single_institution (fun _ _ _ => sample_chunker) sample_reports
    sample_path_str "xx"
  = Raise (AttributeError "'int' object has no attribute 'upper'").
Proof.
  destruct (chunk_single_institution_outcome (fun _ _ _ => sample_chunker)
              sample_reports sample_path_str "hd") as (Hnone & _).
  destruct (chunk_single_institution_outcome (fun _ _ _ => sample_chunker)
              sample_reports sample_path_str "kb") as (_ & Hsome & _).
  destruct (chunk_single_institution_outcome (fun _ _ _ => sample_chunker)
              sample_reports sample_path_str "xx") as (_ & _ & _ & Hupper).
  split; [by apply Hnone|]. split.
  - apply Hsome.
    exists sample_report, ["page one"],
      ["table: t1"; "table: a very long table"], ["image: fig1"].
    split; [reflexivity|]. split; [by exists "kb"|]. by repeat split.
  - by apply (Hupper {| rp_institution := Some (PInt 5); rp_texts := None;
                        rp_tables := Some ["t"]; rp_images := None |} (PInt 5)).
Defined.

(** ** [main] of the chunking driver *)

Section MainFacts.
Context {Chunk TableRecord ImageRecord : Type}.
Variable new_chunker :
  Z -> Z -> string -> ChunkingStrategy Chunk TableRecord ImageRecord.
Variable read_report :
  string -> option (pyres (ProcessedReport TableRecord ImageRecord)).
Variable path_str : list string -> string.

Lemma main_step_lookup (results : gmap string nat) (turn institution : string)
    (n : nat) :
  main_step new_chunker read_report path_str results turn !! institution
  = Some n <->
  (institution = turn /\ listed new_chunker read_report path_str turn n) \/
  ((institution <> turn \/
    forall k, ~ listed new_chunker read_report path_str turn k) /\
   results !! institution = Some n).
Proof.
  unfold main_step, listed.
  destruct (chunk_single_institution new_chunker read_report path_str turn)
    as [[[|c chunks]|]|e] eqn:E.
  - split; [intros H; right; split; [right|done]|by intros [[_ (? & [= <-] & ? & _)]|[_ ?]]].
    by intros k (? & [= <-] & ? & _).
  - destruct (decide (institution = turn)) as [->|Hne].
    + rewrite lookup_insert_eq. split.
      * intros [= <-]. left. split; [done|]. by eexists.
      * intros [[_ (chunks' & [= <-] & _ & ->)]|[[?|Hnot] _]]; [done..|].
        destruct (Hnot (length (c :: chunks))). by eexists.
    + rewrite lookup_insert_ne by done. split.
      * intros H. right. split; [by left|done].
      * by intros [[? _]|[_ ?]].
  - split; [intros H; right; split; [right|done]|by intros [[_ (? & [=] & _)]|[_ ?]]].
    by intros k (? & [=] & _).
  - split; [intros H; right; split; [right|done]|by intros [[_ (? & [=] & _)]|[_ ?]]].
    by intros k (? & [=] & _).
Qed.
End MainFacts.

(** X22.  [main] goes through the three institutions whatever happens to
    each of them, and its result dictionary lists an institution, with its
    number of chunks, exactly when the chunking of that institution
    returned at least one chunk: an institution whose report is missing,
    whose chunking raised (the report could not be loaded, its institution
    code is not a string, a call of the chunker or the saving raised), or
    which gave no chunk is left out, and takes no other institution with
    it. *)
Theorem main_results_entries {Chunk TableRecord ImageRecord : Type}
    (new_chunker : Z -> Z -> string ->
                   ChunkingStrategy Chunk TableRecord ImageRecord)
    (read_report :
       string -> option (pyres (ProcessedReport TableRecord ImageRecord)))
    (path_str : list string -> string)
    (institution : string) (n : nat) :
  main_results new_chunker read_report path_str !! institution = Some n <->
  institution ∈ ["hd"; "kb"; "khi"] /\
  (0 < n)%nat /\
  exists chunks,
    chunk_single_institution new_chunker read_report path_str institution
    = Ok (Some chunks) /\
    n = length chunks.
Proof.
  unfold main_results, institutions. simpl.
  rewrite !main_step_lookup, lookup_empty. unfold listed. split.
  - intros [[-> H]|[_ [[-> H]|[_ [[-> H]|[_ ?]]]]]]; [..|done];
      destruct H as (chunks & Hc & Hne & ->);
      (split; [set_solver|]); (split; [destruct chunks; [done|simpl; lia]|]);
      by exists chunks.
  - intros (Hin & Hpos & chunks & Hc & ->).
    assert (Hl : exists chunks',
              chunk_single_institution new_chunker read_report path_str
                institution
              = Ok (Some chunks') /\
              chunks' <> [] /\ length chunks = length chunks').
    { exists chunks. split; [done|]. split; [|done]. by destruct chunks; [simpl in Hpos; lia|]. }
    destruct (decide (institution = "khi")) as [->|Hkhi]; [by left|].
    right. split; [by left|].
    destruct (decide (institution = "kb")) as [->|Hkb]; [by left|].
    right. split; [by left|].
    destruct (decide (institution = "hd")) as [->|Hhd]; [by left|].
    repeat (apply elem_of_cons in Hin as [?|Hin]; [done|]).
    by apply elem_of_nil in Hin.
Qed.

Lemma main_results_entries_witness :
  main_results (fun _ _ _ => sample_chunker) sample_reports sample_path_str
    !! "kb" = Some 4%nat /\
  main_results (fun _ _ _ => sample_chunker) sample_reports sample_path_str
    !! "khi" = None /\
  main_results (fun _ _ _ => sample_chunker) broken_reports sample_path_str
    !! "hd" = None /\
  main_results (fun _ _ _ => sample_chunker) broken_reports sample_path_str
    !! "kb" = Some 4%nat /\
  main_results (fun _ _ _ => sample_chunker) broken_reports sample_path_str
    !! "khi" = None.
Proof.
  assert (Hnone : forall reports institution,
            (forall chunks,
               chunk_single_institution (fun _ _ _ => sample_chunker) reports
                 sample_path_str institution = Ok (Some chunks) ->
               chunks = []) ->
            main_results (fun _ _ _ => sample_chunker) reports sample_path_str
              !! institution = None).
  { intros reports institution Hempty.
    destruct (main_results (fun _ _ _ => sample_chunker) reports
                sample_path_str !! institution) as [n|] eqn:E; [|done].
    apply (main_results_entries (fun _ _ _ => sample_chunker) reports
             sample_path_str institution n) in E
      as (_ & Hpos & chunks & Hc & ->).
    rewrite (Hempty chunks Hc) in Hpos. simpl in Hpos. lia. }
  split; [|split; [|split; [|split]]].
  - apply (main_results_entries (fun _ _ _ => sample_chunker) sample_reports
             sample_path_str "kb" 4).
    split; [set_solver|]. split; [lia|]. by eexists.
  - apply Hnone. by intros chunks [= <-].
  - by apply Hnone.
  - apply (main_results_entries (fun _ _ _ => sample_chunker) broken_reports
             sample_path_str "kb" 4).
    split; [set_solver|]. split; [lia|]. by eexists.
  - by apply Hnone.
Defined.

(** ** [test_multi_institution] *)

Lemma gather_results_alt (search : string -> pyres (list SearchResult))
    (todo : list string) (acc : list SearchResult) :
  gather_results search todo acc
  = acc ++ concat ((fun institution => found (search institution)) <$> todo).
Proof.
  revert acc. induction todo as [|i todo IH]; intros acc; simpl.
  - by rewrite app_nil_r.
  - destruct (search i) as [rs|e]; rewrite IH; simpl; [|done].
    by rewrite <- app_assoc.
Qed.

Lemma test_multi_institution_alt (search : string -> pyres (list SearchResult))
    create (log : CallLog) :
  test_multi_institution search create log
  = match take 5 (found (search "hd") ++ found (search "kb")
                  ++ found (search "khi")) with
    | [] => (Ok None, log)
    | first_five =>
        (answer ← answer_question create "gpt-4o" multi_query first_five true;
         mret (Some answer)) log
    end.
Proof.
  unfold test_multi_institution. rewrite gather_results_alt. simpl.
  rewrite app_nil_r.
  destruct (found (search "hd") ++ found (search "kb") ++ found (search "khi"))
    as [|r rs]; [done|].
  unfold mbind, stx_bind.
  by rewrite (answer_question_first_five_eq create "gpt-4o" multi_query
                (r :: rs) true log).
Qed.

(** X23.  [test_multi_institution] collects the results of the
    institutions in the order hd, kb, khi, leaving out an institution
    whose search raised, and answers from the first five collected
    results only; with nothing collected it returns [None] and sends no
    request.  Hence, when hd and kb together give five results or more,
    the outcome for khi has no influence on the answer. *)
Theorem test_multi_institution_first_five
    (search search' : string -> pyres (list SearchResult)) create
    (log : CallLog) :
  search' "hd" = search "hd" -> search' "kb" = search "kb" ->
  (5 <= length (found (search "hd") ++ found (search "kb")))%nat ->
  test_multi_institution search' create log
  = test_multi_institution search create log /\
  test_multi_institution search create log
  = (answer ← answer_question create "gpt-4o" multi_query
                (take 5 (found (search "hd") ++ found (search "kb"))) true;
     mret (Some answer)) log.
Proof.
  intros Hhd Hkb Hlen.
  assert (Htake : forall extra,
    take 5 (found (search "hd") ++ found (search "kb") ++ extra)
    = take 5 (found (search "hd") ++ found (search "kb"))).
  { intros extra. rewrite app_assoc. by rewrite take_app_le by exact Hlen. }
  assert (H : test_multi_institution search create log
    = (answer ← answer_question create "gpt-4o" multi_query
                  (take 5 (found (search "hd") ++ found (search "kb"))) true;
       mret (Some answer)) log).
  { rewrite test_multi_institution_alt, Htake.
    destruct (take 5 (found (search "hd") ++ found (search "kb")))
      as [|r rs] eqn:E; [|done].
    apply (f_equal length) in E. rewrite length_take in E.
    change (length (@nil SearchResult)) with O in E. lia. }
  split; [|exact H].
  rewrite H, test_multi_institution_alt, Hhd, Hkb, Htake.
  destruct (take 5 (found (search "hd") ++ found (search "kb")))
    as [|r rs] eqn:E; [|done].
  apply (f_equal length) in E. rewrite length_take in E.
    change (length (@nil SearchResult)) with O in E. lia.
Qed.

Lemma test_multi_institution_first_five_witness :
  test_multi_institution
    (fun institution =>
       if decide (institution = "khi") then Ok [sample_broken]
       else sample_search institution)
    good_service []
  = test_multi_institution sample_search good_service [].
Proof.
  apply (test_multi_institution_first_five sample_search
           (fun institution =>
              if decide (institution = "khi") then Ok [sample_broken]
              else sample_search institution)
           good_service []); [done|done|].
  simpl. lia.
Defined.
